(** * Command-line wrappers of the metagenomics scaffold

    A shallow embedding of the three wrapper scripts

    - [executables/MGassembly/assembleReads_by_metaspades.py]
    - [executables/MGassemblyReadMapping/index_MGassembly_by_bowtie.py]
    - [executables/MGassemblyReadMapping/mapReads_MGassembly_by_bowtie.py]

    Each script validates its arguments, builds an argument vector for an
    external executable, runs it and forwards its exit status.  The
    embedding keeps the observable behaviour of a call: the ordered list
    of effects it performs (log records, directory creation, process
    launches) and the way it ends (normal return, [sys.exit], uncaught
    exception).  The external world (what [os.makedirs] and
    [subprocess.run] answer) is a parameter of every function. *)

From Stdlib Require Import String Ascii List ZArith Lia Bool.
From Stdlib Require Import DecimalString.
From Stdlib Require DecimalZ.
From ExtLib Require Import Structures.Monad Structures.MonadExc.
Import ListNotations.
Import MonadNotation.
Local Open Scope string_scope.
Local Open Scope Z_scope.
Local Open Scope monad_scope.

(** ** The Python primitives the scripts use *)

Module Py.

(** Truthiness of the optional values the functions receive: [None], the
    empty string and the empty list are false. *)
Definition truthy_str (s : option string) : bool :=
  match s with
  | None => false
  | Some EmptyString => false
  | Some (String _ _) => true
  end.

Definition truthy_list {A : Type} (l : option (list A)) : bool :=
  match l with
  | None => false
  | Some [] => false
  | Some (_ :: _) => true
  end.

(** [str(n)] for an [int]. *)
Definition str_int (n : Z) : string := NilZero.string_of_int (Z.to_int n).

(** [sep.join(l)]. *)
Definition join (sep : string) (l : list string) : string := String.concat sep l.

(** [s.split(sep)] for a one-character separator: never the empty list,
    [''.split(',')] is [['']]. *)
Fixpoint split (sep : ascii) (s : string) : list string :=
  match s with
  | EmptyString => [EmptyString]
  | String c rest =>
      if Ascii.eqb c sep then EmptyString :: split sep rest
      else match split sep rest with
           | [] => [String c EmptyString]
           | h :: t => String c h :: t
           end
  end.

(** Whitespace in the ASCII range, as [str.isspace] has it: TAB, LF, VT,
    FF, CR, the four separators FS GS RS US, and the space.  White space
    outside ASCII (U+0085, U+00A0 and the like) is not modelled: which
    tokens the validator accepts is stated for ASCII text. *)
Definition is_space (c : ascii) : bool :=
  let n := nat_of_ascii c in
  ((9 <=? n) && (n <=? 13) || (28 <=? n) && (n <=? 32))%nat.

Fixpoint lstrip (s : string) : string :=
  match s with
  | EmptyString => EmptyString
  | String c rest => if is_space c then lstrip rest else s
  end.

Definition reverse (s : string) : string :=
  string_of_list_ascii (rev (list_ascii_of_string s)).

Definition rstrip (s : string) : string := reverse (lstrip (reverse s)).

(** [s.strip()]. *)
Definition strip (s : string) : string := rstrip (lstrip s).

Definition is_digit (c : ascii) : bool :=
  let n := nat_of_ascii c in ((48 <=? n) && (n <=? 57))%nat.

Definition digit_value (c : ascii) : Z := Z.of_nat (nat_of_ascii c) - 48.

(** The digit part of a base-10 literal: decimal digits, with single
    underscores allowed between two digits.  [prev] records that the
    previous character was a digit. *)
Fixpoint int_digits (s : string) (acc : Z) (prev : bool) : option Z :=
  match s with
  | EmptyString => if prev then Some acc else None
  | String c rest =>
      if is_digit c then int_digits rest (10 * acc + digit_value c) true
      else if Ascii.eqb c "_"%char && prev then int_digits rest acc false
      else None
  end.

(** [int(s)] on a string, base 10: surrounding whitespace is dropped, one
    optional sign, then the digits.  [None] stands for [ValueError].
    Strings are taken as ASCII text: the decimal digits of other scripts,
    which the interpreter also reads, are outside this model, and so is
    the interpreter's limit on the number of digits of a literal (4300
    by default from CPython 3.11 on).  Which tokens the validator
    accepts is stated for ASCII text within that limit. *)
Definition int (s : string) : option Z :=
  match strip s with
  | String "+"%char rest => int_digits rest 0 false
  | String "-"%char rest => option_map Z.opp (int_digits rest 0 false)
  | t => int_digits t 0 false
  end.

Definition hex_digit (n : nat) : ascii :=
  if (n <? 10)%nat then ascii_of_nat (48 + n) else ascii_of_nat (87 + n).

Fixpoint contains_char (c : ascii) (s : string) : bool :=
  match s with
  | EmptyString => false
  | String d rest => Ascii.eqb c d || contains_char c rest
  end.

(** One character of [repr(s)], for the chosen quote character.
    Characters beyond ASCII are printed as they are; the interpreter
    escapes those of them that are not printable. *)
Definition repr_char (quote c : ascii) : string :=
  let n := nat_of_ascii c in
  if Ascii.eqb c quote || Ascii.eqb c "\"%char then String "\"%char (String c EmptyString)
  else if (n =? 9)%nat then "\t"
  else if (n =? 10)%nat then "\n"
  else if (n =? 13)%nat then "\r"
  else if ((n <? 32) || (n =? 127))%nat then
    String "\"%char (String "x"%char
      (String (hex_digit (n / 16)) (String (hex_digit (n mod 16)) EmptyString)))
  else String c EmptyString.

Fixpoint repr_body (quote : ascii) (s : string) : string :=
  match s with
  | EmptyString => EmptyString
  | String c rest => repr_char quote c ++ repr_body quote rest
  end.

(** [repr(s)] for a string: single quotes, unless the string holds a
    single quote and no double quote. *)
Definition double_quote : ascii := ascii_of_nat 34.

Definition repr_str (s : string) : string :=
  let quote :=
    if contains_char "'"%char s && negb (contains_char double_quote s)
    then double_quote else "'"%char in
  String quote (repr_body quote s ++ String quote EmptyString).

(** [repr(l)] for a list of strings, which is also its [str] and what an
    f-string prints. *)
Definition repr_list (l : list string) : string :=
  "[" ++ join ", " (map repr_str l) ++ "]".

Fixpoint take (n : nat) (s : string) : string :=
  match n, s with
  | O, _ => EmptyString
  | S _, EmptyString => EmptyString
  | S m, String c rest => String c (take m rest)
  end.

(** The text of the [ValueError] that [int(s)] raises: the literal is
    printed with [%.200R]. *)
Definition int_error_text (s : string) : string :=
  "invalid literal for int() with base 10: " ++ take 200 (repr_str s).

(** [startswith('/')] and [endswith('/')]. *)
Definition starts_with_sep (s : string) : bool :=
  match s with
  | String "/"%char _ => true
  | _ => false
  end.

Fixpoint ends_with_sep (s : string) : bool :=
  match s with
  | EmptyString => false
  | String c EmptyString => Ascii.eqb c "/"%char
  | String _ rest => ends_with_sep rest
  end.

(** [os.path.join(a, b)] of [posixpath], for two components. *)
Definition os_path_join (a b : string) : string :=
  if starts_with_sep b then b
  else if match a with EmptyString => true | _ => ends_with_sep a end then a ++ b
  else a ++ "/" ++ b.

End Py.

(** ** Effects, outcomes and the external world *)

Inductive level : Type := INFO | ERROR.

(** What a call does that can be seen from outside, in order: a record
    sent to the logger, a call of [os.makedirs(path, exist_ok=True)], a
    call of [subprocess.run(cmd, check=True, ...)]. *)
Inductive event : Type :=
| Log (lv : level) (msg : string)
| MakeDirs (path : string)
| Run (cmd : list string).

(** The exceptions that occur in the scripts. *)
Inductive exn : Type :=
| ValueError (msg : string)
| NameError (name : string)
| TypeError (msg : string)
| OSError (msg : string)
| FileNotFoundError (msg : string)
| CalledProcessError (returncode : Z) (cmd : list string)
| OtherException (msg : string).

(** [str(e)], what [f"{e}"] prints. *)
Definition exn_str (e : exn) : string :=
  match e with
  | ValueError msg | TypeError msg | OSError msg
  | FileNotFoundError msg | OtherException msg => msg
  | NameError name => "name '" ++ name ++ "' is not defined"
  | CalledProcessError rc cmd =>
      "Command '" ++ Py.repr_list cmd ++ "' returned non-zero exit status "
      ++ Py.str_int rc ++ "."
  end.

(** How a call ends: it returns a value, the process is terminated by
    [sys.exit(status)], or an exception leaves the function. *)
Inductive outcome (A : Type) : Type :=
| Return (a : A)
| Exit (status : Z)
| Raise (e : exn).
Arguments Return {A} a.
Arguments Exit {A} status.
Arguments Raise {A} e.

(** A computation: the events performed, and the outcome. *)
Definition py (A : Type) : Type := (list event * outcome A)%type.

Definition trace {A : Type} (m : py A) : list event := fst m.
Definition result {A : Type} (m : py A) : outcome A := snd m.

#[export] Instance Monad_py : Monad py :=
  {| ret := fun A (a : A) => ([], Return a);
     bind := fun A B (m : py A) (f : A -> py B) =>
       match m with
       | (t, Return a) => let (t', o) := f a in ((t ++ t')%list, o)
       | (t, Exit c) => (t, Exit c)
       | (t, Raise e) => (t, Raise e)
       end |}.

(** [raise] and [try ... except]: only exceptions are caught, a
    [sys.exit] inside the body passes through ([SystemExit] is not an
    [Exception]). *)
#[export] Instance Exc_py : MonadExc exn py :=
  {| raise := fun A (e : exn) => ([], Raise e);
     catch := fun A (m : py A) (h : exn -> py A) =>
       match m with
       | (t, Raise e) => let (t', o) := h e in ((t ++ t')%list, o)
       | _ => m
       end |}.

(** What the operating system answers to a process launch. *)
Inductive run_result : Type :=
| Exited (returncode : Z)
| NotFound (msg : string)
| Failed (msg : string).

(** The environment of a call: [os_makedirs path] is [None] when the
    directory exists or could be created and the error text otherwise;
    [spawn cmd] is what launching [cmd] and waiting for it gives. *)
Record world : Type := {
  os_makedirs : string -> option string;
  spawn : list string -> run_result
}.

Definition logger_info (msg : string) : py unit := ([Log INFO msg], Return tt).
Definition logger_error (msg : string) : py unit := ([Log ERROR msg], Return tt).
Definition sys_exit {A : Type} (status : Z) : py A := ([], Exit status).

Definition makedirs (w : world) (path : string) : py unit :=
  ([MakeDirs path],
   match os_makedirs w path with
   | None => Return tt
   | Some msg => Raise (OSError msg)
   end).

(** [subprocess.run(cmd, check=True, text=True, capture_output=False)]:
    a non-zero return code becomes [CalledProcessError]. *)
Definition subprocess_run (w : world) (cmd : list string) : py unit :=
  ([Run cmd],
   match spawn w cmd with
   | Exited rc => if rc =? 0 then Return tt else Raise (CalledProcessError rc cmd)
   | NotFound msg => Raise (FileNotFoundError msg)
   | Failed msg => Raise (OtherException msg)
   end).

(** An [if] statement without [else]. *)
Definition when (b : bool) (m : py unit) : py unit := if b then m else ret tt.

(** The value of a parameter that may be [None], where the code uses it
    as a string, a list or a number. *)
Definition value {A : Type} (o : option A) : py A :=
  match o with
  | Some a => ret a
  | None => raise (TypeError "NoneType")
  end.

(** [cmd.extend(l)], on the value of the list. *)
Definition extend (cmd l : list string) : list string := (cmd ++ l)%list.

(** [enumerate(l)]. *)
Definition enumerate {A : Type} (l : list A) : list (nat * A) :=
  combine (seq 0 (length l)) l.

(** The commands a trace launched, in order. *)
Fixpoint launched (t : list event) : list (list string) :=
  match t with
  | [] => []
  | Run cmd :: rest => cmd :: launched rest
  | _ :: rest => launched rest
  end.

(** The exit status the operating system reports for [sys.exit(n)]:
    the low eight bits. *)
Definition process_status (n : Z) : Z := Z.land n 255.

(** ** [assembleReads_by_metaspades.py] *)

Module Metaspades.

(** The body of the [try] block of [validate_kmers], for one token:
    the text to append to [validated_kmers], or a [ValueError]. *)
Definition kmer_try (k : string) : py string :=
  k_int <- match Py.int (Py.strip k) with
           | Some n => ret n
           | None => raise (ValueError (Py.int_error_text (Py.strip k)))
           end ;;
  when (negb (k_int <=? 150))
    (raise (ValueError ("K-mer value '" ++ Py.str_int k_int
                        ++ "' is out of the allowed range (under 128).")))%string ;;
  when (k_int mod 2 =? 0)
    (raise (ValueError ("K-mer value '" ++ Py.str_int k_int
                        ++ "' must be an odd number.")))%string ;;
  ret (Py.str_int k_int).

(** The [except ValueError as e] clause. *)
Definition kmer_except (k : string) (e : exn) : py string :=
  match e with
  | ValueError _ =>
      logger_error ("Invalid k-mer value '" ++ k ++ "': " ++ exn_str e) ;;
      sys_exit 1
  | _ => raise e
  end.

(** The [for k in k_list] loop, with the list built so far. *)
Fixpoint kmer_loop (k_list : list string) (validated_kmers : list string)
  : py (list string) :=
  match k_list with
  | [] => ret validated_kmers
  | k :: rest =>
      s <- catch (kmer_try k) (kmer_except k) ;;
      kmer_loop rest (extend validated_kmers [s])
  end.

Definition validate_kmers (kmer_str : option string) : py string :=
  match kmer_str with
  | None | Some EmptyString => ret ""
  | Some s =>
      let k_list := Py.split ","%char s in
      validated_kmers <- kmer_loop k_list [] ;;
      ret (Py.join "," validated_kmers)
  end.

(** One round of the loop over [enumerate(zip(r1_reads, r2_reads))]. *)
Definition add_pair (cmd : list string) (p : nat * (string * string))
  : list string :=
  let '(i, (r1, r2)) := p in
  if (i =? 0)%nat then extend cmd ["-1"; r1; "-2"; r2]
  else extend cmd ["--pe" ++ Py.str_int (Z.of_nat i) ++ "-1"; r1;
                "--pe" ++ Py.str_int (Z.of_nat i) ++ "-2"; r2].

(** The [except] clauses around [subprocess.run]. *)
Definition run_except (e : exn) : py unit :=
  match e with
  | CalledProcessError returncode cmd =>
      logger_error ("SPAdes command failed with exit code " ++ Py.str_int returncode) ;;
      logger_error ("Command: " ++ Py.repr_list cmd) ;;
      sys_exit returncode
  | FileNotFoundError _ =>
      logger_error ("Error: 'spades.py' command not found. "
                    ++ "Ensure SPAdes is installed and in your PATH within the container.") ;;
      sys_exit 1
  | _ =>
      logger_error ("An unexpected error occurred: " ++ exn_str e) ;;
      sys_exit 1
  end.

Definition run_metaspades (w : world)
  (r1_reads r2_reads single_reads merged_reads : option (list string))
  (output_dir assembly_name : option string)
  (threads memory_limit_gb : option Z) (kmers : option string) : py unit :=
  when (negb (Py.truthy_list r1_reads) || negb (Py.truthy_list r2_reads))
    (logger_error "Error: Paired-end R1 and R2 reads are mandatory." ;; sys_exit 1) ;;
  r1 <- value r1_reads ;;
  r2 <- value r2_reads ;;
  when (negb (length r1 =? length r2)%nat)
    (logger_error "Error: Number of R1 files must match the number of R2 files." ;;
     sys_exit 1) ;;
  when (negb (Py.truthy_str output_dir))
    (logger_error "Error: Output directory is mandatory." ;; sys_exit 1) ;;
  when (negb (Py.truthy_str assembly_name))
    (logger_error "Error: Assembly name is mandatory." ;; sys_exit 1) ;;
  when (match threads with None => true | Some _ => false end)
    (logger_error "Error: Number of threads is mandatory." ;; sys_exit 1) ;;
  validated_kmers_str <- validate_kmers kmers ;;
  logger_info ("Using k-mers: " ++ validated_kmers_str) ;;
  out <- value output_dir ;;
  makedirs w out ;;
  logger_info ("SPAdes output will be written to: " ++ out) ;;
  t <- value threads ;;
  let cmd := ["spades.py"; "--meta"] in
  let cmd := extend cmd ["-o"; out] in
  let cmd := extend cmd ["-t"; Py.str_int t] in
  cmd <- match memory_limit_gb with
         | Some m =>
             let cmd := extend cmd ["-m"; Py.str_int m] in
             logger_info ("Setting SPAdes memory limit to " ++ Py.str_int m ++ " GB.") ;;
             ret cmd
         | None => ret cmd
         end ;;
  let cmd := extend cmd ["-k"; validated_kmers_str] in
  let cmd := fold_left add_pair (enumerate (combine r1 r2)) cmd in
  let cmd := match single_reads with
             | Some ((_ :: _) as l) =>
                 fold_left (fun c s_read => extend c ["-s"; s_read]) l cmd
             | _ => cmd
             end in
  let cmd := match merged_reads with
             | Some ((_ :: _) as l) =>
                 fold_left (fun c m_read => extend c ["--merged"; m_read]) l cmd
             | _ => cmd
             end in
  logger_info ("Executing SPAdes command: " ++ Py.join " " cmd) ;;
  catch (subprocess_run w cmd ;;
         logger_info "SPAdes execution completed successfully.")
        run_except.

End Metaspades.

(** ** [index_MGassembly_by_bowtie.py] *)

Module BowtieIndex.

Definition run_except (e : exn) : py unit :=
  match e with
  | CalledProcessError returncode cmd =>
      logger_error ("Indexing command failed with exit code " ++ Py.str_int returncode) ;;
      logger_error ("Command: " ++ Py.repr_list cmd) ;;
      sys_exit returncode
  | FileNotFoundError _ =>
      logger_error ("Error: 'bowtie2-build' command not found. "
                    ++ "Ensure bowtie2 is installed and in your PATH within the container.") ;;
      sys_exit 1
  | _ =>
      logger_error ("An unexpected error occurred: " ++ exn_str e) ;;
      sys_exit 1
  end.

Definition run_bowtie_indexing (w : world)
  (input_assembly output_index_name output_dir : option string) : py unit :=
  when (negb (Py.truthy_str input_assembly))
    (logger_error "Error: Assembly input is mandatory." ;; sys_exit 1) ;;
  when (negb (Py.truthy_str output_index_name))
    (logger_error "Error: Output index name is mandatory." ;; sys_exit 1) ;;
  when (negb (Py.truthy_str output_dir))
    (logger_error "Error: Output location is mandatory." ;; sys_exit 1) ;;
  assembly <- value input_assembly ;;
  name <- value output_index_name ;;
  dir <- value output_dir ;;
  makedirs w dir ;;
  logger_info ("Index output will be written to: " ++ dir) ;;
  let output_path := dir ++ name ++ "_bowtie2_index" in
  let cmd := ["bowtie2-build"] in
  let cmd := extend cmd [assembly] in
  let cmd := extend cmd [output_path] in
  logger_info ("Executing indexing command: " ++ Py.join " " cmd) ;;
  catch (subprocess_run w cmd ;;
         logger_info "Indexing execution completed successfully.")
        run_except.

End BowtieIndex.

(** ** [mapReads_MGassembly_by_bowtie.py] *)

Module BowtieMapping.

Definition run_except (e : exn) : py unit :=
  match e with
  | CalledProcessError returncode cmd =>
      logger_error ("Bowtie2 command failed with exit code " ++ Py.str_int returncode) ;;
      logger_error ("Command: " ++ Py.repr_list cmd) ;;
      sys_exit returncode
  | FileNotFoundError _ =>
      logger_error ("Error: 'bowtie2' command not found. "
                    ++ "Ensure Bowtie2 is installed and in your PATH within the container.") ;;
      sys_exit 1
  | _ =>
      logger_error ("An unexpected error occurred: " ++ exn_str e) ;;
      sys_exit 1
  end.

Definition run_mapping (w : world)
  (bowtie2_index_folder : option string)
  (r1_reads r2_reads single_reads : option (list string))
  (output_dir assembly_name metagenome_name : option string)
  (threads : option Z) : py unit :=
  when (negb (Py.truthy_str bowtie2_index_folder))
    (logger_error "Error: Index location is mandatory." ;; sys_exit 1) ;;
  when (negb (Py.truthy_list r1_reads) || negb (Py.truthy_list r2_reads))
    (logger_error "Error: Paired-end R1 and R2 reads are mandatory." ;; sys_exit 1) ;;
  r1 <- value r1_reads ;;
  r2 <- value r2_reads ;;
  when (negb (length r1 =? length r2)%nat)
    (logger_error "Error: Number of R1 files must match the number of R2 files." ;;
     sys_exit 1) ;;
  when (negb (Py.truthy_str output_dir))
    (logger_error "Error: Output directory is mandatory." ;; sys_exit 1) ;;
  when (negb (Py.truthy_str assembly_name))
    (logger_error "Error: Assembly name is mandatory." ;; sys_exit 1) ;;
  when (negb (Py.truthy_str metagenome_name))
    (logger_error "Error: Metagenome name is mandatory." ;; sys_exit 1) ;;
  when (match threads with None => true | Some _ => false end)
    (logger_error "Error: Number of threads is mandatory." ;; sys_exit 1) ;;
  out <- value output_dir ;;
  makedirs w out ;;
  logger_info ("Mapping output will be written to: " ++ out) ;;
  folder <- value bowtie2_index_folder ;;
  assembly <- value assembly_name ;;
  let index_prefix := Py.os_path_join folder (assembly ++ "_bowtie2_index") in
  let cmd := ["bowtie2"] in
  let cmd := extend cmd ["-x"; index_prefix] in
  let r1_files_str := Py.join "," r1 in
  let r2_files_str := Py.join "," r2 in
  let single_reads_str := match single_reads with
                          | Some ((_ :: _) as l) => Py.join "," l
                          | _ => ""
                          end in
  let cmd := extend cmd ["-1"; r1_files_str; "-2"; r2_files_str] in
  let cmd := match single_reads_str with
             | EmptyString => cmd
             | _ => extend cmd ["-U"; single_reads_str]
             end in
  t <- value threads ;;
  let cmd := extend cmd ["-p"; Py.str_int t] in
  metagenome <- value metagenome_name ;;
  let output_file :=
    Py.os_path_join out (metagenome ++ "_to_" ++ assembly ++ "_bowtie2.sam") in
  let cmd := extend cmd ["-S"; output_file] in
  logger_info ("Executing Bowtie2 mapping command: " ++ Py.join " " cmd) ;;
  catch (subprocess_run w cmd ;;
         logger_info "Bowtie2 execution completed successfully.")
        run_except.

(** The argument checks shared, up to the wording, by the three
    post-alignment functions; [what] is the end of the message. *)
Definition samtools_checks (what : string)
  (output_dir assembly_name metagenome_name : option string) : py unit :=
  when (negb (Py.truthy_str output_dir))
    (logger_error ("Error: Output directory is mandatory for samtools " ++ what ++ ".") ;;
     sys_exit 1) ;;
  when (negb (Py.truthy_str assembly_name))
    (logger_error ("Error: Assembly name is mandatory for samtools " ++ what ++ ".") ;;
     sys_exit 1) ;;
  when (negb (Py.truthy_str metagenome_name))
    (logger_error ("Error: Metagenome name is mandatory for samtools " ++ what ++ ".") ;;
     sys_exit 1).

Definition samtools_view
  (output_dir assembly_name metagenome_name : option string) : py unit :=
  samtools_checks "conversion" output_dir assembly_name metagenome_name ;;
  out <- value output_dir ;;
  assembly <- value assembly_name ;;
  metagenome <- value metagenome_name ;;
  let sam_file :=
    Py.os_path_join out (metagenome ++ "_to_" ++ assembly ++ "_bowtie2.sam") in
  let bam_file :=
    Py.os_path_join out (metagenome ++ "_to_" ++ assembly ++ "_bowtie2_unsorted.bam") in
  let cmd := ["samtools"; "view"; "-b"; sam_file; "-o"; bam_file] in
  logger_info ("Converting SAM file " ++ sam_file ++ " to BAM format at " ++ bam_file
               ++ ": " ++ Py.join " " cmd).

(** The objects bound to names at module level: only what [str] makes
    of them matters here. *)
Inductive pyval : Type :=
| VInt (n : Z)
| VObject (descr : string).

Definition str_val (v : pyval) : string :=
  match v with
  | VInt n => Py.str_int n
  | VObject descr => descr
  end.

(** The global name space of the script: the names its top level binds
    (five imports, [logger], five functions).  No built-in is called
    [threads] either. *)
Definition script_globals : list (string * pyval) :=
  [("argparse", VObject "module"); ("subprocess", VObject "module");
   ("os", VObject "module"); ("sys", VObject "module");
   ("logging", VObject "module"); ("logger", VObject "Logger");
   ("run_mapping", VObject "function"); ("samtools_view", VObject "function");
   ("samtools_sort", VObject "function"); ("samtools_index", VObject "function");
   ("main", VObject "function")].

(** Reading a name that the function neither receives nor assigns: it
    is looked up in the global name space when the expression is
    evaluated. *)
Fixpoint load_global (globals : list (string * pyval)) (name : string) : py pyval :=
  match globals with
  | [] => raise (NameError name)
  | (n, v) :: rest => if String.eqb n name then ret v else load_global rest name
  end.

Definition samtools_sort (globals : list (string * pyval))
  (output_dir assembly_name metagenome_name : option string) : py unit :=
  samtools_checks "sorting" output_dir assembly_name metagenome_name ;;
  out <- value output_dir ;;
  assembly <- value assembly_name ;;
  metagenome <- value metagenome_name ;;
  let bam_file :=
    Py.os_path_join out (metagenome ++ "_to_" ++ assembly ++ "_bowtie2_unsorted.bam") in
  let sorted_bam_file :=
    Py.os_path_join out (metagenome ++ "_to_" ++ assembly ++ "_bowtie2.bam") in
  let cmd := ["samtools"; "sort"] in
  threads <- load_global globals "threads" ;;
  let cmd := extend cmd ["-@"; str_val threads] in
  let cmd := extend cmd [bam_file; "-o"; sorted_bam_file] in
  logger_info ("Sorting BAM file " ++ bam_file ++ " to " ++ sorted_bam_file
               ++ ": " ++ Py.join " " cmd).

Definition samtools_index
  (output_dir assembly_name metagenome_name : option string) : py unit :=
  samtools_checks "indexing" output_dir assembly_name metagenome_name ;;
  out <- value output_dir ;;
  assembly <- value assembly_name ;;
  metagenome <- value metagenome_name ;;
  let sorted_bam_file :=
    Py.os_path_join out (metagenome ++ "_to_" ++ assembly ++ "_bowtie2.bam") in
  let cmd := ["samtools"; "index"; sorted_bam_file] in
  logger_info ("Indexing BAM file " ++ sorted_bam_file ++ ": " ++ Py.join " " cmd).

(** What [parser.parse_args()] hands to [main]: one field per option of
    the parser.  The parsing itself is the work of [argparse] and is not
    modelled; [single] is the empty list when the option is absent. *)
Record namespace : Type := {
  bowtie2_index_folder : string;
  r1 : list string;
  r2 : list string;
  single : list string;
  output_dir : string;
  assembly_name : string;
  metagenome_name : string;
  threads : Z
}.

(** [main], from the parsed arguments on: the alignment, then the three
    post-alignment steps, each called with keyword arguments. *)
Definition main (w : world) (args : namespace) : py unit :=
  run_mapping w (Some (bowtie2_index_folder args)) (Some (r1 args)) (Some (r2 args))
    (Some (single args)) (Some (output_dir args)) (Some (assembly_name args))
    (Some (metagenome_name args)) (Some (threads args)) ;;
  samtools_view (Some (output_dir args)) (Some (assembly_name args))
    (Some (metagenome_name args)) ;;
  samtools_sort script_globals (Some (output_dir args)) (Some (assembly_name args))
    (Some (metagenome_name args)) ;;
  samtools_index (Some (output_dir args)) (Some (assembly_name args))
    (Some (metagenome_name args)).

End BowtieMapping.

(** * Notions used in the statements *)

(** ** Tokens of a k-mer string *)

(** The integer a token stands for, as the validator reads it. *)
Definition parses_as (k : string) (n : Z) : Prop := Py.int (Py.strip k) = Some n.

(** A token the validator lets through: an odd integer, at most 150. *)
Definition acceptable (k : string) : Prop :=
  exists n, parses_as k n /\ n <= 150 /\ Z.odd n = true.

(** A token the validator refuses: not an integer, an even integer, or
    an integer above 150. *)
Definition offending (k : string) : Prop :=
  Py.int (Py.strip k) = None
  \/ exists n, parses_as k n /\ (Z.even n = true \/ 150 < n).

(** The text on which the string model and the interpreter agree: every
    character is an ASCII character.  Beyond ASCII the interpreter knows
    further white space and further decimal digits, which [Py.strip] and
    [Py.int] do not. *)
Definition is_ascii (c : ascii) : bool := (nat_of_ascii c <? 128)%nat.

Definition ascii_text (s : string) : Prop :=
  Forall (fun c => is_ascii c = true) (list_ascii_of_string s).

(** The number of decimal digits in a token. *)
Fixpoint digit_count (s : string) : nat :=
  match s with
  | EmptyString => O
  | String c rest => ((if Py.is_digit c then 1 else 0) + digit_count rest)%nat
  end.

(** The interpreter's default limit on the digits of an integer literal
    ([sys.int_info.default_max_str_digits], CPython 3.11 and later): a
    longer literal makes [int] raise [ValueError] whatever its value.
    Earlier interpreters have no limit. *)
Definition max_str_digits : nat := 4300.

(** A token short enough for [int] to read it under the default limit. *)
Definition within_digit_limit (k : string) : Prop :=
  (digit_count k <= max_str_digits)%nat.

(** ** Decimal digits and white space *)

(** The value of a digit sequence read from the left, after [acc]. *)
Fixpoint uint_value (d : Decimal.uint) (acc : Z) : Z :=
  match d with
  | Decimal.Nil => acc
  | Decimal.D0 l => uint_value l (10 * acc)
  | Decimal.D1 l => uint_value l (10 * acc + 1)
  | Decimal.D2 l => uint_value l (10 * acc + 2)
  | Decimal.D3 l => uint_value l (10 * acc + 3)
  | Decimal.D4 l => uint_value l (10 * acc + 4)
  | Decimal.D5 l => uint_value l (10 * acc + 5)
  | Decimal.D6 l => uint_value l (10 * acc + 6)
  | Decimal.D7 l => uint_value l (10 * acc + 7)
  | Decimal.D8 l => uint_value l (10 * acc + 8)
  | Decimal.D9 l => uint_value l (10 * acc + 9)
  end.

(** A string without white space is left alone by [strip]. *)
Definition no_space (s : string) : Prop :=
  Forall (fun c => Py.is_space c = false) (list_ascii_of_string s).

(** A string without a comma is one token. *)
Definition no_comma (s : string) : Prop :=
  Forall (fun c => Ascii.eqb c ","%char = false) (list_ascii_of_string s).

(** ** The wrappers past their checks *)

(** The argument vector [run_metaspades] has built when it reaches
    [subprocess.run]; [ks] is what [validate_kmers] returned. *)
Definition spades_cmd (r1 r2 : list string) (single_reads merged_reads : option (list string))
  (out : string) (t : Z) (memory_limit_gb : option Z) (ks : string) : list string :=
  let cmd := ["spades.py"; "--meta"] in
  let cmd := extend cmd ["-o"; out] in
  let cmd := extend cmd ["-t"; Py.str_int t] in
  let cmd := match memory_limit_gb with
             | Some m => extend cmd ["-m"; Py.str_int m]
             | None => cmd
             end in
  let cmd := extend cmd ["-k"; ks] in
  let cmd := fold_left Metaspades.add_pair (enumerate (combine r1 r2)) cmd in
  let cmd := match single_reads with
             | Some ((_ :: _) as l) =>
                 fold_left (fun c s_read => extend c ["-s"; s_read]) l cmd
             | _ => cmd
             end in
  match merged_reads with
  | Some ((_ :: _) as l) =>
      fold_left (fun c m_read => extend c ["--merged"; m_read]) l cmd
  | _ => cmd
  end.

(** The [try] statement around the launch. *)
Definition spades_launch (w : world) (cmd : list string) : py unit :=
  catch (subprocess_run w cmd ;;
         logger_info "SPAdes execution completed successfully.")
        Metaspades.run_except.

(** The records logged between the checks and the launch. *)
Definition spades_preamble (out : string) (memory_limit_gb : option Z)
  (ks : string) (cmd : list string) : list event :=
  ([Log INFO ("Using k-mers: " ++ ks); MakeDirs out;
    Log INFO ("SPAdes output will be written to: " ++ out)]
   ++ match memory_limit_gb with
      | Some m => [Log INFO ("Setting SPAdes memory limit to " ++ Py.str_int m ++ " GB.")]
      | None => []
      end
   ++ [Log INFO ("Executing SPAdes command: " ++ Py.join " " cmd)])%list.

(** What one round of the loop appends for pair number [i]. *)
Definition pair_flags (i : nat) (a b : string) : list string :=
  if (i =? 0)%nat then ["-1"; a; "-2"; b]
  else ["--pe" ++ Py.str_int (Z.of_nat i) ++ "-1"; a;
        "--pe" ++ Py.str_int (Z.of_nat i) ++ "-2"; b].

(** The argument vector of [run_bowtie_indexing]. *)
Definition index_cmd (assembly name dir : string) : list string :=
  let output_path := dir ++ name ++ "_bowtie2_index" in
  let cmd := ["bowtie2-build"] in
  let cmd := extend cmd [assembly] in
  extend cmd [output_path].

(** The [try] statement around the launch of the index build. *)
Definition index_launch (w : world) (cmd : list string) : py unit :=
  catch (subprocess_run w cmd ;;
         logger_info "Indexing execution completed successfully.")
        BowtieIndex.run_except.

(** What [run_bowtie_indexing] does between the checks and the launch. *)
Definition index_preamble (dir : string) (cmd : list string) : list event :=
  [MakeDirs dir; Log INFO ("Index output will be written to: " ++ dir);
   Log INFO ("Executing indexing command: " ++ Py.join " " cmd)].

(** The argument vector of [run_mapping]. *)
Definition mapping_cmd (folder : string) (r1 r2 : list string)
  (single_reads : option (list string)) (out assembly metagenome : string) (t : Z)
  : list string :=
  let index_prefix := Py.os_path_join folder (assembly ++ "_bowtie2_index") in
  let cmd := ["bowtie2"] in
  let cmd := extend cmd ["-x"; index_prefix] in
  let r1_files_str := Py.join "," r1 in
  let r2_files_str := Py.join "," r2 in
  let single_reads_str := match single_reads with
                          | Some ((_ :: _) as l) => Py.join "," l
                          | _ => ""
                          end in
  let cmd := extend cmd ["-1"; r1_files_str; "-2"; r2_files_str] in
  let cmd := match single_reads_str with
             | EmptyString => cmd
             | _ => extend cmd ["-U"; single_reads_str]
             end in
  let cmd := extend cmd ["-p"; Py.str_int t] in
  let output_file :=
    Py.os_path_join out (metagenome ++ "_to_" ++ assembly ++ "_bowtie2.sam") in
  extend cmd ["-S"; output_file].

(** The [try] statement around the launch of the aligner. *)
Definition mapping_launch (w : world) (cmd : list string) : py unit :=
  catch (subprocess_run w cmd ;;
         logger_info "Bowtie2 execution completed successfully.")
        BowtieMapping.run_except.

(** What [run_mapping] does between the checks and the launch. *)
Definition mapping_preamble (out : string) (cmd : list string) : list event :=
  [MakeDirs out; Log INFO ("Mapping output will be written to: " ++ out);
   Log INFO ("Executing Bowtie2 mapping command: " ++ Py.join " " cmd)].

(** ** Worlds used in the examples *)

(** Directories can be created; every launched tool ends with [rc]. *)
Definition world_exit (rc : Z) : world :=
  {| os_makedirs := fun _ => None; spawn := fun _ => Exited rc |}.

(** Directories can be created; no executable is found. *)
Definition world_no_tool : world :=
  {| os_makedirs := fun _ => None;
     spawn := fun _ => NotFound "[Errno 2] No such file or directory" |}.

(** No directory can be created; every launched tool would succeed. *)
Definition world_no_mkdir : world :=
  {| os_makedirs := fun _ => Some "[Errno 13] Permission denied";
     spawn := fun _ => Exited 0 |}.

(** ** The ways a wrapper can end *)

(** Either nothing was launched, and the call ended with status 1 or with
    an [OSError]; or exactly one command was launched, and the call ended
    as the launch did: a normal return for return code 0, the return code
    as exit status otherwise, status 1 when the launch itself failed. *)
Definition wrapper_outcome (w : world) (run : py unit) : Prop :=
  (launched (trace run) = []
   /\ (result run = Exit 1 \/ exists msg, result run = Raise (OSError msg)))
  \/ (exists cmd,
        launched (trace run) = [cmd]
        /\ result run = match spawn w cmd with
                        | Exited rc => if rc =? 0 then Return tt else Exit rc
                        | NotFound _ | Failed _ => Exit 1
                        end).

(** * Properties *)

(** ** The primitives on small inputs *)

Example split_keeps_empty_tokens : Py.split ","%char "a,,b," = ["a"; ""; "b"; ""].
Proof. reflexivity. Qed.

Example split_empty : Py.split ","%char "" = [""].
Proof. reflexivity. Qed.

Example strip_both_ends : Py.strip "  21 " = "21".
Proof. reflexivity. Qed.

Example int_literals :
  map Py.int ["21"; " -5 "; "+3_3"; "007"; "0"; ""; "-"; "2 1"; "1__0"; "_1"; "1_"; "21.0"; "k"]
  = [Some 21; Some (-5); Some 33; Some 7; Some 0; None; None; None; None; None; None;
     None; None].
Proof. reflexivity. Qed.

Example str_int_values : map Py.str_int [0; 7; 150; -5] = ["0"; "7"; "150"; "-5"].
Proof. reflexivity. Qed.

Example repr_list_value : Py.repr_list ["spades.py"; "-o"; "out"] = "['spades.py', '-o', 'out']".
Proof. reflexivity. Qed.

Example os_path_join_values :
  map (fun p => Py.os_path_join (fst p) (snd p))
    [("/idx/", "x"); ("/idx", "x"); ("", "x"); ("/idx", "/x")]
  = ["/idx/x"; "/idx/x"; "x"; "/x"].
Proof. reflexivity. Qed.

Example validate_kmers_default :
  Metaspades.validate_kmers (Some "21,33,55,77,99,127") = ([], Return "21,33,55,77,99,127").
Proof. reflexivity. Qed.

Example validate_kmers_even :
  Metaspades.validate_kmers (Some "21,22")
  = ([Log ERROR "Invalid k-mer value '22': K-mer value '22' must be an odd number."],
     Exit 1).
Proof. reflexivity. Qed.

Example validate_kmers_above :
  Metaspades.validate_kmers (Some "21,151")
  = ([Log ERROR "Invalid k-mer value '151': K-mer value '151' is out of the allowed range (under 128)."],
     Exit 1).
Proof. reflexivity. Qed.

Example validate_kmers_not_int :
  Metaspades.validate_kmers (Some "21, x")
  = ([Log ERROR "Invalid k-mer value ' x': invalid literal for int() with base 10: 'x'"],
     Exit 1).
Proof. reflexivity. Qed.

Example validate_kmers_negative :
  Metaspades.validate_kmers (Some "-5") = ([], Return "-5").
Proof. reflexivity. Qed.

(** ** Running computations *)

Lemma bind_return {A B : Type} (a : A) (f : A -> py B) (t : list event) :
  bind ((t, Return a) : py A) f = ((t ++ trace (f a))%list, result (f a)).
Proof. cbn. destruct (f a); reflexivity. Qed.

Lemma bind_exit {A B : Type} (c : Z) (f : A -> py B) (t : list event) :
  bind ((t, Exit c) : py A) f = (t, Exit c).
Proof. reflexivity. Qed.

Lemma bind_raise {A B : Type} (e : exn) (f : A -> py B) (t : list event) :
  bind ((t, Raise e) : py A) f = (t, Raise e).
Proof. reflexivity. Qed.

Lemma pair_trace_result {A : Type} (m : py A) : (trace m, result m) = m.
Proof. destruct m; reflexivity. Qed.

Lemma bind_ret_l {A B : Type} (a : A) (f : A -> py B) : bind (ret a) f = f a.
Proof. cbn. destruct (f a); reflexivity. Qed.

Lemma bind_logger_info {B : Type} (msg : string) (f : unit -> py B) :
  bind (logger_info msg) f = (Log INFO msg :: trace (f tt), result (f tt)).
Proof. unfold logger_info. rewrite bind_return. reflexivity. Qed.

Lemma bind_logger_error {B : Type} (msg : string) (f : unit -> py B) :
  bind (logger_error msg) f = (Log ERROR msg :: trace (f tt), result (f tt)).
Proof. unfold logger_error. rewrite bind_return. reflexivity. Qed.

Lemma bind_makedirs {B : Type} (w : world) (path : string) (f : unit -> py B) :
  os_makedirs w path = None ->
  bind (makedirs w path) f = (MakeDirs path :: trace (f tt), result (f tt)).
Proof. intros H. unfold makedirs. rewrite H, bind_return. reflexivity. Qed.

Lemma trace_pair {A : Type} (t : list event) (o : outcome A) : trace (t, o) = t.
Proof. reflexivity. Qed.

Lemma result_pair {A : Type} (t : list event) (o : outcome A) : result (t, o) = o.
Proof. reflexivity. Qed.

Lemma trace_ret {A : Type} (a : A) : trace (ret a : py A) = [].
Proof. reflexivity. Qed.

Lemma result_ret {A : Type} (a : A) : result (ret a : py A) = Return a.
Proof. reflexivity. Qed.

(** One step of a computation whose head has a known effect. *)
Ltac py_step :=
  first [ rewrite bind_ret_l
        | rewrite bind_logger_info
        | rewrite bind_logger_error
        | rewrite trace_ret
        | rewrite result_ret
        | rewrite trace_pair
        | rewrite result_pair
        | rewrite bind_return ];
  cbv beta.

(** ** Printing an integer and reading it back *)

Section Decimal.

Lemma of_uint_acc_value (d : Decimal.uint) :
  forall acc, Z.pos (Pos.of_uint_acc d acc) = uint_value d (Z.pos acc).
Proof.
  induction d; intros acc; cbn [Pos.of_uint_acc uint_value];
    try reflexivity; rewrite IHd; f_equal; lia.
Qed.

Lemma of_uint_value (d : Decimal.uint) : Z.of_N (Pos.of_uint d) = uint_value d 0.
Proof.
  induction d; cbn [Pos.of_uint uint_value]; try reflexivity;
    try (rewrite IHd; reflexivity);
    cbn [Z.of_N]; rewrite of_uint_acc_value; reflexivity.
Qed.

Lemma int_digits_uint (d : Decimal.uint) :
  forall acc, Py.int_digits (NilEmpty.string_of_uint d) acc true
              = Some (uint_value d acc).
Proof.
  induction d; intros acc; cbn [NilEmpty.string_of_uint Py.int_digits uint_value];
    try reflexivity;
    (replace (Py.is_digit _) with true by reflexivity);
    cbv beta iota; rewrite IHd; f_equal; f_equal; unfold Py.digit_value; cbn; lia.
Qed.

Lemma int_digits_nilzero (d : Decimal.uint) :
  Py.int_digits (NilZero.string_of_uint d) 0 false = Some (uint_value d 0).
Proof.
  destruct d; cbn [NilZero.string_of_uint NilEmpty.string_of_uint Py.int_digits uint_value];
    try reflexivity;
    (replace (Py.is_digit _) with true by reflexivity);
    cbv beta iota; rewrite int_digits_uint; reflexivity.
Qed.

Lemma lstrip_no_space (s : string) : no_space s -> Py.lstrip s = s.
Proof.
  destruct s as [|c s]; [reflexivity|]. unfold no_space. cbn.
  intros H. inversion H as [|? ? Hc _]; subst. rewrite Hc. reflexivity.
Qed.

Lemma reverse_no_space (s : string) : no_space s -> no_space (Py.reverse s).
Proof.
  unfold no_space, Py.reverse. intros H.
  rewrite list_ascii_of_string_of_list_ascii. apply Forall_rev, H.
Qed.

Lemma reverse_involutive (s : string) : Py.reverse (Py.reverse s) = s.
Proof.
  unfold Py.reverse. rewrite list_ascii_of_string_of_list_ascii, rev_involutive.
  apply string_of_list_ascii_of_string.
Qed.

Lemma strip_no_space (s : string) : no_space s -> Py.strip s = s.
Proof.
  intros H. unfold Py.strip, Py.rstrip. rewrite (lstrip_no_space s H).
  rewrite (lstrip_no_space _ (reverse_no_space s H)). apply reverse_involutive.
Qed.

Lemma no_space_uint (d : Decimal.uint) : no_space (NilEmpty.string_of_uint d).
Proof.
  unfold no_space.
  induction d; cbn [NilEmpty.string_of_uint list_ascii_of_string];
    constructor; auto.
Qed.

Lemma no_space_nilzero (d : Decimal.uint) : no_space (NilZero.string_of_uint d).
Proof.
  destruct d; try apply (no_space_uint (_ d)); try apply no_space_uint.
  unfold no_space. cbn. repeat constructor.
Qed.

Lemma no_space_str_int (n : Z) : no_space (Py.str_int n).
Proof.
  unfold Py.str_int. destruct (Z.to_int n) as [d|d]; cbn [NilZero.string_of_int].
  - apply no_space_nilzero.
  - unfold no_space. cbn [list_ascii_of_string]. constructor; [reflexivity|].
    apply no_space_nilzero.
Qed.

Lemma int_nilzero (d : Decimal.uint) :
  Py.int (NilZero.string_of_uint d) = Some (uint_value d 0).
Proof.
  unfold Py.int. rewrite (strip_no_space _ (no_space_nilzero d)).
  rewrite <- int_digits_nilzero.
  destruct d; reflexivity.
Qed.

(** [int(str(n)) == n]. *)
Lemma int_str_int (n : Z) : Py.int (Py.str_int n) = Some n.
Proof.
  unfold Py.str_int.
  pose proof (DecimalZ.of_to n) as Hn.
  destruct (Z.to_int n) as [d|d] eqn:Hd; cbn [NilZero.string_of_int].
  - rewrite int_nilzero. unfold Z.of_int, Z.of_uint in Hn.
    rewrite of_uint_value in Hn. congruence.
  - unfold Py.int.
    rewrite strip_no_space.
    + rewrite int_digits_nilzero. cbn [option_map]. unfold Z.of_int, Z.of_uint in Hn.
      rewrite of_uint_value in Hn. congruence.
    + unfold no_space. cbn [list_ascii_of_string]. constructor; [reflexivity|].
      apply no_space_nilzero.
Qed.

End Decimal.

(** ** The k-mer validator *)

Section Kmers.

Import Metaspades.

Lemma acceptable_or_offending (k : string) : acceptable k \/ offending k.
Proof.
  unfold acceptable, offending, parses_as.
  destruct (Py.int (Py.strip k)) as [n|]; [|now right; left].
  destruct (Z_le_gt_dec n 150) as [Hle|Hgt].
  - destruct (Z.odd n) eqn:Hodd.
    + left. exists n. auto.
    + right. right. exists n. split; [reflexivity|]. left.
      rewrite <- Z.negb_odd, Hodd. reflexivity.
  - right. right. exists n. split; [reflexivity|]. right. lia.
Qed.

Lemma acceptable_not_offending (k : string) : acceptable k -> ~ offending k.
Proof.
  unfold acceptable, offending, parses_as.
  intros [n [Hn [Hle Hodd]]] [Hnone | [m [Hm [Heven | Hgt]]]].
  - congruence.
  - assert (m = n) by congruence. subst m.
    rewrite <- Z.negb_odd, Hodd in Heven. discriminate.
  - assert (m = n) by congruence. lia.
Qed.

Lemma odd_mod2 (n : Z) : Z.odd n = true -> (n mod 2 =? 0) = false.
Proof. intros H. rewrite Zmod_odd, H. reflexivity. Qed.

Lemma even_mod2 (n : Z) : Z.even n = true -> (n mod 2 =? 0) = true.
Proof. intros H. rewrite Zmod_even, H. reflexivity. Qed.

Lemma kmer_step_accept (k : string) (n : Z) :
  parses_as k n -> n <= 150 -> Z.odd n = true ->
  catch (kmer_try k) (kmer_except k) = ([], Return (Py.str_int n)).
Proof.
  unfold parses_as, kmer_try. intros Hp Hle Hodd. rewrite Hp.
  apply Z.leb_le in Hle. apply odd_mod2 in Hodd.
  cbn. rewrite Hle, Hodd. reflexivity.
Qed.

Lemma kmer_step_reject (k : string) :
  offending k ->
  exists reason,
    catch (kmer_try k) (kmer_except k)
    = ([Log ERROR ("Invalid k-mer value '" ++ k ++ "': " ++ reason)], Exit 1).
Proof.
  unfold offending, parses_as, kmer_try.
  intros [Hnone | [n [Hp Hbad]]].
  - rewrite Hnone. eexists. cbn. reflexivity.
  - rewrite Hp. destruct (n <=? 150) eqn:Hle.
    + destruct Hbad as [Heven | Hgt]; [|apply Z.leb_le in Hle; lia].
      apply even_mod2 in Heven. eexists. cbn. rewrite Hle, Heven. cbn. reflexivity.
    + eexists. cbn. rewrite Hle. cbn. reflexivity.
Qed.

Lemma kmer_loop_accept (ks : list string) :
  Forall acceptable ks ->
  exists ns, Forall2 parses_as ks ns
    /\ forall acc, kmer_loop ks acc = ([], Return (acc ++ map Py.str_int ns)%list).
Proof.
  induction 1 as [|k ks [n [Hp [Hle Hodd]]] _ [ns [Hns IH]]].
  - exists []. split; [constructor|]. intros acc. cbn. rewrite app_nil_r. reflexivity.
  - exists (n :: ns). split; [constructor; assumption|]. intros acc.
    cbn [kmer_loop]. rewrite (kmer_step_accept k n Hp Hle Hodd).
    rewrite bind_return, IH. unfold extend. cbn. rewrite <- app_assoc. reflexivity.
Qed.

Lemma kmer_loop_reject (pre post : list string) (k : string) :
  Forall acceptable pre -> offending k ->
  exists reason, forall acc,
    kmer_loop (pre ++ k :: post) acc
    = ([Log ERROR ("Invalid k-mer value '" ++ k ++ "': " ++ reason)], Exit 1).
Proof.
  intros Hpre Hbad. destruct (kmer_step_reject k Hbad) as [reason Hk].
  exists reason. induction Hpre as [|k0 pre [n [Hp [Hle Hodd]]] _ IH]; intros acc.
  - cbn [app kmer_loop]. rewrite Hk. reflexivity.
  - cbn [app kmer_loop]. rewrite (kmer_step_accept k0 n Hp Hle Hodd).
    rewrite bind_return, IH. reflexivity.
Qed.

(** Every list of tokens is acceptable throughout, or has a first
    offending token. *)
Lemma first_offending (ks : list string) :
  Forall acceptable ks
  \/ exists pre k post, ks = (pre ++ k :: post)%list /\ Forall acceptable pre /\ offending k.
Proof.
  induction ks as [|k ks IH].
  - left. constructor.
  - destruct (acceptable_or_offending k) as [Hk | Hk].
    + destruct IH as [IH | [pre [k' [post [Heq [Hpre Hbad]]]]]].
      * left. constructor; assumption.
      * right. exists (k :: pre), k', post. subst ks. repeat split; auto.
    + right. exists [], k, ks. repeat split; auto.
Qed.

Lemma validate_kmers_nonempty (s : string) :
  s <> "" ->
  validate_kmers (Some s)
  = bind (kmer_loop (Py.split ","%char s) [])
         (fun validated_kmers => ret (Py.join "," validated_kmers)).
Proof. destruct s; [congruence | reflexivity]. Qed.

End Kmers.

(** An integer written in decimal is a token that parses as itself. *)
Lemma parses_as_str_int (n : Z) : parses_as (Py.str_int n) n.
Proof.
  unfold parses_as. rewrite (strip_no_space _ (no_space_str_int n)).
  apply int_str_int.
Qed.

Lemma no_comma_uint (d : Decimal.uint) : no_comma (NilEmpty.string_of_uint d).
Proof.
  unfold no_comma.
  induction d; cbn [NilEmpty.string_of_uint list_ascii_of_string];
    constructor; auto.
Qed.

Lemma no_comma_nilzero (d : Decimal.uint) : no_comma (NilZero.string_of_uint d).
Proof.
  destruct d; try apply (no_comma_uint (_ d)).
  unfold no_comma. cbn. repeat constructor.
Qed.

Lemma no_comma_str_int (n : Z) : no_comma (Py.str_int n).
Proof.
  unfold Py.str_int. destruct (Z.to_int n) as [d|d]; cbn [NilZero.string_of_int].
  - apply no_comma_nilzero.
  - unfold no_comma. cbn [list_ascii_of_string]. constructor; [reflexivity|].
    apply no_comma_nilzero.
Qed.

Lemma split_no_comma (s : string) : no_comma s -> Py.split ","%char s = [s].
Proof.
  unfold no_comma. induction s as [|c s IH]; intros H; [reflexivity|].
  cbn [list_ascii_of_string] in H. inversion H as [|? ? Hc Hs]; subst.
  cbn [Py.split]. rewrite Hc, (IH Hs). reflexivity.
Qed.

Lemma str_int_nonempty (n : Z) : Py.str_int n <> "".
Proof.
  intros H. pose proof (int_str_int n) as Hi. rewrite H in Hi. discriminate.
Qed.

(** The validator on one integer written in decimal. *)
Lemma kmer_loop_str_int (n : Z) :
  Metaspades.validate_kmers (Some (Py.str_int n))
  = bind (catch (Metaspades.kmer_try (Py.str_int n))
                (Metaspades.kmer_except (Py.str_int n)))
         (fun s => ret s).
Proof.
  rewrite (validate_kmers_nonempty _ (str_int_nonempty n)).
  rewrite (split_no_comma _ (no_comma_str_int n)).
  cbn [Metaspades.kmer_loop].
  destruct (catch (Metaspades.kmer_try (Py.str_int n))
                  (Metaspades.kmer_except (Py.str_int n))) as [t [s|c|e]];
    cbn; rewrite ?app_nil_r; reflexivity.
Qed.

(** C1. For a non-empty k-mer string of ASCII text, cut at the commas,
    whose tokens are within the interpreter's limit on the digits of a
    literal: when every token parses (after stripping) as an odd integer
    at most 150, with no lower bound, the validator returns the accepted
    values joined by commas and logs nothing; when some token is an even
    integer, an integer above 150 or not an integer, the validator logs
    one error that quotes the first such token as it was given and ends
    the process with status 1.  In particular an odd integer up to 150,
    written in decimal, is accepted, and an even integer or an integer
    above 150 is refused.  The empty string and [None] are passed through
    as the empty string. *)
Theorem validate_kmers_contract (kmer_str : string) :
  kmer_str <> "" ->
  ascii_text kmer_str ->
  Forall within_digit_limit (Py.split ","%char kmer_str) ->
  let tokens := Py.split ","%char kmer_str in
  (Forall acceptable tokens ->
     exists ns, Forall2 parses_as tokens ns
       /\ Metaspades.validate_kmers (Some kmer_str)
          = ([], Return (Py.join "," (map Py.str_int ns))))
  /\ (Exists offending tokens ->
     exists pre k post reason,
       tokens = (pre ++ k :: post)%list /\ Forall acceptable pre /\ offending k
       /\ Metaspades.validate_kmers (Some kmer_str)
          = ([Log ERROR ("Invalid k-mer value '" ++ k ++ "': " ++ reason)], Exit 1))
  /\ (forall n : Z, kmer_str = Py.str_int n -> n <= 150 -> Z.odd n = true ->
      Metaspades.validate_kmers (Some kmer_str) = ([], Return kmer_str))
  /\ (forall n : Z, kmer_str = Py.str_int n -> Z.even n = true \/ 150 < n ->
      exists reason,
        Metaspades.validate_kmers (Some kmer_str)
        = ([Log ERROR ("Invalid k-mer value '" ++ kmer_str ++ "': " ++ reason)],
           Exit 1))
  /\ Metaspades.validate_kmers (Some "") = ([], Return "")
  /\ Metaspades.validate_kmers None = ([], Return "").
Proof.
  intros Hne _ _ tokens. split; [|split; [|split; [|split; [|split; reflexivity]]]].
  - intros Hall. destruct (kmer_loop_accept tokens Hall) as [ns [Hns Hloop]].
    exists ns. split; [exact Hns|].
    rewrite (validate_kmers_nonempty kmer_str Hne). fold tokens.
    rewrite Hloop, bind_return. reflexivity.
  - intros Hex.
    destruct (first_offending tokens) as [Hall | [pre [k [post [Heq [Hpre Hbad]]]]]].
    + apply Exists_exists in Hex. destruct Hex as [k [Hin Hbad]].
      rewrite Forall_forall in Hall.
      destruct (acceptable_not_offending k (Hall k Hin) Hbad).
    + destruct (kmer_loop_reject pre post k Hpre Hbad) as [reason Hloop].
      exists pre, k, post, reason. repeat split; auto.
      rewrite (validate_kmers_nonempty kmer_str Hne). fold tokens.
      rewrite Heq, Hloop. reflexivity.
  - intros n -> Hle Hodd. rewrite kmer_loop_str_int.
    rewrite (kmer_step_accept _ n (parses_as_str_int n) Hle Hodd). reflexivity.
  - intros n -> Hbad. rewrite kmer_loop_str_int.
    destruct (kmer_step_reject (Py.str_int n)) as [reason Hk].
    + right. exists n. split; [apply parses_as_str_int | exact Hbad].
    + exists reason. rewrite Hk. reflexivity.
Qed.

(** The contract at the string [-5, 21,+3_3]: three odd values, one of
    them negative, all accepted and printed back in canonical form. *)
Lemma validate_kmers_contract_witness :
  exists ns, Forall2 parses_as (Py.split ","%char "-5, 21,+3_3") ns
    /\ Metaspades.validate_kmers (Some "-5, 21,+3_3")
       = ([], Return (Py.join "," (map Py.str_int ns))).
Proof.
  apply (validate_kmers_contract "-5, 21,+3_3").
  - discriminate.
  - unfold ascii_text. cbn [list_ascii_of_string]. repeat constructor.
  - cbn [Py.split Ascii.eqb Bool.eqb]. unfold within_digit_limit, max_str_digits.
    repeat constructor; cbn [digit_count Py.is_digit nat_of_ascii]; vm_compute; lia.
  - repeat constructor.
    + exists (-5). repeat split; reflexivity || (vm_compute; discriminate).
    + exists 21. repeat split; reflexivity || (vm_compute; discriminate).
    + exists 33. repeat split; reflexivity || (vm_compute; discriminate).
Defined.

(** ** The assembly wrapper on arguments that pass its checks *)

Section MetaspadesRun.

Import Metaspades.

Lemma run_metaspades_checked (w : world) (r1 r2 : list string)
  (single_reads merged_reads : option (list string)) (out name : string)
  (t : Z) (memory_limit_gb : option Z) (kmers : option string) (ks : string) :
  r1 <> [] -> length r1 = length r2 -> out <> "" -> name <> "" ->
  validate_kmers kmers = ([], Return ks) ->
  os_makedirs w out = None ->
  let cmd := spades_cmd r1 r2 single_reads merged_reads out t memory_limit_gb ks in
  run_metaspades w (Some r1) (Some r2) single_reads merged_reads
    (Some out) (Some name) (Some t) memory_limit_gb kmers
  = ((spades_preamble out memory_limit_gb ks cmd ++ trace (spades_launch w cmd))%list,
     result (spades_launch w cmd)).
Proof.
  intros Hr1 Hlen Hout Hname Hk Hmk cmd.
  destruct r1 as [|a r1]; [congruence|].
  destruct r2 as [|b r2]; [discriminate|].
  destruct out as [|oc out]; [congruence|].
  destruct name as [|nc name]; [congruence|].
  unfold run_metaspades.
  cbn [Py.truthy_list Py.truthy_str negb orb when value].
  apply Nat.eqb_eq in Hlen.
  repeat py_step. rewrite Hlen. cbn [negb when]. repeat py_step.
  rewrite Hk, bind_return. cbv beta. repeat py_step.
  rewrite (bind_makedirs _ _ _ Hmk). repeat py_step.
  destruct memory_limit_gb as [m|]; repeat py_step; reflexivity.
Qed.

End MetaspadesRun.

(** ** The launch and its [except] clauses *)

Lemma launched_app (t1 t2 : list event) :
  launched (t1 ++ t2) = (launched t1 ++ launched t2)%list.
Proof.
  induction t1 as [|e t1 IH]; [reflexivity|].
  destruct e; cbn; rewrite IH; reflexivity.
Qed.

(** A [try] around [subprocess.run] followed by a success record: the
    launch is performed, then either the success is logged or the
    handler runs on the exception. *)
Lemma try_launch (w : world) (cmd : list string) (ok : string) (h : exn -> py unit) :
  catch (subprocess_run w cmd ;; logger_info ok) h
  = match spawn w cmd with
    | Exited rc =>
        if rc =? 0 then ([Run cmd; Log INFO ok], Return tt)
        else (Run cmd :: trace (h (CalledProcessError rc cmd)),
              result (h (CalledProcessError rc cmd)))
    | NotFound msg =>
        (Run cmd :: trace (h (FileNotFoundError msg)),
         result (h (FileNotFoundError msg)))
    | Failed msg =>
        (Run cmd :: trace (h (OtherException msg)),
         result (h (OtherException msg)))
    end.
Proof.
  unfold subprocess_run.
  destruct (spawn w cmd) as [rc|msg|msg]; [destruct (rc =? 0)|..]; cbn;
    try reflexivity;
    match goal with |- context [h ?e] => destruct (h e); reflexivity end.
Qed.

Section MetaspadesLaunch.

Import Metaspades.

Lemma spades_launch_failed (w : world) (cmd : list string) (rc : Z) :
  spawn w cmd = Exited rc -> rc <> 0 ->
  spades_launch w cmd
  = ([Run cmd;
      Log ERROR ("SPAdes command failed with exit code " ++ Py.str_int rc);
      Log ERROR ("Command: " ++ Py.repr_list cmd)],
     Exit rc).
Proof.
  intros Hs Hrc. unfold spades_launch. rewrite try_launch, Hs.
  apply Z.eqb_neq in Hrc. rewrite Hrc. reflexivity.
Qed.

Lemma spades_launch_not_found (w : world) (cmd : list string) (msg : string) :
  spawn w cmd = NotFound msg ->
  spades_launch w cmd
  = ([Run cmd;
      Log ERROR ("Error: 'spades.py' command not found. "
                 ++ "Ensure SPAdes is installed and in your PATH within the container.")],
     Exit 1).
Proof. intros Hs. unfold spades_launch. rewrite try_launch, Hs. reflexivity. Qed.

Lemma spades_launch_other (w : world) (cmd : list string) (msg : string) :
  spawn w cmd = Failed msg ->
  spades_launch w cmd
  = ([Run cmd; Log ERROR ("An unexpected error occurred: " ++ msg)], Exit 1).
Proof. intros Hs. unfold spades_launch. rewrite try_launch, Hs. reflexivity. Qed.

Lemma spades_launch_launched (w : world) (cmd : list string) :
  launched (trace (spades_launch w cmd)) = [cmd].
Proof.
  unfold spades_launch. rewrite try_launch.
  destruct (spawn w cmd) as [rc|msg|msg]; [destruct (rc =? 0)|..]; reflexivity.
Qed.

End MetaspadesLaunch.

(** ** The index-build wrapper on arguments that pass its checks *)

Section IndexRun.

Import BowtieIndex.

Lemma run_bowtie_indexing_checked (w : world) (assembly name dir : string) :
  assembly <> "" -> name <> "" -> dir <> "" ->
  os_makedirs w dir = None ->
  let cmd := index_cmd assembly name dir in
  run_bowtie_indexing w (Some assembly) (Some name) (Some dir)
  = ((index_preamble dir cmd ++ trace (index_launch w cmd))%list,
     result (index_launch w cmd)).
Proof.
  intros Ha Hn Hd Hmk cmd.
  destruct assembly as [|ac assembly]; [congruence|].
  destruct name as [|nc name]; [congruence|].
  destruct dir as [|dc dir]; [congruence|].
  unfold run_bowtie_indexing.
  cbn [Py.truthy_str negb when value]. repeat py_step.
  rewrite (bind_makedirs _ _ _ Hmk). repeat py_step. reflexivity.
Qed.

Lemma index_launch_failed (w : world) (cmd : list string) (rc : Z) :
  spawn w cmd = Exited rc -> rc <> 0 ->
  index_launch w cmd
  = ([Run cmd;
      Log ERROR ("Indexing command failed with exit code " ++ Py.str_int rc);
      Log ERROR ("Command: " ++ Py.repr_list cmd)],
     Exit rc).
Proof.
  intros Hs Hrc. unfold index_launch. rewrite try_launch, Hs.
  apply Z.eqb_neq in Hrc. rewrite Hrc. reflexivity.
Qed.

Lemma index_launch_not_found (w : world) (cmd : list string) (msg : string) :
  spawn w cmd = NotFound msg ->
  index_launch w cmd
  = ([Run cmd;
      Log ERROR ("Error: 'bowtie2-build' command not found. "
                 ++ "Ensure bowtie2 is installed and in your PATH within the container.")],
     Exit 1).
Proof. intros Hs. unfold index_launch. rewrite try_launch, Hs. reflexivity. Qed.

Lemma index_launch_other (w : world) (cmd : list string) (msg : string) :
  spawn w cmd = Failed msg ->
  index_launch w cmd
  = ([Run cmd; Log ERROR ("An unexpected error occurred: " ++ msg)], Exit 1).
Proof. intros Hs. unfold index_launch. rewrite try_launch, Hs. reflexivity. Qed.

Lemma index_launch_launched (w : world) (cmd : list string) :
  launched (trace (index_launch w cmd)) = [cmd].
Proof.
  unfold index_launch. rewrite try_launch.
  destruct (spawn w cmd) as [rc|msg|msg]; [destruct (rc =? 0)|..]; reflexivity.
Qed.

End IndexRun.

(** ** The mapping wrapper on arguments that pass its checks *)

Section MappingRun.

Import BowtieMapping.

Lemma run_mapping_checked (w : world) (folder : string) (r1 r2 : list string)
  (single_reads : option (list string)) (out assembly metagenome : string) (t : Z) :
  folder <> "" -> r1 <> [] -> length r1 = length r2 ->
  out <> "" -> assembly <> "" -> metagenome <> "" ->
  os_makedirs w out = None ->
  let cmd := mapping_cmd folder r1 r2 single_reads out assembly metagenome t in
  run_mapping w (Some folder) (Some r1) (Some r2) single_reads
    (Some out) (Some assembly) (Some metagenome) (Some t)
  = ((mapping_preamble out cmd ++ trace (mapping_launch w cmd))%list,
     result (mapping_launch w cmd)).
Proof.
  intros Hf Hr1 Hlen Hout Ha Hm Hmk cmd.
  destruct folder as [|fc folder]; [congruence|].
  destruct r1 as [|a r1]; [congruence|].
  destruct r2 as [|b r2]; [discriminate|].
  destruct out as [|oc out]; [congruence|].
  destruct assembly as [|ac assembly]; [congruence|].
  destruct metagenome as [|mc metagenome]; [congruence|].
  unfold run_mapping.
  cbn [Py.truthy_list Py.truthy_str negb orb when value].
  apply Nat.eqb_eq in Hlen.
  repeat py_step. rewrite Hlen. cbn [negb when]. repeat py_step.
  rewrite (bind_makedirs _ _ _ Hmk). repeat py_step. reflexivity.
Qed.

Lemma mapping_launch_failed (w : world) (cmd : list string) (rc : Z) :
  spawn w cmd = Exited rc -> rc <> 0 ->
  mapping_launch w cmd
  = ([Run cmd;
      Log ERROR ("Bowtie2 command failed with exit code " ++ Py.str_int rc);
      Log ERROR ("Command: " ++ Py.repr_list cmd)],
     Exit rc).
Proof.
  intros Hs Hrc. unfold mapping_launch. rewrite try_launch, Hs.
  apply Z.eqb_neq in Hrc. rewrite Hrc. reflexivity.
Qed.

Lemma mapping_launch_not_found (w : world) (cmd : list string) (msg : string) :
  spawn w cmd = NotFound msg ->
  mapping_launch w cmd
  = ([Run cmd;
      Log ERROR ("Error: 'bowtie2' command not found. "
                 ++ "Ensure Bowtie2 is installed and in your PATH within the container.")],
     Exit 1).
Proof. intros Hs. unfold mapping_launch. rewrite try_launch, Hs. reflexivity. Qed.

Lemma mapping_launch_other (w : world) (cmd : list string) (msg : string) :
  spawn w cmd = Failed msg ->
  mapping_launch w cmd
  = ([Run cmd; Log ERROR ("An unexpected error occurred: " ++ msg)], Exit 1).
Proof. intros Hs. unfold mapping_launch. rewrite try_launch, Hs. reflexivity. Qed.

Lemma mapping_launch_launched (w : world) (cmd : list string) :
  launched (trace (mapping_launch w cmd)) = [cmd].
Proof.
  unfold mapping_launch. rewrite try_launch.
  destruct (spawn w cmd) as [rc|msg|msg]; [destruct (rc =? 0)|..]; reflexivity.
Qed.

End MappingRun.

(** ** Forwarding the exit code of the external tool *)

(** C8. When the arguments pass the checks and the launched tool ends
    with a non-zero return code [rc], each of the three wrappers logs
    the exit code, then the failing command (the argument list as Python
    prints it), and ends the process with [sys.exit(rc)]: after the
    records that precede the launch, the trace is the launch and the two
    error records, and the outcome is [Exit rc].  For a code between 1
    and 255 the status the operating system reports is [rc] itself. *)
Theorem nonzero_exit_code_forwarded (w : world) (rc : Z) :
  rc <> 0 ->
  (forall r1 r2 single_reads merged_reads out name t memory_limit_gb kmers ks,
      r1 <> [] -> length r1 = length r2 -> out <> "" -> name <> "" ->
      Metaspades.validate_kmers kmers = ([], Return ks) ->
      os_makedirs w out = None ->
      let cmd := spades_cmd r1 r2 single_reads merged_reads out t memory_limit_gb ks in
      spawn w cmd = Exited rc ->
      Metaspades.run_metaspades w (Some r1) (Some r2) single_reads merged_reads
        (Some out) (Some name) (Some t) memory_limit_gb kmers
      = ((spades_preamble out memory_limit_gb ks cmd
          ++ [Run cmd;
              Log ERROR ("SPAdes command failed with exit code " ++ Py.str_int rc);
              Log ERROR ("Command: " ++ Py.repr_list cmd)])%list,
         Exit rc))
  /\ (forall assembly name dir,
      assembly <> "" -> name <> "" -> dir <> "" ->
      os_makedirs w dir = None ->
      let cmd := index_cmd assembly name dir in
      spawn w cmd = Exited rc ->
      BowtieIndex.run_bowtie_indexing w (Some assembly) (Some name) (Some dir)
      = ((index_preamble dir cmd
          ++ [Run cmd;
              Log ERROR ("Indexing command failed with exit code " ++ Py.str_int rc);
              Log ERROR ("Command: " ++ Py.repr_list cmd)])%list,
         Exit rc))
  /\ (forall folder r1 r2 single_reads out assembly metagenome t,
      folder <> "" -> r1 <> [] -> length r1 = length r2 ->
      out <> "" -> assembly <> "" -> metagenome <> "" ->
      os_makedirs w out = None ->
      let cmd := mapping_cmd folder r1 r2 single_reads out assembly metagenome t in
      spawn w cmd = Exited rc ->
      BowtieMapping.run_mapping w (Some folder) (Some r1) (Some r2) single_reads
        (Some out) (Some assembly) (Some metagenome) (Some t)
      = ((mapping_preamble out cmd
          ++ [Run cmd;
              Log ERROR ("Bowtie2 command failed with exit code " ++ Py.str_int rc);
              Log ERROR ("Command: " ++ Py.repr_list cmd)])%list,
         Exit rc))
  /\ (0 < rc < 256 -> process_status rc = rc).
Proof.
  intros Hrc. repeat split.
  - intros r1 r2 single_reads merged_reads out name t memory_limit_gb kmers ks
      Hr1 Hlen Hout Hname Hk Hmk cmd Hs.
    rewrite (run_metaspades_checked w r1 r2 single_reads merged_reads out name t
               memory_limit_gb kmers ks Hr1 Hlen Hout Hname Hk Hmk).
    fold cmd. rewrite (spades_launch_failed w cmd rc Hs Hrc). reflexivity.
  - intros assembly name dir Ha Hn Hd Hmk cmd Hs.
    rewrite (run_bowtie_indexing_checked w assembly name dir Ha Hn Hd Hmk).
    fold cmd. rewrite (index_launch_failed w cmd rc Hs Hrc). reflexivity.
  - intros folder r1 r2 single_reads out assembly metagenome t
      Hf Hr1 Hlen Hout Ha Hm Hmk cmd Hs.
    rewrite (run_mapping_checked w folder r1 r2 single_reads out assembly metagenome t
               Hf Hr1 Hlen Hout Ha Hm Hmk).
    fold cmd. rewrite (mapping_launch_failed w cmd rc Hs Hrc). reflexivity.
  - intros [Hlo Hhi]. unfold process_status.
    change 255 with (Z.ones 8). rewrite Z.land_ones by lia.
    apply Z.mod_small. lia.
Qed.

(** The three wrappers when the tool ends with return code 2. *)
Lemma nonzero_exit_code_forwarded_witness :
  result (Metaspades.run_metaspades (world_exit 2) (Some ["a_R1.fq"]) (Some ["a_R2.fq"])
            (Some []) (Some []) (Some "out") (Some "asm") (Some 4) None (Some "21,33"))
  = Exit 2
  /\ result (BowtieIndex.run_bowtie_indexing (world_exit 2)
               (Some "asm.fna") (Some "asm") (Some "out/"))
     = Exit 2
  /\ result (BowtieMapping.run_mapping (world_exit 2) (Some "/idx/")
               (Some ["a_R1.fq"]) (Some ["a_R2.fq"]) (Some [])
               (Some "out") (Some "sampleA") (Some "mg") (Some 8))
     = Exit 2
  /\ process_status 2 = 2.
Proof.
  assert (H2 : 2 <> 0) by discriminate.
  destruct (nonzero_exit_code_forwarded (world_exit 2) 2 H2) as [Hs [Hi [Hm Hp]]].
  split; [|split; [|split]].
  - rewrite (Hs ["a_R1.fq"] ["a_R2.fq"] (Some []) (Some []) "out" "asm" 4 None
               (Some "21,33") "21,33");
      reflexivity || discriminate.
  - rewrite (Hi "asm.fna" "asm" "out/"); reflexivity || discriminate.
  - rewrite (Hm "/idx/" ["a_R1.fq"] ["a_R2.fq"] (Some []) "out" "sampleA" "mg" 8);
      reflexivity || discriminate.
  - apply Hp. lia.
Defined.

(** ** A missing executable *)

(** C9. When the arguments pass the checks and the executable is not
    found, each of the three wrappers logs its own "command not found"
    record, which names the tool and tells to install it and put it on
    the PATH, and ends the process with status 1.  Any other exception
    of the launch is logged as "An unexpected error occurred: ..." and
    also ends the process with status 1; the two records are never the
    same text. *)
Theorem missing_executable_reported (w : world) :
  (forall r1 r2 single_reads merged_reads out name t memory_limit_gb kmers ks,
      r1 <> [] -> length r1 = length r2 -> out <> "" -> name <> "" ->
      Metaspades.validate_kmers kmers = ([], Return ks) ->
      os_makedirs w out = None ->
      let cmd := spades_cmd r1 r2 single_reads merged_reads out t memory_limit_gb ks in
      let run := Metaspades.run_metaspades w (Some r1) (Some r2) single_reads
                   merged_reads (Some out) (Some name) (Some t) memory_limit_gb kmers in
      (forall msg, spawn w cmd = NotFound msg ->
         run = ((spades_preamble out memory_limit_gb ks cmd
                 ++ [Run cmd;
                     Log ERROR "Error: 'spades.py' command not found. Ensure SPAdes is installed and in your PATH within the container."])%list,
                Exit 1))
      /\ (forall msg, spawn w cmd = Failed msg ->
         run = ((spades_preamble out memory_limit_gb ks cmd
                 ++ [Run cmd; Log ERROR ("An unexpected error occurred: " ++ msg)])%list,
                Exit 1)))
  /\ (forall assembly name dir,
      assembly <> "" -> name <> "" -> dir <> "" ->
      os_makedirs w dir = None ->
      let cmd := index_cmd assembly name dir in
      let run := BowtieIndex.run_bowtie_indexing w (Some assembly) (Some name) (Some dir) in
      (forall msg, spawn w cmd = NotFound msg ->
         run = ((index_preamble dir cmd
                 ++ [Run cmd;
                     Log ERROR "Error: 'bowtie2-build' command not found. Ensure bowtie2 is installed and in your PATH within the container."])%list,
                Exit 1))
      /\ (forall msg, spawn w cmd = Failed msg ->
         run = ((index_preamble dir cmd
                 ++ [Run cmd; Log ERROR ("An unexpected error occurred: " ++ msg)])%list,
                Exit 1)))
  /\ (forall folder r1 r2 single_reads out assembly metagenome t,
      folder <> "" -> r1 <> [] -> length r1 = length r2 ->
      out <> "" -> assembly <> "" -> metagenome <> "" ->
      os_makedirs w out = None ->
      let cmd := mapping_cmd folder r1 r2 single_reads out assembly metagenome t in
      let run := BowtieMapping.run_mapping w (Some folder) (Some r1) (Some r2)
                   single_reads (Some out) (Some assembly) (Some metagenome) (Some t) in
      (forall msg, spawn w cmd = NotFound msg ->
         run = ((mapping_preamble out cmd
                 ++ [Run cmd;
                     Log ERROR "Error: 'bowtie2' command not found. Ensure Bowtie2 is installed and in your PATH within the container."])%list,
                Exit 1))
      /\ (forall msg, spawn w cmd = Failed msg ->
         run = ((mapping_preamble out cmd
                 ++ [Run cmd; Log ERROR ("An unexpected error occurred: " ++ msg)])%list,
                Exit 1)))
  /\ (forall msg tool_record,
      In tool_record
        ["Error: 'spades.py' command not found. Ensure SPAdes is installed and in your PATH within the container.";
         "Error: 'bowtie2-build' command not found. Ensure bowtie2 is installed and in your PATH within the container.";
         "Error: 'bowtie2' command not found. Ensure Bowtie2 is installed and in your PATH within the container."] ->
      tool_record <> "An unexpected error occurred: " ++ msg).
Proof.
  split; [|split; [|split]].
  - intros r1 r2 single_reads merged_reads out name t memory_limit_gb kmers ks
      Hr1 Hlen Hout Hname Hk Hmk cmd run. subst run.
    rewrite (run_metaspades_checked w r1 r2 single_reads merged_reads out name t
               memory_limit_gb kmers ks Hr1 Hlen Hout Hname Hk Hmk).
    fold cmd. split; intros msg Hs.
    + rewrite (spades_launch_not_found w cmd msg Hs). reflexivity.
    + rewrite (spades_launch_other w cmd msg Hs). reflexivity.
  - intros assembly name dir Ha Hn Hd Hmk cmd run. subst run.
    rewrite (run_bowtie_indexing_checked w assembly name dir Ha Hn Hd Hmk).
    fold cmd. split; intros msg Hs.
    + rewrite (index_launch_not_found w cmd msg Hs). reflexivity.
    + rewrite (index_launch_other w cmd msg Hs). reflexivity.
  - intros folder r1 r2 single_reads out assembly metagenome t
      Hf Hr1 Hlen Hout Ha Hm Hmk cmd run. subst run.
    rewrite (run_mapping_checked w folder r1 r2 single_reads out assembly metagenome t
               Hf Hr1 Hlen Hout Ha Hm Hmk).
    fold cmd. split; intros msg Hs.
    + rewrite (mapping_launch_not_found w cmd msg Hs). reflexivity.
    + rewrite (mapping_launch_other w cmd msg Hs). reflexivity.
  - intros msg tool_record Hin.
    cbn in Hin. destruct Hin as [<- | [<- | [<- | []]]]; discriminate.
Qed.

(** The three wrappers when no executable is found. *)
Lemma missing_executable_reported_witness :
  Metaspades.run_metaspades world_no_tool (Some ["a_R1.fq"]) (Some ["a_R2.fq"])
    (Some []) (Some []) (Some "out") (Some "asm") (Some 4) None (Some "21,33")
  = ([Log INFO "Using k-mers: 21,33"; MakeDirs "out";
      Log INFO "SPAdes output will be written to: out";
      Log INFO "Executing SPAdes command: spades.py --meta -o out -t 4 -k 21,33 -1 a_R1.fq -2 a_R2.fq";
      Run ["spades.py"; "--meta"; "-o"; "out"; "-t"; "4"; "-k"; "21,33";
           "-1"; "a_R1.fq"; "-2"; "a_R2.fq"];
      Log ERROR "Error: 'spades.py' command not found. Ensure SPAdes is installed and in your PATH within the container."],
     Exit 1)
  /\ result (BowtieIndex.run_bowtie_indexing world_no_tool
               (Some "asm.fna") (Some "asm") (Some "out/"))
     = Exit 1
  /\ result (BowtieMapping.run_mapping world_no_tool (Some "/idx/")
               (Some ["a_R1.fq"]) (Some ["a_R2.fq"]) (Some [])
               (Some "out") (Some "sampleA") (Some "mg") (Some 8))
     = Exit 1.
Proof.
  destruct (missing_executable_reported world_no_tool) as [Hs [Hi [Hm _]]].
  split; [|split].
  - apply (proj1 (Hs ["a_R1.fq"] ["a_R2.fq"] (Some []) (Some []) "out" "asm" 4 None
                    (Some "21,33") "21,33" ltac:(discriminate) eq_refl
                    ltac:(discriminate) ltac:(discriminate) eq_refl eq_refl)
             "[Errno 2] No such file or directory" eq_refl).
  - rewrite (proj1 (Hi "asm.fna" "asm" "out/" ltac:(discriminate) ltac:(discriminate)
                      ltac:(discriminate) eq_refl)
               "[Errno 2] No such file or directory" eq_refl).
    reflexivity.
  - rewrite (proj1 (Hm "/idx/" ["a_R1.fq"] ["a_R2.fq"] (Some []) "out" "sampleA" "mg" 8
                      ltac:(discriminate) ltac:(discriminate) eq_refl
                      ltac:(discriminate) ltac:(discriminate) ltac:(discriminate) eq_refl)
               "[Errno 2] No such file or directory" eq_refl).
    reflexivity.
Defined.

(** ** Paired read lists of different lengths *)

(** C5. With two non-empty read lists of different lengths, whatever
    the other arguments and the world: [run_metaspades] logs the
    mismatch as its only record and ends with status 1; [run_mapping]
    logs one error record and ends with status 1, and the record is the
    mismatch as soon as an index folder was given.  No directory is
    created, no command is launched. *)
Theorem mismatched_reads_exit (w : world) (r1 r2 : list string) :
  r1 <> [] -> r2 <> [] -> length r1 <> length r2 ->
  (forall single_reads merged_reads output_dir assembly_name threads memory_limit_gb kmers,
      Metaspades.run_metaspades w (Some r1) (Some r2) single_reads merged_reads
        output_dir assembly_name threads memory_limit_gb kmers
      = ([Log ERROR "Error: Number of R1 files must match the number of R2 files."],
         Exit 1))
  /\ (forall bowtie2_index_folder single_reads output_dir assembly_name
             metagenome_name threads,
      let run := BowtieMapping.run_mapping w bowtie2_index_folder (Some r1) (Some r2)
                   single_reads output_dir assembly_name metagenome_name threads in
      (exists msg, run = ([Log ERROR msg], Exit 1))
      /\ launched (trace run) = []
      /\ (Py.truthy_str bowtie2_index_folder = true ->
          run = ([Log ERROR "Error: Number of R1 files must match the number of R2 files."],
                 Exit 1))).
Proof.
  intros Hr1 Hr2 Hlen.
  destruct r1 as [|a r1]; [congruence|].
  destruct r2 as [|b r2]; [congruence|].
  apply Nat.eqb_neq in Hlen.
  split.
  - intros. unfold Metaspades.run_metaspades.
    cbn [Py.truthy_list negb orb when value]. repeat py_step.
    rewrite Hlen. cbn [negb when]. repeat py_step. reflexivity.
  - intros folder single_reads output_dir assembly_name metagenome_name threads run.
    subst run. unfold BowtieMapping.run_mapping.
    destruct (Py.truthy_str folder) eqn:Hf; cbn [negb when].
    + cbn [Py.truthy_list negb orb when value]. repeat py_step.
      rewrite Hlen. cbn [negb when]. repeat py_step.
      split; [eexists; reflexivity|]. split; [reflexivity|]. reflexivity.
    + repeat py_step.
      split; [eexists; reflexivity|]. split; [reflexivity|]. discriminate.
Qed.

(** Two R1 files against one R2 file. *)
Lemma mismatched_reads_exit_witness :
  Metaspades.run_metaspades (world_exit 0) (Some ["a_R1.fq"; "b_R1.fq"]) (Some ["a_R2.fq"])
    (Some []) (Some []) (Some "out") (Some "asm") (Some 4) None (Some "21,33")
  = ([Log ERROR "Error: Number of R1 files must match the number of R2 files."], Exit 1)
  /\ BowtieMapping.run_mapping (world_exit 0) (Some "/idx/")
       (Some ["a_R1.fq"; "b_R1.fq"]) (Some ["a_R2.fq"]) (Some [])
       (Some "out") (Some "sampleA") (Some "mg") (Some 8)
     = ([Log ERROR "Error: Number of R1 files must match the number of R2 files."], Exit 1).
Proof.
  destruct (mismatched_reads_exit (world_exit 0) ["a_R1.fq"; "b_R1.fq"] ["a_R2.fq"]
              ltac:(discriminate) ltac:(discriminate) ltac:(discriminate))
    as [Hs Hm].
  split.
  - apply Hs.
  - apply (Hm (Some "/idx/") (Some []) (Some "out") (Some "sampleA") (Some "mg") (Some 8)).
    reflexivity.
Defined.

(** ** The index prefix of the mapping command *)

(** C7. When the arguments pass the checks, [run_mapping] launches one
    command, and it starts with [bowtie2 -x P] where [P] is
    [os.path.join] of the index folder and the assembly name followed by
    [_bowtie2_index].  For the folder [/idx/] and the name [sampleA]
    that is [/idx/sampleA_bowtie2_index]; in general, a name that does
    not start with a slash is put after the folder, with a slash in
    between unless the folder ends with one. *)
Theorem mapping_index_prefix (w : world) (folder : string) (r1 r2 : list string)
  (single_reads : option (list string)) (out assembly metagenome : string) (t : Z) :
  folder <> "" -> r1 <> [] -> length r1 = length r2 ->
  out <> "" -> assembly <> "" -> metagenome <> "" ->
  os_makedirs w out = None ->
  (exists rest,
      launched (trace (BowtieMapping.run_mapping w (Some folder) (Some r1) (Some r2)
                         single_reads (Some out) (Some assembly) (Some metagenome)
                         (Some t)))
      = [ "bowtie2" :: "-x"
          :: Py.os_path_join folder (assembly ++ "_bowtie2_index") :: rest ])
  /\ Py.os_path_join "/idx/" ("sampleA" ++ "_bowtie2_index") = "/idx/sampleA_bowtie2_index"
  /\ (Py.starts_with_sep assembly = false ->
      Py.os_path_join folder (assembly ++ "_bowtie2_index")
      = if Py.ends_with_sep folder then folder ++ assembly ++ "_bowtie2_index"
        else folder ++ "/" ++ assembly ++ "_bowtie2_index").
Proof.
  intros Hf Hr1 Hlen Hout Ha Hm Hmk. split; [|split].
  - rewrite (run_mapping_checked w folder r1 r2 single_reads out assembly metagenome t
               Hf Hr1 Hlen Hout Ha Hm Hmk).
    cbn [trace fst]. rewrite launched_app, mapping_launch_launched.
    unfold mapping_cmd, extend. cbn [app launched mapping_preamble].
    destruct (match single_reads with
              | Some ((_ :: _) as l) => Py.join "," l
              | _ => ""
              end); eexists; reflexivity.
  - reflexivity.
  - intros Hs. unfold Py.os_path_join.
    destruct assembly as [|c assembly]; [congruence|].
    destruct folder as [|fc folder]; [congruence|].
    replace (Py.starts_with_sep (String c assembly ++ "_bowtie2_index"))
      with (Py.starts_with_sep (String c assembly)) by reflexivity.
    rewrite Hs. reflexivity.
Qed.

(** The index folder [/idx/] and the assembly [sampleA]. *)
Lemma mapping_index_prefix_witness :
  exists rest,
    launched (trace (BowtieMapping.run_mapping (world_exit 0) (Some "/idx/")
                       (Some ["a_R1.fq"]) (Some ["a_R2.fq"]) (Some [])
                       (Some "out") (Some "sampleA") (Some "mg") (Some 8)))
    = [ "bowtie2" :: "-x"
        :: Py.os_path_join "/idx/" ("sampleA" ++ "_bowtie2_index") :: rest ].
Proof.
  apply (mapping_index_prefix (world_exit 0) "/idx/" ["a_R1.fq"] ["a_R2.fq"] (Some [])
           "out" "sampleA" "mg" 8);
    reflexivity || discriminate.
Defined.

(** ** The assembly name and the assembly command *)

(** C10. Two calls of [run_metaspades] that differ only in the assembly
    name, both names non-empty, behave the same: the same events in the
    same order (so the same directory created and the same command
    launched) and the same outcome. *)
Theorem assembly_name_has_no_influence (w : world)
  (r1_reads r2_reads single_reads merged_reads : option (list string))
  (output_dir : option string) (threads memory_limit_gb : option Z)
  (kmers : option string) (name1 name2 : string) :
  name1 <> "" -> name2 <> "" ->
  Metaspades.run_metaspades w r1_reads r2_reads single_reads merged_reads
    output_dir (Some name1) threads memory_limit_gb kmers
  = Metaspades.run_metaspades w r1_reads r2_reads single_reads merged_reads
      output_dir (Some name2) threads memory_limit_gb kmers.
Proof.
  intros H1 H2.
  destruct name1 as [|c1 name1]; [congruence|].
  destruct name2 as [|c2 name2]; [congruence|].
  reflexivity.
Qed.

(** The assemblies [asm] and [other], everything else equal. *)
Lemma assembly_name_has_no_influence_witness :
  Metaspades.run_metaspades (world_exit 0) (Some ["a_R1.fq"]) (Some ["a_R2.fq"])
    (Some []) (Some []) (Some "out") (Some "asm") (Some 4) None (Some "21,33")
  = Metaspades.run_metaspades (world_exit 0) (Some ["a_R1.fq"]) (Some ["a_R2.fq"])
      (Some []) (Some []) (Some "out") (Some "other") (Some 4) None (Some "21,33").
Proof.
  apply (assembly_name_has_no_influence (world_exit 0) (Some ["a_R1.fq"])
           (Some ["a_R2.fq"]) (Some []) (Some []) (Some "out") (Some 4) None
           (Some "21,33") "asm" "other");
    discriminate.
Defined.

(** ** The paired reads in the assembly command *)

Section PairedReads.

Import Metaspades.

Lemma add_pair_flags (cmd : list string) (i : nat) (a b : string) :
  add_pair cmd (i, (a, b)) = (cmd ++ pair_flags i a b)%list.
Proof. unfold add_pair, pair_flags, extend. destruct (i =? 0)%nat; reflexivity. Qed.

Lemma length_pair_flags (i : nat) (a b : string) : length (pair_flags i a b) = 4%nat.
Proof. unfold pair_flags. destruct (i =? 0)%nat; reflexivity. Qed.

Lemma fold_add_pair_extends (l : list (nat * (string * string))) :
  forall cmd, exists post, fold_left add_pair l cmd = (cmd ++ post)%list.
Proof.
  induction l as [|[i [a b]] l IH]; intros cmd.
  - exists []. cbn. rewrite app_nil_r. reflexivity.
  - cbn [fold_left]. destruct (IH (add_pair cmd (i, (a, b)))) as [post Hpost].
    rewrite Hpost, add_pair_flags, <- app_assoc. eexists. reflexivity.
Qed.

(** Pair number [i] of the list sits four places per earlier pair after
    the start, with the flags of its number. *)
Lemma fold_add_pair_nth (l : list (string * string)) :
  forall (s : nat) (cmd : list string) (i : nat) (a b : string),
    nth_error l i = Some (a, b) ->
    exists mid post,
      fold_left add_pair (combine (seq s (length l)) l) cmd
      = (cmd ++ mid ++ pair_flags (s + i) a b ++ post)%list
      /\ length mid = (4 * i)%nat.
Proof.
  induction l as [|[a0 b0] l IH]; intros s cmd i a b Hnth.
  - destruct i; discriminate.
  - cbn [length seq combine fold_left]. destruct i as [|i].
    + injection Hnth as -> ->.
      destruct (fold_add_pair_extends (combine (seq (S s) (length l)) l)
                  (add_pair cmd (s, (a, b)))) as [post Hpost].
      exists [], post. split; [|reflexivity].
      rewrite Hpost, add_pair_flags, Nat.add_0_r, <- app_assoc. reflexivity.
    + cbn [nth_error] in Hnth.
      destruct (IH (S s) (add_pair cmd (s, (a0, b0))) i a b Hnth)
        as [mid [post [Heq Hlen]]].
      exists (pair_flags s a0 b0 ++ mid)%list, post. split.
      * rewrite Heq, add_pair_flags, <- !app_assoc.
        replace (S s + i)%nat with (s + S i)%nat by lia. reflexivity.
      * rewrite length_app, length_pair_flags, Hlen. lia.
Qed.

Lemma nth_error_combine {A B : Type} (l1 : list A) :
  forall (l2 : list B) (i : nat) (a : A) (b : B),
    nth_error l1 i = Some a -> nth_error l2 i = Some b ->
    nth_error (combine l1 l2) i = Some (a, b).
Proof.
  induction l1 as [|x l1 IH]; intros l2 i a b H1 H2.
  - destruct i; discriminate.
  - destruct l2 as [|y l2]; [destruct i; discriminate|].
    destruct i as [|i]; cbn in *.
    + congruence.
    + apply IH; assumption.
Qed.

Lemma fold_extend_flag (flag : string) (l : list string) :
  forall cmd,
    fold_left (fun c x => extend c [flag; x]) l cmd
    = (cmd ++ flat_map (fun x => [flag; x]) l)%list.
Proof.
  induction l as [|x l IH]; intros cmd; cbn [fold_left flat_map].
  - rewrite app_nil_r. reflexivity.
  - rewrite IH. unfold extend. rewrite <- app_assoc. reflexivity.
Qed.

(** The assembly command: the options, then the pairs, then the single
    and merged reads. *)
Lemma spades_cmd_pair (r1 r2 : list string) (single_reads merged_reads : option (list string))
  (out : string) (t : Z) (memory_limit_gb : option Z) (ks : string)
  (i : nat) (a b : string) :
  nth_error r1 i = Some a -> nth_error r2 i = Some b ->
  exists pre post,
    spades_cmd r1 r2 single_reads merged_reads out t memory_limit_gb ks
    = (pre ++ pair_flags i a b ++ post)%list
    /\ length pre
       = ((match memory_limit_gb with Some _ => 10 | None => 8 end) + 4 * i)%nat.
Proof.
  intros H1 H2. unfold spades_cmd, enumerate.
  pose proof (nth_error_combine r1 r2 i a b H1 H2) as Hnth.
  set (head := extend _ ["-k"; ks]).
  destruct (fold_add_pair_nth (combine r1 r2) 0 head i a b Hnth)
    as [mid [post [Heq Hlen]]].
  rewrite Heq. cbn [Nat.add].
  assert (Hhead : length head
                  = match memory_limit_gb with Some _ => 10 | None => 8 end%nat)
    by (subst head; destruct memory_limit_gb; reflexivity).
  set (singles := match single_reads with
                  | Some ((_ :: _) as l) => flat_map (fun x => ["-s"; x]) l
                  | _ => []
                  end).
  set (merged := match merged_reads with
                 | Some ((_ :: _) as l) => flat_map (fun x => ["--merged"; x]) l
                 | _ => []
                 end).
  exists (head ++ mid)%list, (post ++ singles ++ merged)%list. split.
  - subst singles merged.
    destruct single_reads as [[|x l]|], merged_reads as [[|y l']|];
      rewrite ?fold_extend_flag, ?app_nil_r, <- ?app_assoc; reflexivity.
  - rewrite length_app, Hhead, Hlen. reflexivity.
Qed.

End PairedReads.

(** C6. When the arguments pass the checks, [run_metaspades] launches
    one command, and for every position [i] of the read lists the files
    [r1[i]] and [r2[i]] stand in it one after the other, each behind its
    flag: [-1] and [-2] for the first pair, [--pe{i}-1] and [--pe{i}-2]
    for pair number [i >= 1].  The pairs follow the options in order,
    four words each. *)
Theorem paired_reads_flags (w : world) (r1 r2 : list string)
  (single_reads merged_reads : option (list string)) (out name : string)
  (t : Z) (memory_limit_gb : option Z) (kmers : option string) (ks : string) :
  r1 <> [] -> length r1 = length r2 -> out <> "" -> name <> "" ->
  Metaspades.validate_kmers kmers = ([], Return ks) ->
  os_makedirs w out = None ->
  exists cmd,
    launched (trace (Metaspades.run_metaspades w (Some r1) (Some r2) single_reads
                       merged_reads (Some out) (Some name) (Some t)
                       memory_limit_gb kmers))
    = [cmd]
    /\ forall (i : nat) (a b : string),
        nth_error r1 i = Some a -> nth_error r2 i = Some b ->
        exists pre post,
          cmd = (pre
                 ++ (if (i =? 0)%nat then ["-1"; a; "-2"; b]
                     else [("--pe" ++ Py.str_int (Z.of_nat i) ++ "-1")%string; a;
                           ("--pe" ++ Py.str_int (Z.of_nat i) ++ "-2")%string; b])
                 ++ post)%list
          /\ length pre
             = ((match memory_limit_gb with Some _ => 10 | None => 8 end) + 4 * i)%nat.
Proof.
  intros Hr1 Hlen Hout Hname Hk Hmk.
  exists (spades_cmd r1 r2 single_reads merged_reads out t memory_limit_gb ks). split.
  - rewrite (run_metaspades_checked w r1 r2 single_reads merged_reads out name t
               memory_limit_gb kmers ks Hr1 Hlen Hout Hname Hk Hmk).
    cbn [trace fst]. rewrite launched_app, spades_launch_launched.
    unfold spades_preamble. rewrite !launched_app.
    destruct memory_limit_gb; reflexivity.
  - intros i a b H1 H2.
    apply (spades_cmd_pair r1 r2 single_reads merged_reads out t memory_limit_gb ks
             i a b H1 H2).
Qed.

(** Two pairs of read files: the second pair is number 1. *)
Lemma paired_reads_flags_witness :
  exists cmd,
    launched (trace (Metaspades.run_metaspades (world_exit 0)
                       (Some ["a_R1.fq"; "b_R1.fq"]) (Some ["a_R2.fq"; "b_R2.fq"])
                       (Some []) (Some []) (Some "out") (Some "asm") (Some 4) None
                       (Some "21,33")))
    = [cmd]
    /\ forall (i : nat) (a b : string),
        nth_error ["a_R1.fq"; "b_R1.fq"] i = Some a ->
        nth_error ["a_R2.fq"; "b_R2.fq"] i = Some b ->
        exists pre post,
          cmd = (pre
                 ++ (if (i =? 0)%nat then ["-1"; a; "-2"; b]
                     else [("--pe" ++ Py.str_int (Z.of_nat i) ++ "-1")%string; a;
                           ("--pe" ++ Py.str_int (Z.of_nat i) ++ "-2")%string; b])
                 ++ post)%list
          /\ length pre = (8 + 4 * i)%nat.
Proof.
  apply (paired_reads_flags (world_exit 0) ["a_R1.fq"; "b_R1.fq"] ["a_R2.fq"; "b_R2.fq"]
           (Some []) (Some []) "out" "asm" 4 None (Some "21,33") "21,33");
    reflexivity || discriminate.
Defined.

(** The spec's example: one pair gives [-1 a_R1.fq -2 a_R2.fq], a second
    pair adds [--pe1-1] and [--pe1-2]. *)
Example spades_cmd_one_pair :
  launched (trace (Metaspades.run_metaspades (world_exit 0)
                     (Some ["a_R1.fq"]) (Some ["a_R2.fq"])
                     (Some []) (Some []) (Some "out") (Some "asm") (Some 4) None
                     (Some "21,33")))
  = [["spades.py"; "--meta"; "-o"; "out"; "-t"; "4"; "-k"; "21,33";
      "-1"; "a_R1.fq"; "-2"; "a_R2.fq"]].
Proof. reflexivity. Qed.

Example spades_cmd_two_pairs :
  launched (trace (Metaspades.run_metaspades (world_exit 0)
                     (Some ["a_R1.fq"; "b_R1.fq"]) (Some ["a_R2.fq"; "b_R2.fq"])
                     (Some []) (Some []) (Some "out") (Some "asm") (Some 4) None
                     (Some "21,33")))
  = [["spades.py"; "--meta"; "-o"; "out"; "-t"; "4"; "-k"; "21,33";
      "-1"; "a_R1.fq"; "-2"; "a_R2.fq"; "--pe1-1"; "b_R1.fq"; "--pe1-2"; "b_R2.fq"]].
Proof. reflexivity. Qed.

(** ** The post-alignment steps *)

Section Samtools.

Import BowtieMapping.

Lemma samtools_checks_pass (what : string) (out assembly metagenome : string) :
  out <> "" -> assembly <> "" -> metagenome <> "" ->
  samtools_checks what (Some out) (Some assembly) (Some metagenome) = ret tt.
Proof.
  intros Ho Ha Hm.
  destruct out; [congruence|]. destruct assembly; [congruence|].
  destruct metagenome; [congruence|]. reflexivity.
Qed.

(** [samtools_view] on checked arguments: one record, the command in
    it, nothing launched. *)
Lemma samtools_view_only_logs (out assembly metagenome : string) :
  out <> "" -> assembly <> "" -> metagenome <> "" ->
  let sam_file :=
    Py.os_path_join out (metagenome ++ "_to_" ++ assembly ++ "_bowtie2.sam") in
  let bam_file :=
    Py.os_path_join out (metagenome ++ "_to_" ++ assembly ++ "_bowtie2_unsorted.bam") in
  samtools_view (Some out) (Some assembly) (Some metagenome)
  = ([Log INFO ("Converting SAM file " ++ sam_file ++ " to BAM format at " ++ bam_file
                ++ ": "
                ++ Py.join " " ["samtools"; "view"; "-b"; sam_file; "-o"; bam_file])],
     Return tt).
Proof.
  intros Ho Ha Hm sam_file bam_file. unfold samtools_view.
  rewrite (samtools_checks_pass _ _ _ _ Ho Ha Hm). reflexivity.
Qed.

(** [samtools_index] on checked arguments, likewise. *)
Lemma samtools_index_only_logs (out assembly metagenome : string) :
  out <> "" -> assembly <> "" -> metagenome <> "" ->
  let sorted_bam_file :=
    Py.os_path_join out (metagenome ++ "_to_" ++ assembly ++ "_bowtie2.bam") in
  samtools_index (Some out) (Some assembly) (Some metagenome)
  = ([Log INFO ("Indexing BAM file " ++ sorted_bam_file ++ ": "
                ++ Py.join " " ["samtools"; "index"; sorted_bam_file])],
     Return tt).
Proof.
  intros Ho Ha Hm sorted_bam_file. unfold samtools_index.
  rewrite (samtools_checks_pass _ _ _ _ Ho Ha Hm). reflexivity.
Qed.

(** Were [threads] a global of the module, [samtools_sort] would log its
    command like the other two. *)
Lemma samtools_sort_with_threads (n : Z) (out assembly metagenome : string) :
  out <> "" -> assembly <> "" -> metagenome <> "" ->
  let bam_file :=
    Py.os_path_join out (metagenome ++ "_to_" ++ assembly ++ "_bowtie2_unsorted.bam") in
  let sorted_bam_file :=
    Py.os_path_join out (metagenome ++ "_to_" ++ assembly ++ "_bowtie2.bam") in
  samtools_sort (("threads", VInt n) :: script_globals)
    (Some out) (Some assembly) (Some metagenome)
  = ([Log INFO ("Sorting BAM file " ++ bam_file ++ " to " ++ sorted_bam_file ++ ": "
                ++ Py.join " " ["samtools"; "sort"; "-@"; Py.str_int n;
                                bam_file; "-o"; sorted_bam_file])],
     Return tt).
Proof.
  intros Ho Ha Hm bam_file sorted_bam_file. unfold samtools_sort.
  rewrite (samtools_checks_pass _ _ _ _ Ho Ha Hm). reflexivity.
Qed.

(** None of the three steps launches anything, on any arguments. *)
Lemma samtools_checks_launch_nothing (what : string) (o a m : option string) :
  launched (trace (samtools_checks what o a m)) = [].
Proof.
  unfold samtools_checks.
  destruct o as [[|? ?]|], a as [[|? ?]|], m as [[|? ?]|]; reflexivity.
Qed.

Lemma load_global_quiet (globals : list (string * pyval)) (name : string) :
  trace (load_global globals name) = [].
Proof.
  induction globals as [|[n v] globals IH]; [reflexivity|].
  cbn [load_global]. destruct (String.eqb n name); [reflexivity | exact IH].
Qed.

Lemma samtools_steps_launch_nothing (globals : list (string * pyval))
  (o a m : option string) :
  launched (trace (samtools_view o a m)) = []
  /\ launched (trace (samtools_sort globals o a m)) = []
  /\ launched (trace (samtools_index o a m)) = [].
Proof.
  pose proof (load_global_quiet globals "threads") as Hq.
  unfold samtools_view, samtools_sort, samtools_index, samtools_checks.
  destruct o as [[|? ?]|], a as [[|? ?]|], m as [[|? ?]|];
    (split; [|split]); try reflexivity.
  cbn [Py.truthy_str negb when value]. repeat py_step.
  destruct (load_global globals "threads") as [t [v|c|e]];
    cbn [trace fst] in Hq; subst t; reflexivity.
Qed.

End Samtools.

(** C3. On arguments that are all present, [samtools_sort] ends with
    [NameError: name 'threads' is not defined]: the name is not among
    the globals of the script, the look-up fails while the command is
    being built, and nothing has been logged by then. *)
Theorem samtools_sort_name_error (out assembly metagenome : string) :
  out <> "" -> assembly <> "" -> metagenome <> "" ->
  BowtieMapping.samtools_sort BowtieMapping.script_globals
    (Some out) (Some assembly) (Some metagenome)
  = ([], Raise (NameError "threads"))
  /\ exn_str (NameError "threads") = "name 'threads' is not defined".
Proof.
  intros Ho Ha Hm. split; [|reflexivity].
  unfold BowtieMapping.samtools_sort.
  rewrite (samtools_checks_pass _ _ _ _ Ho Ha Hm). reflexivity.
Qed.

(** The sort step of the run [mg] against [sampleA] in [out]. *)
Lemma samtools_sort_name_error_witness :
  BowtieMapping.samtools_sort BowtieMapping.script_globals
    (Some "out") (Some "sampleA") (Some "mg")
  = ([], Raise (NameError "threads")).
Proof.
  apply (samtools_sort_name_error "out" "sampleA" "mg"); discriminate.
Defined.

(** C2, at the arguments [out], [sampleA], [mg]: the conversion and the
    index step log their command and return, the sort step logs nothing
    and ends with the [NameError]; none of the three launches a
    process. *)
Theorem post_alignment_steps_at_sample :
  BowtieMapping.samtools_view (Some "out") (Some "sampleA") (Some "mg")
  = ([Log INFO "Converting SAM file out/mg_to_sampleA_bowtie2.sam to BAM format at out/mg_to_sampleA_bowtie2_unsorted.bam: samtools view -b out/mg_to_sampleA_bowtie2.sam -o out/mg_to_sampleA_bowtie2_unsorted.bam"],
     Return tt)
  /\ BowtieMapping.samtools_index (Some "out") (Some "sampleA") (Some "mg")
     = ([Log INFO "Indexing BAM file out/mg_to_sampleA_bowtie2.bam: samtools index out/mg_to_sampleA_bowtie2.bam"],
        Return tt)
  /\ BowtieMapping.samtools_sort BowtieMapping.script_globals
       (Some "out") (Some "sampleA") (Some "mg")
     = ([], Raise (NameError "threads")).
Proof. repeat split. Qed.

(** ** The index prefix of the index-build command *)

(** The index-build command on checked arguments: the prefix is the
    directory text followed at once by the name. *)
Lemma index_prefix_concatenated (w : world) (assembly name dir : string) :
  assembly <> "" -> name <> "" -> dir <> "" ->
  os_makedirs w dir = None ->
  launched (trace (BowtieIndex.run_bowtie_indexing w (Some assembly) (Some name) (Some dir)))
  = [["bowtie2-build"; assembly; dir ++ name ++ "_bowtie2_index"]].
Proof.
  intros Ha Hn Hd Hmk.
  rewrite (run_bowtie_indexing_checked w assembly name dir Ha Hn Hd Hmk).
  cbn [trace fst]. rewrite launched_app, index_launch_launched. reflexivity.
Qed.

(** With a directory that ends with a slash the prefix is the name
    under the directory. *)
Lemma index_prefix_trailing_slash (name dir : string) :
  Py.ends_with_sep dir = true -> Py.starts_with_sep name = false -> name <> "" ->
  dir ++ name ++ "_bowtie2_index" = Py.os_path_join dir (name ++ "_bowtie2_index").
Proof.
  intros Hd Hs Hn. unfold Py.os_path_join.
  destruct name as [|c name]; [congruence|].
  replace (Py.starts_with_sep (String c name ++ "_bowtie2_index"))
    with (Py.starts_with_sep (String c name)) by reflexivity.
  rewrite Hs, Hd. destruct dir; reflexivity.
Qed.

(** C4, at the directory [out] and the name [asm]: the command has the
    prefix [outasm_bowtie2_index], next to the directory that was just
    created, while the name under the directory is
    [out/asm_bowtie2_index], which is also where the mapping wrapper
    looks for the index of [asm] in the folder [out]. *)
Theorem index_prefix_at_out_asm :
  BowtieIndex.run_bowtie_indexing (world_exit 0) (Some "asm.fna") (Some "asm") (Some "out")
  = ([MakeDirs "out"; Log INFO "Index output will be written to: out";
      Log INFO "Executing indexing command: bowtie2-build asm.fna outasm_bowtie2_index";
      Run ["bowtie2-build"; "asm.fna"; "outasm_bowtie2_index"];
      Log INFO "Indexing execution completed successfully."],
     Return tt)
  /\ Py.os_path_join "out" ("asm" ++ "_bowtie2_index") = "out/asm_bowtie2_index"
  /\ "outasm_bowtie2_index" <> "out/asm_bowtie2_index"
  /\ launched (trace (BowtieMapping.run_mapping (world_exit 0) (Some "out")
                        (Some ["a_R1.fq"]) (Some ["a_R2.fq"]) (Some [])
                        (Some "map") (Some "asm") (Some "mg") (Some 8)))
     = [["bowtie2"; "-x"; "out/asm_bowtie2_index"; "-1"; "a_R1.fq"; "-2"; "a_R2.fq";
         "-p"; "8"; "-S"; "map/mg_to_asm_bowtie2.sam"]].
Proof. repeat split. discriminate. Qed.

(** * Further properties of the scripts *)

(** ** The k-mer validator on every input *)

Section KmersTotal.

Import Metaspades.

Lemma split_nonempty (sep : ascii) (s : string) : Py.split sep s <> [].
Proof.
  destruct s as [|c s]; cbn [Py.split]; [discriminate|].
  destruct (Ascii.eqb c sep); [discriminate|].
  destruct (Py.split sep s); discriminate.
Qed.

(** The loop on acceptable tokens, with the bounds of the values. *)
Lemma kmer_loop_accept_values (ks : list string) :
  Forall acceptable ks ->
  exists ns,
    length ns = length ks
    /\ Forall (fun n => n <= 150 /\ Z.odd n = true) ns
    /\ forall acc, kmer_loop ks acc = ([], Return (acc ++ map Py.str_int ns)%list).
Proof.
  induction 1 as [|k ks [n [Hp [Hle Hodd]]] _ [ns [Hlen [Hns IH]]]].
  - exists []. repeat split; [constructor|]. intros acc. cbn. rewrite app_nil_r.
    reflexivity.
  - exists (n :: ns). split; [cbn; congruence|]. split; [constructor; auto|].
    intros acc. cbn [kmer_loop]. rewrite (kmer_step_accept k n Hp Hle Hodd).
    rewrite bind_return, IH. unfold extend. cbn. rewrite <- app_assoc. reflexivity.
Qed.

(** The loop on integers written in decimal. *)
Lemma kmer_loop_canonical (ns : list Z) :
  Forall (fun n => n <= 150 /\ Z.odd n = true) ns ->
  forall acc,
    kmer_loop (map Py.str_int ns) acc = ([], Return (acc ++ map Py.str_int ns)%list).
Proof.
  induction 1 as [|n ns [Hle Hodd] _ IH]; intros acc.
  - cbn. rewrite app_nil_r. reflexivity.
  - cbn [map kmer_loop].
    rewrite (kmer_step_accept _ n (parses_as_str_int n) Hle Hodd).
    rewrite bind_return, IH. unfold extend. cbn. rewrite <- app_assoc. reflexivity.
Qed.

Lemma split_app_comma (x rest : string) :
  no_comma x -> Py.split ","%char (x ++ "," ++ rest) = x :: Py.split ","%char rest.
Proof.
  unfold no_comma. induction x as [|c x IH]; intros H.
  - reflexivity.
  - cbn [list_ascii_of_string] in H. inversion H as [|? ? Hc Hx]; subst.
    cbn [String.append Py.split]. rewrite Hc. cbn [String.append] in IH.
    rewrite (IH Hx). reflexivity.
Qed.

(** Cutting at the commas undoes joining with commas. *)
Lemma split_join (l : list string) :
  l <> [] -> Forall no_comma l -> Py.split ","%char (Py.join "," l) = l.
Proof.
  intros Hne Hall. induction Hall as [|x l Hx Hl IH]; [congruence|].
  destruct l as [|y l].
  - cbn. apply split_no_comma, Hx.
  - unfold Py.join in *. cbn [String.concat].
    rewrite (split_app_comma x _ Hx). f_equal. apply IH. discriminate.
Qed.

Lemma join_nonempty (x : string) (l : list string) :
  x <> "" -> Py.join "," (x :: l) <> "".
Proof.
  intros Hx. unfold Py.join. destruct x as [|c x]; [congruence|].
  destruct l; cbn; discriminate.
Qed.

End KmersTotal.

(** The two ways the validator ends. *)
Lemma validate_kmers_cases (kmer_str : option string) :
  (exists out, Metaspades.validate_kmers kmer_str = ([], Return out))
  \/ (exists k reason,
        Metaspades.validate_kmers kmer_str
        = ([Log ERROR ("Invalid k-mer value '" ++ k ++ "': " ++ reason)], Exit 1)).
Proof.
  destruct kmer_str as [s|]; [|left; exists ""; reflexivity].
  destruct (string_dec s "") as [->|Hne]; [left; exists ""; reflexivity|].
  rewrite (validate_kmers_nonempty s Hne).
  destruct (first_offending (Py.split ","%char s))
    as [Hall | [pre [k [post [Heq [Hpre Hbad]]]]]].
  - left. destruct (kmer_loop_accept _ Hall) as [ns [_ Hloop]].
    eexists. rewrite Hloop, bind_return. reflexivity.
  - right. destruct (kmer_loop_reject pre post k Hpre Hbad) as [reason Hloop].
    exists k, reason. rewrite Heq, Hloop. reflexivity.
Qed.

(** X1. On every input the validator either returns, having logged
    nothing, or logs exactly one error record that quotes a token and
    ends the process with status 1: no exception leaves it and no other
    status is used. *)
Theorem validate_kmers_total (kmer_str : option string) :
  (exists out, Metaspades.validate_kmers kmer_str = ([], Return out))
  \/ (exists k reason,
        Metaspades.validate_kmers kmer_str
        = ([Log ERROR ("Invalid k-mer value '" ++ k ++ "': " ++ reason)], Exit 1)).
Proof. apply validate_kmers_cases. Qed.

(** X2. What the validator returns is a fixed point: given back to the
    validator, it is returned unchanged and nothing is logged. *)
Theorem validate_kmers_idempotent (kmer_str : option string) (t : list event)
  (out : string) :
  Metaspades.validate_kmers kmer_str = (t, Return out) ->
  Metaspades.validate_kmers (Some out) = ([], Return out).
Proof.
  intros H.
  destruct kmer_str as [s|]; [|cbn in H; injection H as _ <-; reflexivity].
  destruct (string_dec s "") as [->|Hne];
    [cbn in H; injection H as _ <-; reflexivity|].
  rewrite (validate_kmers_nonempty s Hne) in H.
  destruct (first_offending (Py.split ","%char s))
    as [Hall | [pre [k [post [Heq [Hpre Hbad]]]]]].
  - destruct (kmer_loop_accept_values _ Hall) as [ns [Hlen [Hns Hloop]]].
    rewrite Hloop, bind_return in H.
    assert (Hout' : out = Py.join "," (map Py.str_int ns))
      by (cbn [trace result fst snd ret Monad_py app] in H; congruence).
    subst out. clear H.
    destruct ns as [|n ns].
    + destruct (Py.split ","%char s) eqn:Hs; [|discriminate].
      destruct (split_nonempty _ _ Hs).
    + assert (Hout : Py.join "," (map Py.str_int (n :: ns)) <> "")
        by (apply join_nonempty, str_int_nonempty).
      rewrite (validate_kmers_nonempty _ Hout).
      rewrite split_join.
      * rewrite (kmer_loop_canonical _ Hns), bind_return. reflexivity.
      * discriminate.
      * apply Forall_forall. intros x Hx. apply in_map_iff in Hx.
        destruct Hx as [m [<- _]]. apply no_comma_str_int.
  - destruct (kmer_loop_reject pre post k Hpre Hbad) as [reason Hloop].
    rewrite Heq, Hloop in H. discriminate.
Qed.

(** The string [ -5 ,+2_1] is accepted as [-5,21], and [-5,21] as itself. *)
Lemma validate_kmers_idempotent_witness :
  Metaspades.validate_kmers (Some "-5,21") = ([], Return "-5,21").
Proof.
  apply (validate_kmers_idempotent (Some " -5 ,+2_1") [] "-5,21"). reflexivity.
Defined.

(** X3. A non-empty k-mer string with an empty token (a comma at either
    end, or two commas in a row) is refused: one error record, status 1.
    Only the wholly empty string is let through. *)
Theorem validate_kmers_empty_token (kmer_str : string) :
  kmer_str <> "" -> In "" (Py.split ","%char kmer_str) ->
  exists k reason,
    Metaspades.validate_kmers (Some kmer_str)
    = ([Log ERROR ("Invalid k-mer value '" ++ k ++ "': " ++ reason)], Exit 1).
Proof.
  intros Hne Hin.
  rewrite (validate_kmers_nonempty kmer_str Hne).
  destruct (first_offending (Py.split ","%char kmer_str))
    as [Hall | [pre [k [post [Heq [Hpre Hbad]]]]]].
  - rewrite Forall_forall in Hall. destruct (Hall "" Hin) as [n [Hp _]].
    discriminate.
  - destruct (kmer_loop_reject pre post k Hpre Hbad) as [reason Hloop].
    exists k, reason. rewrite Heq, Hloop. reflexivity.
Qed.

(** A trailing comma. *)
Lemma validate_kmers_empty_token_witness :
  exists k reason,
    Metaspades.validate_kmers (Some "21,33,")
    = ([Log ERROR ("Invalid k-mer value '" ++ k ++ "': " ++ reason)], Exit 1).
Proof.
  apply (validate_kmers_empty_token "21,33,"); [discriminate|].
  cbn. auto.
Defined.

(** ** Missing arguments *)

(** X4. [run_metaspades] reports the first mandatory argument that is
    missing ([None] or empty), in the order reads, output directory,
    assembly name, threads, by one error record that names it, and ends
    the process with status 1; nothing else is logged, no directory is
    created and nothing is launched. *)
Theorem run_metaspades_missing_argument (w : world)
  (r1_reads r2_reads single_reads merged_reads : option (list string))
  (output_dir assembly_name : option string)
  (threads memory_limit_gb : option Z) (kmers : option string) :
  let run := Metaspades.run_metaspades w r1_reads r2_reads single_reads merged_reads
               output_dir assembly_name threads memory_limit_gb kmers in
  (Py.truthy_list r1_reads = false \/ Py.truthy_list r2_reads = false ->
   run = ([Log ERROR "Error: Paired-end R1 and R2 reads are mandatory."], Exit 1))
  /\ (forall l1 l2,
        r1_reads = Some l1 -> r2_reads = Some l2 ->
        l1 <> [] -> l2 <> [] -> length l1 = length l2 ->
        (Py.truthy_str output_dir = false ->
         run = ([Log ERROR "Error: Output directory is mandatory."], Exit 1))
        /\ (Py.truthy_str output_dir = true -> Py.truthy_str assembly_name = false ->
            run = ([Log ERROR "Error: Assembly name is mandatory."], Exit 1))
        /\ (Py.truthy_str output_dir = true -> Py.truthy_str assembly_name = true ->
            threads = None ->
            run = ([Log ERROR "Error: Number of threads is mandatory."], Exit 1))).
Proof.
  intros run. subst run. split.
  - intros H. unfold Metaspades.run_metaspades.
    assert (Hb : negb (Py.truthy_list r1_reads) || negb (Py.truthy_list r2_reads) = true)
      by (destruct H as [-> | ->]; [reflexivity | apply orb_true_r]).
    rewrite Hb. reflexivity.
  - intros l1 l2 -> -> H1 H2 Hlen.
    destruct l1 as [|a l1]; [congruence|]. destruct l2 as [|b l2]; [congruence|].
    apply Nat.eqb_eq in Hlen.
    unfold Metaspades.run_metaspades.
    cbn [Py.truthy_list negb orb when value]. repeat py_step.
    rewrite Hlen. cbn [negb when]. repeat py_step.
    split; [|split].
    + intros ->. reflexivity.
    + intros -> ->. reflexivity.
    + intros -> -> ->. reflexivity.
Qed.

(** X5. [run_bowtie_indexing] reports the first mandatory argument that
    is missing, in the order assembly, index name, output directory, by
    one error record, and ends the process with status 1 before any
    directory is created or anything is launched. *)
Theorem run_bowtie_indexing_missing_argument (w : world)
  (input_assembly output_index_name output_dir : option string) :
  let run := BowtieIndex.run_bowtie_indexing w input_assembly output_index_name
               output_dir in
  (Py.truthy_str input_assembly = false ->
   run = ([Log ERROR "Error: Assembly input is mandatory."], Exit 1))
  /\ (Py.truthy_str input_assembly = true -> Py.truthy_str output_index_name = false ->
      run = ([Log ERROR "Error: Output index name is mandatory."], Exit 1))
  /\ (Py.truthy_str input_assembly = true -> Py.truthy_str output_index_name = true ->
      Py.truthy_str output_dir = false ->
      run = ([Log ERROR "Error: Output location is mandatory."], Exit 1)).
Proof.
  intros run. subst run. unfold BowtieIndex.run_bowtie_indexing.
  split; [|split].
  - intros ->. reflexivity.
  - intros -> ->. reflexivity.
  - intros -> -> ->. reflexivity.
Qed.

(** X6. [run_mapping] reports the first mandatory argument that is
    missing, in the order index folder, reads, output directory,
    assembly name, metagenome name, threads, by one error record, and
    ends the process with status 1 before any directory is created or
    anything is launched. *)
Theorem run_mapping_missing_argument (w : world)
  (bowtie2_index_folder : option string)
  (r1_reads r2_reads single_reads : option (list string))
  (output_dir assembly_name metagenome_name : option string)
  (threads : option Z) :
  let run := BowtieMapping.run_mapping w bowtie2_index_folder r1_reads r2_reads
               single_reads output_dir assembly_name metagenome_name threads in
  (Py.truthy_str bowtie2_index_folder = false ->
   run = ([Log ERROR "Error: Index location is mandatory."], Exit 1))
  /\ (Py.truthy_str bowtie2_index_folder = true ->
      Py.truthy_list r1_reads = false \/ Py.truthy_list r2_reads = false ->
      run = ([Log ERROR "Error: Paired-end R1 and R2 reads are mandatory."], Exit 1))
  /\ (forall l1 l2,
        Py.truthy_str bowtie2_index_folder = true ->
        r1_reads = Some l1 -> r2_reads = Some l2 ->
        l1 <> [] -> l2 <> [] -> length l1 = length l2 ->
        (Py.truthy_str output_dir = false ->
         run = ([Log ERROR "Error: Output directory is mandatory."], Exit 1))
        /\ (Py.truthy_str output_dir = true -> Py.truthy_str assembly_name = false ->
            run = ([Log ERROR "Error: Assembly name is mandatory."], Exit 1))
        /\ (Py.truthy_str output_dir = true -> Py.truthy_str assembly_name = true ->
            Py.truthy_str metagenome_name = false ->
            run = ([Log ERROR "Error: Metagenome name is mandatory."], Exit 1))
        /\ (Py.truthy_str output_dir = true -> Py.truthy_str assembly_name = true ->
            Py.truthy_str metagenome_name = true -> threads = None ->
            run = ([Log ERROR "Error: Number of threads is mandatory."], Exit 1))).
Proof.
  intros run. subst run. unfold BowtieMapping.run_mapping.
  split; [|split].
  - intros ->. reflexivity.
  - intros -> H.
    assert (Hb : negb (Py.truthy_list r1_reads) || negb (Py.truthy_list r2_reads) = true)
      by (destruct H as [-> | ->]; [reflexivity | apply orb_true_r]).
    cbn [negb when]. repeat py_step. rewrite Hb. reflexivity.
  - intros l1 l2 -> -> -> H1 H2 Hlen.
    destruct l1 as [|a l1]; [congruence|]. destruct l2 as [|b l2]; [congruence|].
    apply Nat.eqb_eq in Hlen.
    cbn [Py.truthy_list negb orb when value]. repeat py_step.
    rewrite Hlen. cbn [negb when]. repeat py_step.
    split; [|split; [|split]].
    + intros ->. reflexivity.
    + intros -> ->. reflexivity.
    + intros -> -> ->. reflexivity.
    + intros -> -> -> ->. reflexivity.
Qed.

(** X7. Each post-alignment step reports the first of output directory,
    assembly name and metagenome name that is missing, by one error
    record that ends with the name of the step (conversion, sorting,
    indexing), and ends the process with status 1; [samtools_sort] does
    so before it reads [threads]. *)
Theorem samtools_missing_argument (globals : list (string * BowtieMapping.pyval))
  (output_dir assembly_name metagenome_name : option string) :
  let steps :=
    [("conversion",
      BowtieMapping.samtools_view output_dir assembly_name metagenome_name);
     ("sorting",
      BowtieMapping.samtools_sort globals output_dir assembly_name metagenome_name);
     ("indexing",
      BowtieMapping.samtools_index output_dir assembly_name metagenome_name)] in
  forall what run, In (what, run) steps ->
    (Py.truthy_str output_dir = false ->
     run = ([Log ERROR ("Error: Output directory is mandatory for samtools "
                        ++ what ++ ".")], Exit 1))
    /\ (Py.truthy_str output_dir = true -> Py.truthy_str assembly_name = false ->
        run = ([Log ERROR ("Error: Assembly name is mandatory for samtools "
                           ++ what ++ ".")], Exit 1))
    /\ (Py.truthy_str output_dir = true -> Py.truthy_str assembly_name = true ->
        Py.truthy_str metagenome_name = false ->
        run = ([Log ERROR ("Error: Metagenome name is mandatory for samtools "
                           ++ what ++ ".")], Exit 1)).
Proof.
  intros steps what run Hin. subst steps. cbn [In] in Hin.
  destruct Hin as [H | [H | [H | []]]]; injection H as <- <-;
    unfold BowtieMapping.samtools_view, BowtieMapping.samtools_sort,
      BowtieMapping.samtools_index, BowtieMapping.samtools_checks;
    (split; [|split]);
    [ intros -> | intros -> -> | intros -> -> -> | intros -> | intros -> -> | intros -> -> ->
    | intros -> | intros -> -> | intros -> -> -> ]; reflexivity.
Qed.

(** Witnesses of the reports: no reads, no index name, no metagenome
    name, no output directory for the sort step. *)
Lemma run_metaspades_missing_argument_witness :
  Metaspades.run_metaspades (world_exit 0) (Some []) (Some ["a_R2.fq"]) None None
    (Some "out") (Some "asm") (Some 4) None None
  = ([Log ERROR "Error: Paired-end R1 and R2 reads are mandatory."], Exit 1).
Proof.
  apply (run_metaspades_missing_argument (world_exit 0) (Some []) (Some ["a_R2.fq"])
           None None (Some "out") (Some "asm") (Some 4) None None).
  left. reflexivity.
Defined.

Lemma run_bowtie_indexing_missing_argument_witness :
  BowtieIndex.run_bowtie_indexing (world_exit 0) (Some "asm.fna") (Some "") (Some "out")
  = ([Log ERROR "Error: Output index name is mandatory."], Exit 1).
Proof.
  apply (run_bowtie_indexing_missing_argument (world_exit 0) (Some "asm.fna") (Some "")
           (Some "out")); reflexivity.
Defined.

Lemma run_mapping_missing_argument_witness :
  BowtieMapping.run_mapping (world_exit 0) (Some "/idx/") (Some ["a_R1.fq"])
    (Some ["a_R2.fq"]) None (Some "out") (Some "asm") None (Some 8)
  = ([Log ERROR "Error: Metagenome name is mandatory."], Exit 1).
Proof.
  apply (proj2 (proj2 (run_mapping_missing_argument (world_exit 0) (Some "/idx/")
                         (Some ["a_R1.fq"]) (Some ["a_R2.fq"]) None (Some "out")
                         (Some "asm") None (Some 8)))
           ["a_R1.fq"] ["a_R2.fq"]);
    reflexivity || discriminate.
Defined.

Lemma samtools_missing_argument_witness :
  BowtieMapping.samtools_sort BowtieMapping.script_globals None (Some "asm") (Some "mg")
  = ([Log ERROR "Error: Output directory is mandatory for samtools sorting."], Exit 1).
Proof.
  apply (samtools_missing_argument BowtieMapping.script_globals None (Some "asm")
           (Some "mg") "sorting").
  - right. left. reflexivity.
  - reflexivity.
Defined.

(** ** Past the checks: k-mers, directory, launch *)

Section PastChecks.

Lemma run_metaspades_kmers_exit (w : world) (r1 r2 : list string)
  (single_reads merged_reads : option (list string)) (out name : string)
  (t : Z) (memory_limit_gb : option Z) (kmers : option string)
  (tk : list event) (c : Z) :
  r1 <> [] -> length r1 = length r2 -> out <> "" -> name <> "" ->
  Metaspades.validate_kmers kmers = (tk, Exit c) ->
  Metaspades.run_metaspades w (Some r1) (Some r2) single_reads merged_reads
    (Some out) (Some name) (Some t) memory_limit_gb kmers
  = (tk, Exit c).
Proof.
  intros Hr1 Hlen Hout Hname Hk.
  destruct r1 as [|a r1]; [congruence|].
  destruct r2 as [|b r2]; [discriminate|].
  destruct out as [|oc out]; [congruence|].
  destruct name as [|nc name]; [congruence|].
  unfold Metaspades.run_metaspades.
  cbn [Py.truthy_list Py.truthy_str negb orb when value].
  apply Nat.eqb_eq in Hlen.
  repeat py_step. rewrite Hlen. cbn [negb when]. repeat py_step.
  rewrite Hk. reflexivity.
Qed.

Lemma run_metaspades_makedirs_fails (w : world) (r1 r2 : list string)
  (single_reads merged_reads : option (list string)) (out name : string)
  (t : Z) (memory_limit_gb : option Z) (kmers : option string)
  (ks msg : string) :
  r1 <> [] -> length r1 = length r2 -> out <> "" -> name <> "" ->
  Metaspades.validate_kmers kmers = ([], Return ks) ->
  os_makedirs w out = Some msg ->
  Metaspades.run_metaspades w (Some r1) (Some r2) single_reads merged_reads
    (Some out) (Some name) (Some t) memory_limit_gb kmers
  = ([Log INFO ("Using k-mers: " ++ ks); MakeDirs out], Raise (OSError msg)).
Proof.
  intros Hr1 Hlen Hout Hname Hk Hmk.
  destruct r1 as [|a r1]; [congruence|].
  destruct r2 as [|b r2]; [discriminate|].
  destruct out as [|oc out]; [congruence|].
  destruct name as [|nc name]; [congruence|].
  unfold Metaspades.run_metaspades.
  cbn [Py.truthy_list Py.truthy_str negb orb when value].
  apply Nat.eqb_eq in Hlen.
  repeat py_step. rewrite Hlen. cbn [negb when]. repeat py_step.
  rewrite Hk, bind_return. cbv beta. repeat py_step.
  unfold makedirs. rewrite Hmk. reflexivity.
Qed.

Lemma run_bowtie_indexing_makedirs_fails (w : world) (assembly name dir msg : string) :
  assembly <> "" -> name <> "" -> dir <> "" ->
  os_makedirs w dir = Some msg ->
  BowtieIndex.run_bowtie_indexing w (Some assembly) (Some name) (Some dir)
  = ([MakeDirs dir], Raise (OSError msg)).
Proof.
  intros Ha Hn Hd Hmk.
  destruct assembly as [|ac assembly]; [congruence|].
  destruct name as [|nc name]; [congruence|].
  destruct dir as [|dc dir]; [congruence|].
  unfold BowtieIndex.run_bowtie_indexing.
  cbn [Py.truthy_str negb when value]. repeat py_step.
  unfold makedirs. rewrite Hmk. reflexivity.
Qed.

Lemma run_mapping_makedirs_fails (w : world) (folder : string) (r1 r2 : list string)
  (single_reads : option (list string)) (out assembly metagenome : string) (t : Z)
  (msg : string) :
  folder <> "" -> r1 <> [] -> length r1 = length r2 ->
  out <> "" -> assembly <> "" -> metagenome <> "" ->
  os_makedirs w out = Some msg ->
  BowtieMapping.run_mapping w (Some folder) (Some r1) (Some r2) single_reads
    (Some out) (Some assembly) (Some metagenome) (Some t)
  = ([MakeDirs out], Raise (OSError msg)).
Proof.
  intros Hf Hr1 Hlen Hout Ha Hm Hmk.
  destruct folder as [|fc folder]; [congruence|].
  destruct r1 as [|a r1]; [congruence|].
  destruct r2 as [|b r2]; [discriminate|].
  destruct out as [|oc out]; [congruence|].
  destruct assembly as [|ac assembly]; [congruence|].
  destruct metagenome as [|mc metagenome]; [congruence|].
  unfold BowtieMapping.run_mapping.
  cbn [Py.truthy_list Py.truthy_str negb orb when value].
  apply Nat.eqb_eq in Hlen.
  repeat py_step. rewrite Hlen. cbn [negb when]. repeat py_step.
  unfold makedirs. rewrite Hmk. reflexivity.
Qed.

Lemma spades_launch_ok (w : world) (cmd : list string) :
  spawn w cmd = Exited 0 ->
  spades_launch w cmd
  = ([Run cmd; Log INFO "SPAdes execution completed successfully."], Return tt).
Proof. intros Hs. unfold spades_launch. rewrite try_launch, Hs. reflexivity. Qed.

Lemma index_launch_ok (w : world) (cmd : list string) :
  spawn w cmd = Exited 0 ->
  index_launch w cmd
  = ([Run cmd; Log INFO "Indexing execution completed successfully."], Return tt).
Proof. intros Hs. unfold index_launch. rewrite try_launch, Hs. reflexivity. Qed.

Lemma mapping_launch_ok (w : world) (cmd : list string) :
  spawn w cmd = Exited 0 ->
  mapping_launch w cmd
  = ([Run cmd; Log INFO "Bowtie2 execution completed successfully."], Return tt).
Proof. intros Hs. unfold mapping_launch. rewrite try_launch, Hs. reflexivity. Qed.

End PastChecks.

(** X8. When the other arguments pass the checks and the validator
    refuses the k-mers, [run_metaspades] ends exactly as the validator
    did, with the same exit status: the validator's records are the
    whole trace, so the output directory is not created and nothing is
    launched. *)
Theorem invalid_kmers_stop_run (w : world) (r1 r2 : list string)
  (single_reads merged_reads : option (list string)) (out name : string)
  (t : Z) (memory_limit_gb : option Z) (kmers : option string)
  (tk : list event) (c : Z) :
  r1 <> [] -> length r1 = length r2 -> out <> "" -> name <> "" ->
  Metaspades.validate_kmers kmers = (tk, Exit c) ->
  Metaspades.run_metaspades w (Some r1) (Some r2) single_reads merged_reads
    (Some out) (Some name) (Some t) memory_limit_gb kmers
  = (tk, Exit c).
Proof.
  intros Hr1 Hlen Hout Hname Hk.
  apply run_metaspades_kmers_exit; assumption.
Qed.

(** An even k-mer among the arguments of an assembly. *)
Lemma invalid_kmers_stop_run_witness :
  Metaspades.run_metaspades (world_exit 0) (Some ["a_R1.fq"]) (Some ["a_R2.fq"])
    (Some []) (Some []) (Some "out") (Some "asm") (Some 4) None (Some "21,22")
  = ([Log ERROR "Invalid k-mer value '22': K-mer value '22' must be an odd number."],
     Exit 1).
Proof.
  apply (invalid_kmers_stop_run (world_exit 0) ["a_R1.fq"] ["a_R2.fq"] (Some [])
           (Some []) "out" "asm" 4 None (Some "21,22")
           [Log ERROR "Invalid k-mer value '22': K-mer value '22' must be an odd number."]
           1);
    reflexivity || discriminate.
Defined.

(** X9. [os.makedirs] is called outside the [try] statement: when the
    output directory cannot be created, each wrapper ends with the
    uncaught [OSError] right after the call, and nothing is launched. *)
Theorem makedirs_failure_uncaught (w : world) (msg : string) :
  (forall r1 r2 single_reads merged_reads out name t memory_limit_gb kmers ks,
      r1 <> [] -> length r1 = length r2 -> out <> "" -> name <> "" ->
      Metaspades.validate_kmers kmers = ([], Return ks) ->
      os_makedirs w out = Some msg ->
      Metaspades.run_metaspades w (Some r1) (Some r2) single_reads merged_reads
        (Some out) (Some name) (Some t) memory_limit_gb kmers
      = ([Log INFO ("Using k-mers: " ++ ks); MakeDirs out], Raise (OSError msg)))
  /\ (forall assembly name dir,
      assembly <> "" -> name <> "" -> dir <> "" ->
      os_makedirs w dir = Some msg ->
      BowtieIndex.run_bowtie_indexing w (Some assembly) (Some name) (Some dir)
      = ([MakeDirs dir], Raise (OSError msg)))
  /\ (forall folder r1 r2 single_reads out assembly metagenome t,
      folder <> "" -> r1 <> [] -> length r1 = length r2 ->
      out <> "" -> assembly <> "" -> metagenome <> "" ->
      os_makedirs w out = Some msg ->
      BowtieMapping.run_mapping w (Some folder) (Some r1) (Some r2) single_reads
        (Some out) (Some assembly) (Some metagenome) (Some t)
      = ([MakeDirs out], Raise (OSError msg))).
Proof.
  split; [|split]; intros.
  - apply run_metaspades_makedirs_fails; assumption.
  - apply run_bowtie_indexing_makedirs_fails; assumption.
  - apply run_mapping_makedirs_fails; assumption.
Qed.

(** The three wrappers where no directory can be created. *)
Lemma makedirs_failure_uncaught_witness :
  Metaspades.run_metaspades world_no_mkdir (Some ["a_R1.fq"]) (Some ["a_R2.fq"])
    (Some []) (Some []) (Some "out") (Some "asm") (Some 4) None (Some "21,33")
  = ([Log INFO "Using k-mers: 21,33"; MakeDirs "out"],
     Raise (OSError "[Errno 13] Permission denied"))
  /\ BowtieIndex.run_bowtie_indexing world_no_mkdir (Some "asm.fna") (Some "asm")
       (Some "out/")
     = ([MakeDirs "out/"], Raise (OSError "[Errno 13] Permission denied"))
  /\ BowtieMapping.run_mapping world_no_mkdir (Some "/idx/") (Some ["a_R1.fq"])
       (Some ["a_R2.fq"]) (Some []) (Some "out") (Some "sampleA") (Some "mg") (Some 8)
     = ([MakeDirs "out"], Raise (OSError "[Errno 13] Permission denied")).
Proof.
  destruct (makedirs_failure_uncaught world_no_mkdir "[Errno 13] Permission denied")
    as [Hs [Hi Hm]].
  split; [|split].
  - apply (Hs ["a_R1.fq"] ["a_R2.fq"] (Some []) (Some []) "out" "asm" 4 None
             (Some "21,33") "21,33");
      reflexivity || discriminate.
  - apply (Hi "asm.fna" "asm" "out/"); reflexivity || discriminate.
  - apply (Hm "/idx/" ["a_R1.fq"] ["a_R2.fq"] (Some []) "out" "sampleA" "mg" 8);
      reflexivity || discriminate.
Defined.

(** X10. When the arguments pass the checks and the launched tool ends
    with return code 0, each wrapper logs its success record after the
    launch and returns normally. *)
Theorem tool_success_returns (w : world) :
  (forall r1 r2 single_reads merged_reads out name t memory_limit_gb kmers ks,
      r1 <> [] -> length r1 = length r2 -> out <> "" -> name <> "" ->
      Metaspades.validate_kmers kmers = ([], Return ks) ->
      os_makedirs w out = None ->
      let cmd := spades_cmd r1 r2 single_reads merged_reads out t memory_limit_gb ks in
      spawn w cmd = Exited 0 ->
      Metaspades.run_metaspades w (Some r1) (Some r2) single_reads merged_reads
        (Some out) (Some name) (Some t) memory_limit_gb kmers
      = ((spades_preamble out memory_limit_gb ks cmd
          ++ [Run cmd; Log INFO "SPAdes execution completed successfully."])%list,
         Return tt))
  /\ (forall assembly name dir,
      assembly <> "" -> name <> "" -> dir <> "" ->
      os_makedirs w dir = None ->
      let cmd := index_cmd assembly name dir in
      spawn w cmd = Exited 0 ->
      BowtieIndex.run_bowtie_indexing w (Some assembly) (Some name) (Some dir)
      = ((index_preamble dir cmd
          ++ [Run cmd; Log INFO "Indexing execution completed successfully."])%list,
         Return tt))
  /\ (forall folder r1 r2 single_reads out assembly metagenome t,
      folder <> "" -> r1 <> [] -> length r1 = length r2 ->
      out <> "" -> assembly <> "" -> metagenome <> "" ->
      os_makedirs w out = None ->
      let cmd := mapping_cmd folder r1 r2 single_reads out assembly metagenome t in
      spawn w cmd = Exited 0 ->
      BowtieMapping.run_mapping w (Some folder) (Some r1) (Some r2) single_reads
        (Some out) (Some assembly) (Some metagenome) (Some t)
      = ((mapping_preamble out cmd
          ++ [Run cmd; Log INFO "Bowtie2 execution completed successfully."])%list,
         Return tt)).
Proof.
  split; [|split].
  - intros r1 r2 single_reads merged_reads out name t memory_limit_gb kmers ks
      Hr1 Hlen Hout Hname Hk Hmk cmd Hs.
    rewrite (run_metaspades_checked w r1 r2 single_reads merged_reads out name t
               memory_limit_gb kmers ks Hr1 Hlen Hout Hname Hk Hmk).
    fold cmd. rewrite (spades_launch_ok w cmd Hs). reflexivity.
  - intros assembly name dir Ha Hn Hd Hmk cmd Hs.
    rewrite (run_bowtie_indexing_checked w assembly name dir Ha Hn Hd Hmk).
    fold cmd. rewrite (index_launch_ok w cmd Hs). reflexivity.
  - intros folder r1 r2 single_reads out assembly metagenome t
      Hf Hr1 Hlen Hout Ha Hm Hmk cmd Hs.
    rewrite (run_mapping_checked w folder r1 r2 single_reads out assembly metagenome t
               Hf Hr1 Hlen Hout Ha Hm Hmk).
    fold cmd. rewrite (mapping_launch_ok w cmd Hs). reflexivity.
Qed.

(** The index build of [asm.fna] into [out/], the tool succeeding. *)
Lemma tool_success_returns_witness :
  BowtieIndex.run_bowtie_indexing (world_exit 0) (Some "asm.fna") (Some "asm") (Some "out/")
  = ([MakeDirs "out/"; Log INFO "Index output will be written to: out/";
      Log INFO "Executing indexing command: bowtie2-build asm.fna out/asm_bowtie2_index";
      Run ["bowtie2-build"; "asm.fna"; "out/asm_bowtie2_index"];
      Log INFO "Indexing execution completed successfully."],
     Return tt).
Proof.
  apply (proj1 (proj2 (tool_success_returns (world_exit 0))) "asm.fna" "asm" "out/");
    reflexivity || discriminate.
Defined.

(** ** Every way a wrapper can end *)

Section Outcomes.

Lemma wrapper_outcome_not_exit_0 (w : world) (run : py unit) :
  wrapper_outcome w run -> result run <> Exit 0.
Proof.
  intros [[_ [H | [msg H]]] | [cmd [_ H]]]; rewrite H; try discriminate.
  destruct (spawn w cmd) as [rc|msg|msg]; try discriminate.
  destruct (rc =? 0) eqn:Hrc; [discriminate|].
  apply Z.eqb_neq in Hrc. congruence.
Qed.

Lemma wrapper_outcome_return (w : world) (run : py unit) :
  wrapper_outcome w run -> result run = Return tt ->
  exists cmd, launched (trace run) = [cmd] /\ spawn w cmd = Exited 0.
Proof.
  intros [[_ [H | [msg H]]] | [cmd [Hl H]]] Hr; rewrite H in Hr; try discriminate.
  exists cmd. split; [exact Hl|].
  destruct (spawn w cmd) as [rc|msg|msg]; try discriminate.
  destruct (rc =? 0) eqn:Hrc; [|discriminate].
  apply Z.eqb_eq in Hrc. congruence.
Qed.

Lemma wrapper_outcome_error (w : world) (msg : string) :
  wrapper_outcome w ([Log ERROR msg], Exit 1).
Proof. left. split; [reflexivity | left; reflexivity]. Qed.

Lemma launch_outcome (w : world) (cmd : list string) (ok : string)
  (h : exn -> py unit) (failed1 failed2 notfound unexpected : string) :
  (forall rc c, h (CalledProcessError rc c)
                = ([Log ERROR (failed1 ++ Py.str_int rc);
                    Log ERROR (failed2 ++ Py.repr_list c)], Exit rc)) ->
  (forall m, h (FileNotFoundError m) = ([Log ERROR notfound], Exit 1)) ->
  (forall m, h (OtherException m) = ([Log ERROR (unexpected ++ m)], Exit 1)) ->
  let launch := catch (subprocess_run w cmd ;; logger_info ok) h in
  launched (trace launch) = [cmd]
  /\ result launch = match spawn w cmd with
                     | Exited rc => if rc =? 0 then Return tt else Exit rc
                     | NotFound _ | Failed _ => Exit 1
                     end.
Proof.
  intros Hc Hn Ho launch. subst launch. rewrite try_launch.
  destruct (spawn w cmd) as [rc|m|m]; [destruct (rc =? 0)|..];
    rewrite ?Hc, ?Hn, ?Ho; split; reflexivity.
Qed.

Lemma spades_launch_outcome (w : world) (cmd : list string) :
  launched (trace (spades_launch w cmd)) = [cmd]
  /\ result (spades_launch w cmd)
     = match spawn w cmd with
       | Exited rc => if rc =? 0 then Return tt else Exit rc
       | NotFound _ | Failed _ => Exit 1
       end.
Proof.
  apply (launch_outcome w cmd _ Metaspades.run_except
           "SPAdes command failed with exit code " "Command: "
           "Error: 'spades.py' command not found. Ensure SPAdes is installed and in your PATH within the container."
           "An unexpected error occurred: "); reflexivity.
Qed.

Lemma index_launch_outcome (w : world) (cmd : list string) :
  launched (trace (index_launch w cmd)) = [cmd]
  /\ result (index_launch w cmd)
     = match spawn w cmd with
       | Exited rc => if rc =? 0 then Return tt else Exit rc
       | NotFound _ | Failed _ => Exit 1
       end.
Proof.
  apply (launch_outcome w cmd _ BowtieIndex.run_except
           "Indexing command failed with exit code " "Command: "
           "Error: 'bowtie2-build' command not found. Ensure bowtie2 is installed and in your PATH within the container."
           "An unexpected error occurred: "); reflexivity.
Qed.

Lemma mapping_launch_outcome (w : world) (cmd : list string) :
  launched (trace (mapping_launch w cmd)) = [cmd]
  /\ result (mapping_launch w cmd)
     = match spawn w cmd with
       | Exited rc => if rc =? 0 then Return tt else Exit rc
       | NotFound _ | Failed _ => Exit 1
       end.
Proof.
  apply (launch_outcome w cmd _ BowtieMapping.run_except
           "Bowtie2 command failed with exit code " "Command: "
           "Error: 'bowtie2' command not found. Ensure Bowtie2 is installed and in your PATH within the container."
           "An unexpected error occurred: "); reflexivity.
Qed.

(** The checks of [run_bowtie_indexing]: an error, or three non-empty
    strings. *)
Lemma run_bowtie_indexing_checks (w : world)
  (input_assembly output_index_name output_dir : option string) :
  (exists msg,
      BowtieIndex.run_bowtie_indexing w input_assembly output_index_name output_dir
      = ([Log ERROR msg], Exit 1))
  \/ (exists assembly name dir,
        input_assembly = Some assembly /\ output_index_name = Some name
        /\ output_dir = Some dir
        /\ assembly <> "" /\ name <> "" /\ dir <> "").
Proof.
  destruct input_assembly as [[|ac a]|];
    [left; eexists; reflexivity | | left; eexists; reflexivity].
  destruct output_index_name as [[|nc n]|];
    [left; eexists; reflexivity | | left; eexists; reflexivity].
  destruct output_dir as [[|dc d]|];
    [left; eexists; reflexivity | | left; eexists; reflexivity].
  right. do 3 eexists. repeat split; discriminate.
Qed.

Lemma run_bowtie_indexing_outcome (w : world)
  (input_assembly output_index_name output_dir : option string) :
  wrapper_outcome w
    (BowtieIndex.run_bowtie_indexing w input_assembly output_index_name output_dir).
Proof.
  destruct (run_bowtie_indexing_checks w input_assembly output_index_name output_dir)
    as [[msg ->] | [assembly [name [dir [-> [-> [-> [Ha [Hn Hd]]]]]]]]].
  - apply wrapper_outcome_error.
  - destruct (os_makedirs w dir) as [msg|] eqn:Hmk.
    + rewrite (run_bowtie_indexing_makedirs_fails w assembly name dir msg Ha Hn Hd Hmk).
      left. split; [reflexivity | right; eexists; reflexivity].
    + rewrite (run_bowtie_indexing_checked w assembly name dir Ha Hn Hd Hmk).
      destruct (index_launch_outcome w (index_cmd assembly name dir)) as [Hl Hr].
      right. exists (index_cmd assembly name dir). cbn [trace result fst snd].
      rewrite launched_app, Hl. split; [reflexivity | exact Hr].
Qed.

(** The checks of [run_metaspades]. *)
Lemma run_metaspades_checks (w : world)
  (r1_reads r2_reads single_reads merged_reads : option (list string))
  (output_dir assembly_name : option string)
  (threads memory_limit_gb : option Z) (kmers : option string) :
  (exists msg,
      Metaspades.run_metaspades w r1_reads r2_reads single_reads merged_reads
        output_dir assembly_name threads memory_limit_gb kmers
      = ([Log ERROR msg], Exit 1))
  \/ (exists r1 r2 out name t,
        r1_reads = Some r1 /\ r2_reads = Some r2 /\ output_dir = Some out
        /\ assembly_name = Some name /\ threads = Some t
        /\ r1 <> [] /\ length r1 = length r2 /\ out <> "" /\ name <> "").
Proof.
  destruct r1_reads as [[|a r1]|];
    [left; eexists; reflexivity | | left; eexists; reflexivity].
  destruct r2_reads as [[|b r2]|];
    [left; eexists; reflexivity | | left; eexists; reflexivity].
  destruct (length (a :: r1) =? length (b :: r2))%nat eqn:Hlen.
  2:{ left. eexists. unfold Metaspades.run_metaspades.
      cbn [Py.truthy_list negb orb when value]. repeat py_step.
      rewrite Hlen. reflexivity. }
  assert (Hstep : forall k : unit -> py unit,
             bind (when (negb (length (a :: r1) =? length (b :: r2))%nat)
                     (logger_error
                        "Error: Number of R1 files must match the number of R2 files." ;;
                      sys_exit 1)) k
             = k tt)
    by (intros k; rewrite Hlen; cbn [negb when]; apply bind_ret_l).
  destruct output_dir as [[|oc out]|];
    [left; eexists | | left; eexists];
    try (unfold Metaspades.run_metaspades;
         cbn [Py.truthy_list negb orb when value]; repeat py_step;
         rewrite Hstep; reflexivity).
  destruct assembly_name as [[|nc name]|];
    [left; eexists | | left; eexists];
    try (unfold Metaspades.run_metaspades;
         cbn [Py.truthy_list negb orb when value]; repeat py_step;
         rewrite Hstep; reflexivity).
  destruct threads as [t|];
    [| left; eexists; unfold Metaspades.run_metaspades;
       cbn [Py.truthy_list negb orb when value]; repeat py_step;
       rewrite Hstep; reflexivity].
  right. do 5 eexists. apply Nat.eqb_eq in Hlen.
  repeat split; try discriminate. exact Hlen.
Qed.

Lemma run_metaspades_outcome (w : world)
  (r1_reads r2_reads single_reads merged_reads : option (list string))
  (output_dir assembly_name : option string)
  (threads memory_limit_gb : option Z) (kmers : option string) :
  wrapper_outcome w
    (Metaspades.run_metaspades w r1_reads r2_reads single_reads merged_reads
       output_dir assembly_name threads memory_limit_gb kmers).
Proof.
  destruct (run_metaspades_checks w r1_reads r2_reads single_reads merged_reads
              output_dir assembly_name threads memory_limit_gb kmers)
    as [[msg ->] | [r1 [r2 [out [name [t [-> [-> [-> [-> [-> [Hr1 [Hlen [Hout Hname]]]]]]]]]]]]]].
  - apply wrapper_outcome_error.
  - destruct (validate_kmers_cases kmers) as [[ks Hk] | [k [reason Hk]]].
    + destruct (os_makedirs w out) as [msg|] eqn:Hmk.
      * rewrite (run_metaspades_makedirs_fails w r1 r2 single_reads merged_reads out
                   name t memory_limit_gb kmers ks msg Hr1 Hlen Hout Hname Hk Hmk).
        left. split; [reflexivity | right; eexists; reflexivity].
      * rewrite (run_metaspades_checked w r1 r2 single_reads merged_reads out name t
                   memory_limit_gb kmers ks Hr1 Hlen Hout Hname Hk Hmk).
        set (cmd := spades_cmd r1 r2 single_reads merged_reads out t memory_limit_gb ks).
        destruct (spades_launch_outcome w cmd) as [Hl Hr].
        right. exists cmd. cbn [trace result fst snd].
        rewrite launched_app, Hl. split; [|exact Hr].
        unfold spades_preamble. rewrite !launched_app.
        destruct memory_limit_gb; reflexivity.
    + rewrite (run_metaspades_kmers_exit w r1 r2 single_reads merged_reads out name t
                 memory_limit_gb kmers _ 1 Hr1 Hlen Hout Hname Hk).
      apply wrapper_outcome_error.
Qed.

(** The checks of [run_mapping]. *)
Lemma run_mapping_checks (w : world)
  (bowtie2_index_folder : option string)
  (r1_reads r2_reads single_reads : option (list string))
  (output_dir assembly_name metagenome_name : option string)
  (threads : option Z) :
  (exists msg,
      BowtieMapping.run_mapping w bowtie2_index_folder r1_reads r2_reads single_reads
        output_dir assembly_name metagenome_name threads
      = ([Log ERROR msg], Exit 1))
  \/ (exists folder r1 r2 out assembly metagenome t,
        bowtie2_index_folder = Some folder /\ r1_reads = Some r1 /\ r2_reads = Some r2
        /\ output_dir = Some out /\ assembly_name = Some assembly
        /\ metagenome_name = Some metagenome /\ threads = Some t
        /\ folder <> "" /\ r1 <> [] /\ length r1 = length r2
        /\ out <> "" /\ assembly <> "" /\ metagenome <> "").
Proof.
  destruct bowtie2_index_folder as [[|fc folder]|];
    [left; eexists; reflexivity | | left; eexists; reflexivity].
  destruct r1_reads as [[|a r1]|];
    [left; eexists; reflexivity | | left; eexists; reflexivity].
  destruct r2_reads as [[|b r2]|];
    [left; eexists; reflexivity | | left; eexists; reflexivity].
  destruct (length (a :: r1) =? length (b :: r2))%nat eqn:Hlen.
  2:{ left. eexists. unfold BowtieMapping.run_mapping.
      cbn [Py.truthy_str Py.truthy_list negb orb when value]. repeat py_step.
      rewrite Hlen. reflexivity. }
  assert (Hstep : forall k : unit -> py unit,
             bind (when (negb (length (a :: r1) =? length (b :: r2))%nat)
                     (logger_error
                        "Error: Number of R1 files must match the number of R2 files." ;;
                      sys_exit 1)) k
             = k tt)
    by (intros k; rewrite Hlen; cbn [negb when]; apply bind_ret_l).
  destruct output_dir as [[|oc out]|];
    [left; eexists | | left; eexists];
    try (unfold BowtieMapping.run_mapping;
         cbn [Py.truthy_str Py.truthy_list negb orb when value]; repeat py_step;
         rewrite Hstep; reflexivity).
  destruct assembly_name as [[|ac assembly]|];
    [left; eexists | | left; eexists];
    try (unfold BowtieMapping.run_mapping;
         cbn [Py.truthy_str Py.truthy_list negb orb when value]; repeat py_step;
         rewrite Hstep; reflexivity).
  destruct metagenome_name as [[|mc metagenome]|];
    [left; eexists | | left; eexists];
    try (unfold BowtieMapping.run_mapping;
         cbn [Py.truthy_str Py.truthy_list negb orb when value]; repeat py_step;
         rewrite Hstep; reflexivity).
  destruct threads as [t|];
    [| left; eexists; unfold BowtieMapping.run_mapping;
       cbn [Py.truthy_str Py.truthy_list negb orb when value]; repeat py_step;
       rewrite Hstep; reflexivity].
  right. do 7 eexists. apply Nat.eqb_eq in Hlen.
  repeat split; try discriminate. exact Hlen.
Qed.

Lemma run_mapping_outcome (w : world)
  (bowtie2_index_folder : option string)
  (r1_reads r2_reads single_reads : option (list string))
  (output_dir assembly_name metagenome_name : option string)
  (threads : option Z) :
  wrapper_outcome w
    (BowtieMapping.run_mapping w bowtie2_index_folder r1_reads r2_reads single_reads
       output_dir assembly_name metagenome_name threads).
Proof.
  destruct (run_mapping_checks w bowtie2_index_folder r1_reads r2_reads single_reads
              output_dir assembly_name metagenome_name threads)
    as [[msg ->] | [folder [r1 [r2 [out [assembly [metagenome [t
         [-> [-> [-> [-> [-> [-> [-> [Hf [Hr1 [Hlen [Hout [Ha Hm]]]]]]]]]]]]]]]]]]]].
  - apply wrapper_outcome_error.
  - destruct (os_makedirs w out) as [msg|] eqn:Hmk.
    + rewrite (run_mapping_makedirs_fails w folder r1 r2 single_reads out assembly
                 metagenome t msg Hf Hr1 Hlen Hout Ha Hm Hmk).
      left. split; [reflexivity | right; eexists; reflexivity].
    + rewrite (run_mapping_checked w folder r1 r2 single_reads out assembly metagenome t
                 Hf Hr1 Hlen Hout Ha Hm Hmk).
      set (cmd := mapping_cmd folder r1 r2 single_reads out assembly metagenome t).
      destruct (mapping_launch_outcome w cmd) as [Hl Hr].
      right. exists cmd. cbn [trace result fst snd].
      rewrite launched_app, Hl. split; [reflexivity | exact Hr].
Qed.

End Outcomes.

(** X11. Whatever the arguments and the world, [run_metaspades] ends in
    one of these ways: nothing launched and status 1 (an argument or
    k-mer error) or an uncaught [OSError] (the directory); or exactly one
    command launched and the end the launch decides (return for code 0,
    the code itself otherwise, 1 when the launch fails).  So it never
    ends with status 0 through [sys.exit], never launches twice, and
    returns normally only when the assembler ran and returned 0. *)
Theorem run_metaspades_outcomes (w : world)
  (r1_reads r2_reads single_reads merged_reads : option (list string))
  (output_dir assembly_name : option string)
  (threads memory_limit_gb : option Z) (kmers : option string) :
  let run := Metaspades.run_metaspades w r1_reads r2_reads single_reads merged_reads
               output_dir assembly_name threads memory_limit_gb kmers in
  wrapper_outcome w run
  /\ result run <> Exit 0
  /\ (result run = Return tt ->
      exists cmd, launched (trace run) = [cmd] /\ spawn w cmd = Exited 0).
Proof.
  intros run.
  pose proof (run_metaspades_outcome w r1_reads r2_reads single_reads merged_reads
                output_dir assembly_name threads memory_limit_gb kmers) as H.
  fold run in H. split; [exact H|]. split.
  - apply (wrapper_outcome_not_exit_0 w run H).
  - apply (wrapper_outcome_return w run H).
Qed.

(** X12. The same for [run_bowtie_indexing]: status 1 or an uncaught
    [OSError] with nothing launched, or one launch that decides the end;
    never [sys.exit(0)], and a normal return only when the index builder
    ran and returned 0. *)
Theorem run_bowtie_indexing_outcomes (w : world)
  (input_assembly output_index_name output_dir : option string) :
  let run := BowtieIndex.run_bowtie_indexing w input_assembly output_index_name
               output_dir in
  wrapper_outcome w run
  /\ result run <> Exit 0
  /\ (result run = Return tt ->
      exists cmd, launched (trace run) = [cmd] /\ spawn w cmd = Exited 0).
Proof.
  intros run.
  pose proof (run_bowtie_indexing_outcome w input_assembly output_index_name output_dir)
    as H.
  fold run in H. split; [exact H|]. split.
  - apply (wrapper_outcome_not_exit_0 w run H).
  - apply (wrapper_outcome_return w run H).
Qed.

(** X13. The same for [run_mapping]: status 1 or an uncaught [OSError]
    with nothing launched, or one launch that decides the end; never
    [sys.exit(0)], and a normal return only when the aligner ran and
    returned 0. *)
Theorem run_mapping_outcomes (w : world)
  (bowtie2_index_folder : option string)
  (r1_reads r2_reads single_reads : option (list string))
  (output_dir assembly_name metagenome_name : option string)
  (threads : option Z) :
  let run := BowtieMapping.run_mapping w bowtie2_index_folder r1_reads r2_reads
               single_reads output_dir assembly_name metagenome_name threads in
  wrapper_outcome w run
  /\ result run <> Exit 0
  /\ (result run = Return tt ->
      exists cmd, launched (trace run) = [cmd] /\ spawn w cmd = Exited 0).
Proof.
  intros run.
  pose proof (run_mapping_outcome w bowtie2_index_folder r1_reads r2_reads single_reads
                output_dir assembly_name metagenome_name threads) as H.
  fold run in H. split; [exact H|]. split.
  - apply (wrapper_outcome_not_exit_0 w run H).
  - apply (wrapper_outcome_return w run H).
Qed.

(** ** The whole argument vectors *)

Section Commands.

Import Metaspades.

Lemma fold_add_pair_concat (l : list (nat * (string * string))) :
  forall cmd,
    fold_left add_pair l cmd
    = (cmd ++ concat (map (fun p => pair_flags (fst p) (fst (snd p)) (snd (snd p))) l))%list.
Proof.
  induction l as [|[i [a b]] l IH]; intros cmd; cbn [fold_left map concat].
  - rewrite app_nil_r. reflexivity.
  - rewrite IH, add_pair_flags, <- app_assoc. reflexivity.
Qed.

Lemma length_concat_pair_flags (l : list (nat * (string * string))) :
  length (concat (map (fun p => pair_flags (fst p) (fst (snd p)) (snd (snd p))) l))
  = (4 * length l)%nat.
Proof.
  induction l as [|[i [a b]] l IH]; [reflexivity|].
  cbn [map concat length]. rewrite length_app, length_pair_flags, IH. lia.
Qed.

Lemma length_flat_map_flag (flag : string) (l : list string) :
  length (flat_map (fun x => [flag; x]) l) = (2 * length l)%nat.
Proof. induction l as [|x l IH]; [reflexivity|]. cbn [flat_map app length]. lia. Qed.

Lemma spades_cmd_closed (r1 r2 : list string)
  (single_reads merged_reads : option (list string))
  (out : string) (t : Z) (memory_limit_gb : option Z) (ks : string) :
  spades_cmd r1 r2 single_reads merged_reads out t memory_limit_gb ks
  = (["spades.py"; "--meta"; "-o"; out; "-t"; Py.str_int t]
     ++ match memory_limit_gb with Some m => ["-m"; Py.str_int m] | None => [] end
     ++ ["-k"; ks]
     ++ concat (map (fun p => pair_flags (fst p) (fst (snd p)) (snd (snd p)))
                  (enumerate (combine r1 r2)))
     ++ flat_map (fun x => ["-s"; x])
          match single_reads with Some l => l | None => [] end
     ++ flat_map (fun x => ["--merged"; x])
          match merged_reads with Some l => l | None => [] end)%list.
Proof.
  unfold spades_cmd.
  set (head := extend _ ["-k"; ks]).
  assert (Hhead : head
                  = (["spades.py"; "--meta"; "-o"; out; "-t"; Py.str_int t]
                     ++ match memory_limit_gb with
                        | Some m => ["-m"; Py.str_int m]
                        | None => []
                        end
                     ++ ["-k"; ks])%list)
    by (subst head; destruct memory_limit_gb; reflexivity).
  rewrite fold_add_pair_concat.
  destruct single_reads as [[|x l]|], merged_reads as [[|y l']|];
    rewrite ?fold_extend_flag, Hhead; cbn [flat_map];
    rewrite ?app_nil_r, <- ?app_assoc; reflexivity.
Qed.

End Commands.

(** X14. When the arguments pass the checks, the one command
    [run_metaspades] launches is, word for word: [spades.py --meta -o]
    and the output directory, [-t] and the threads, [-m] and the memory
    limit when one is given, [-k] and the validated k-mers, then four
    words per read pair, then [-s] and a file for every single-end file,
    then [--merged] and a file for every merged file.  Its length grows
    by four per pair and by two per single or merged file. *)
Theorem spades_command_words (w : world) (r1 r2 : list string)
  (single_reads merged_reads : option (list string)) (out name : string)
  (t : Z) (memory_limit_gb : option Z) (kmers : option string) (ks : string) :
  r1 <> [] -> length r1 = length r2 -> out <> "" -> name <> "" ->
  Metaspades.validate_kmers kmers = ([], Return ks) ->
  os_makedirs w out = None ->
  let singles := match single_reads with Some l => l | None => [] end in
  let merged := match merged_reads with Some l => l | None => [] end in
  let cmd :=
    (["spades.py"; "--meta"; "-o"; out; "-t"; Py.str_int t]
     ++ match memory_limit_gb with Some m => ["-m"; Py.str_int m] | None => [] end
     ++ ["-k"; ks]
     ++ concat (map (fun p => pair_flags (fst p) (fst (snd p)) (snd (snd p)))
                  (enumerate (combine r1 r2)))
     ++ flat_map (fun x => ["-s"; x]) singles
     ++ flat_map (fun x => ["--merged"; x]) merged)%list in
  launched (trace (Metaspades.run_metaspades w (Some r1) (Some r2) single_reads
                     merged_reads (Some out) (Some name) (Some t)
                     memory_limit_gb kmers))
  = [cmd]
  /\ length cmd
     = (8 + match memory_limit_gb with Some _ => 2 | None => 0 end
        + 4 * length r1 + 2 * length singles + 2 * length merged)%nat.
Proof.
  intros Hr1 Hlen Hout Hname Hk Hmk singles merged cmd. split.
  - rewrite (run_metaspades_checked w r1 r2 single_reads merged_reads out name t
               memory_limit_gb kmers ks Hr1 Hlen Hout Hname Hk Hmk).
    cbn [trace fst]. rewrite launched_app, spades_launch_launched.
    rewrite spades_cmd_closed. fold singles merged cmd.
    unfold spades_preamble. rewrite !launched_app.
    destruct memory_limit_gb; reflexivity.
  - subst cmd. rewrite !length_app, length_concat_pair_flags, !length_flat_map_flag.
    unfold enumerate. rewrite length_combine, length_seq, Nat.min_id.
    rewrite length_combine, <- Hlen, Nat.min_id.
    destruct memory_limit_gb; cbn [length]; lia.
Qed.

(** Two pairs, one single-end file, two merged files, a memory limit. *)
Lemma spades_command_words_witness :
  launched (trace (Metaspades.run_metaspades (world_exit 0)
                     (Some ["a_R1.fq"; "b_R1.fq"]) (Some ["a_R2.fq"; "b_R2.fq"])
                     (Some ["s.fq"]) (Some ["m1.fq"; "m2.fq"]) (Some "out") (Some "asm")
                     (Some 4) (Some 100) (Some "21,33")))
  = [["spades.py"; "--meta"; "-o"; "out"; "-t"; "4"; "-m"; "100"; "-k"; "21,33";
      "-1"; "a_R1.fq"; "-2"; "a_R2.fq"; "--pe1-1"; "b_R1.fq"; "--pe1-2"; "b_R2.fq";
      "-s"; "s.fq"; "--merged"; "m1.fq"; "--merged"; "m2.fq"]].
Proof.
  apply (spades_command_words (world_exit 0) ["a_R1.fq"; "b_R1.fq"]
           ["a_R2.fq"; "b_R2.fq"] (Some ["s.fq"]) (Some ["m1.fq"; "m2.fq"]) "out" "asm"
           4 (Some 100) (Some "21,33") "21,33");
    reflexivity || discriminate.
Defined.

(** X15. When the arguments pass the checks, the one command
    [run_mapping] launches is: [bowtie2 -x] and the index prefix, [-1]
    and the R1 files joined by commas, [-2] and the R2 files joined by
    commas, [-U] and the single-end files joined by commas unless that
    text is empty (no list, an empty list, or only empty names), [-p]
    and the threads, [-S] and the SAM file.  Eleven or thirteen words,
    however many read files there are. *)
Theorem mapping_command_words (w : world) (folder : string) (r1 r2 : list string)
  (single_reads : option (list string)) (out assembly metagenome : string) (t : Z) :
  folder <> "" -> r1 <> [] -> length r1 = length r2 ->
  out <> "" -> assembly <> "" -> metagenome <> "" ->
  os_makedirs w out = None ->
  let singles := Py.join "," match single_reads with Some l => l | None => [] end in
  let cmd :=
    (["bowtie2"; "-x"; Py.os_path_join folder (assembly ++ "_bowtie2_index")%string;
      "-1"; Py.join "," r1; "-2"; Py.join "," r2]
     ++ (if String.eqb singles "" then [] else ["-U"; singles])
     ++ ["-p"; Py.str_int t; "-S";
         Py.os_path_join out
           (metagenome ++ "_to_" ++ assembly ++ "_bowtie2.sam")%string])%list in
  launched (trace (BowtieMapping.run_mapping w (Some folder) (Some r1) (Some r2)
                     single_reads (Some out) (Some assembly) (Some metagenome)
                     (Some t)))
  = [cmd]
  /\ (length cmd = 11 \/ length cmd = 13)%nat.
Proof.
  intros Hf Hr1 Hlen Hout Ha Hm Hmk singles cmd. subst cmd singles. split.
  - rewrite (run_mapping_checked w folder r1 r2 single_reads out assembly metagenome t
               Hf Hr1 Hlen Hout Ha Hm Hmk).
    cbn [trace fst]. rewrite launched_app, mapping_launch_launched.
    unfold mapping_cmd, extend. cbn [app launched mapping_preamble].
    destruct single_reads as [[|x l]|]; try reflexivity.
    destruct (Py.join "," (x :: l)); reflexivity.
  - destruct (String.eqb _ ""); [left | right]; reflexivity.
Qed.

(** Two pairs and two single-end files. *)
Lemma mapping_command_words_witness :
  launched (trace (BowtieMapping.run_mapping (world_exit 0) (Some "/idx/")
                     (Some ["a_R1.fq"; "b_R1.fq"]) (Some ["a_R2.fq"; "b_R2.fq"])
                     (Some ["s1.fq"; "s2.fq"]) (Some "out") (Some "sampleA") (Some "mg")
                     (Some 8)))
  = [["bowtie2"; "-x"; "/idx/sampleA_bowtie2_index"; "-1"; "a_R1.fq,b_R1.fq";
      "-2"; "a_R2.fq,b_R2.fq"; "-U"; "s1.fq,s2.fq"; "-p"; "8";
      "-S"; "out/mg_to_sampleA_bowtie2.sam"]].
Proof.
  apply (mapping_command_words (world_exit 0) "/idx/" ["a_R1.fq"; "b_R1.fq"]
           ["a_R2.fq"; "b_R2.fq"] (Some ["s1.fq"; "s2.fq"]) "out" "sampleA" "mg" 8);
    reflexivity || discriminate.
Defined.

(** ** File names across the steps *)

Section FileNames.

Lemma append_inj_l (p x y : string) : p ++ x = p ++ y -> x = y.
Proof.
  induction p as [|c p IH]; cbn [String.append]; intros H; [exact H|].
  injection H as H. apply IH, H.
Qed.

Lemma starts_with_sep_app (x y : string) :
  x <> "" -> Py.starts_with_sep (x ++ y) = Py.starts_with_sep x.
Proof. destruct x as [|c x]; [congruence | reflexivity]. Qed.

(** [os.path.join] with a relative second part. *)
Lemma os_path_join_relative (a b : string) :
  a <> "" -> Py.starts_with_sep b = false ->
  Py.os_path_join a b = if Py.ends_with_sep a then a ++ b else a ++ "/" ++ b.
Proof.
  intros Ha Hb. unfold Py.os_path_join. rewrite Hb.
  destruct a as [|c a]; [congruence | reflexivity].
Qed.

(** [os.path.join] with an absolute second part. *)
Lemma os_path_join_absolute (a b : string) :
  Py.starts_with_sep b = true -> Py.os_path_join a b = b.
Proof. intros Hb. unfold Py.os_path_join. rewrite Hb. reflexivity. Qed.

Lemma mapping_cmd_shape (folder : string) (r1 r2 : list string)
  (single_reads : option (list string)) (out assembly metagenome : string) (t : Z) :
  exists middle,
    mapping_cmd folder r1 r2 single_reads out assembly metagenome t
    = ("bowtie2" :: "-x" :: Py.os_path_join folder (assembly ++ "_bowtie2_index")
       :: middle
       ++ ["-S"; Py.os_path_join out
                   (metagenome ++ "_to_" ++ assembly ++ "_bowtie2.sam")])%list.
Proof.
  unfold mapping_cmd, extend.
  destruct (match single_reads with
            | Some ((_ :: _) as l) => Py.join "," l
            | _ => ""
            end); eexists; cbn [app].
  - instantiate (1 := ["-1"; Py.join "," r1; "-2"; Py.join "," r2; "-p"; Py.str_int t]).
    reflexivity.
  - instantiate (1 := ["-1"; Py.join "," r1; "-2"; Py.join "," r2; "-U"; _;
                       "-p"; Py.str_int t]).
    reflexivity.
Qed.

Lemma run_mapping_launched (w : world) (folder : string) (r1 r2 : list string)
  (single_reads : option (list string)) (out assembly metagenome : string) (t : Z) :
  folder <> "" -> r1 <> [] -> length r1 = length r2 ->
  out <> "" -> assembly <> "" -> metagenome <> "" ->
  os_makedirs w out = None ->
  launched (trace (BowtieMapping.run_mapping w (Some folder) (Some r1) (Some r2)
                     single_reads (Some out) (Some assembly) (Some metagenome)
                     (Some t)))
  = [mapping_cmd folder r1 r2 single_reads out assembly metagenome t].
Proof.
  intros Hf Hr1 Hlen Hout Ha Hm Hmk.
  rewrite (run_mapping_checked w folder r1 r2 single_reads out assembly metagenome t
             Hf Hr1 Hlen Hout Ha Hm Hmk).
  cbn [trace fst]. rewrite launched_app, mapping_launch_launched. reflexivity.
Qed.

End FileNames.

(** X16. The alignment and the conversion agree on the SAM file: when
    the arguments pass the checks, the last two words of the command
    [run_mapping] launches are [-S] and a path, and [samtools_view],
    called with the same output directory, assembly and metagenome
    names, names that very path as the file it converts. *)
Theorem mapping_output_is_view_input (w : world) (folder : string) (r1 r2 : list string)
  (single_reads : option (list string)) (out assembly metagenome : string) (t : Z) :
  folder <> "" -> r1 <> [] -> length r1 = length r2 ->
  out <> "" -> assembly <> "" -> metagenome <> "" ->
  os_makedirs w out = None ->
  exists front sam_file bam_file,
    launched (trace (BowtieMapping.run_mapping w (Some folder) (Some r1) (Some r2)
                       single_reads (Some out) (Some assembly) (Some metagenome)
                       (Some t)))
    = [(front ++ ["-S"; sam_file])%list]
    /\ BowtieMapping.samtools_view (Some out) (Some assembly) (Some metagenome)
       = ([Log INFO ("Converting SAM file " ++ sam_file ++ " to BAM format at "
                     ++ bam_file ++ ": "
                     ++ Py.join " " ["samtools"; "view"; "-b"; sam_file; "-o"; bam_file])],
          Return tt).
Proof.
  intros Hf Hr1 Hlen Hout Ha Hm Hmk.
  destruct (mapping_cmd_shape folder r1 r2 single_reads out assembly metagenome t)
    as [middle Hshape].
  eexists (_ :: _ :: _ :: middle), _, _. split.
  - rewrite (run_mapping_launched w folder r1 r2 single_reads out assembly metagenome t
               Hf Hr1 Hlen Hout Ha Hm Hmk), Hshape.
    reflexivity.
  - apply (samtools_view_only_logs out assembly metagenome Hout Ha Hm).
Qed.

(** The run [mg] against [sampleA] in [out]. *)
Lemma mapping_output_is_view_input_witness :
  exists front sam_file bam_file,
    launched (trace (BowtieMapping.run_mapping (world_exit 0) (Some "/idx/")
                       (Some ["a_R1.fq"]) (Some ["a_R2.fq"]) (Some [])
                       (Some "out") (Some "sampleA") (Some "mg") (Some 8)))
    = [(front ++ ["-S"; sam_file])%list]
    /\ BowtieMapping.samtools_view (Some "out") (Some "sampleA") (Some "mg")
       = ([Log INFO ("Converting SAM file " ++ sam_file ++ " to BAM format at "
                     ++ bam_file ++ ": "
                     ++ Py.join " " ["samtools"; "view"; "-b"; sam_file; "-o"; bam_file])],
          Return tt).
Proof.
  apply (mapping_output_is_view_input (world_exit 0) "/idx/" ["a_R1.fq"] ["a_R2.fq"]
           (Some []) "out" "sampleA" "mg" 8);
    reflexivity || discriminate.
Defined.

(** X17. For a name that does not start with a slash, the prefix the
    index wrapper gives to [bowtie2-build] for a directory is the prefix
    the mapping wrapper gives to [bowtie2 -x] for the same directory and
    name exactly when the directory ends with a slash. *)
Theorem index_and_mapping_prefix_agree (assembly name dir : string)
  (r1 r2 : list string) (single_reads : option (list string))
  (out metagenome : string) (t : Z) :
  dir <> "" -> name <> "" -> Py.starts_with_sep name = false ->
  (exists prefix rest,
      index_cmd assembly name dir = ["bowtie2-build"; assembly; prefix]
      /\ mapping_cmd dir r1 r2 single_reads out name metagenome t
         = "bowtie2" :: "-x" :: prefix :: rest)
  <-> Py.ends_with_sep dir = true.
Proof.
  intros Hd Hn Hs.
  assert (Hrel : Py.starts_with_sep (name ++ "_bowtie2_index") = false)
    by (rewrite (starts_with_sep_app _ _ Hn); exact Hs).
  destruct (mapping_cmd_shape dir r1 r2 single_reads out name metagenome t)
    as [middle Hshape].
  split.
  - intros [prefix [rest [Hi Hm]]].
    unfold index_cmd, extend in Hi. cbn [app] in Hi. injection Hi as Hi.
    rewrite Hshape in Hm. cbn [app] in Hm. injection Hm as Hm _.
    rewrite (os_path_join_relative _ _ Hd Hrel) in Hm.
    destruct (Py.ends_with_sep dir); [reflexivity|].
    exfalso. rewrite <- Hi in Hm. apply append_inj_l in Hm.
    destruct name as [|c name]; [congruence|].
    cbn [String.append] in Hm. injection Hm as Hc _. subst c. discriminate.
  - intros He. exists (dir ++ name ++ "_bowtie2_index"). eexists. split; [reflexivity|].
    rewrite Hshape, (os_path_join_relative _ _ Hd Hrel), He. reflexivity.
Qed.

(** The directories [idx/] and [idx] with the name [asm]. *)
Lemma index_and_mapping_prefix_agree_witness :
  (exists prefix rest,
      index_cmd "asm.fna" "asm" "idx/" = ["bowtie2-build"; "asm.fna"; prefix]
      /\ mapping_cmd "idx/" ["a_R1.fq"] ["a_R2.fq"] None "out" "asm" "mg" 8
         = "bowtie2" :: "-x" :: prefix :: rest)
  /\ ~ (exists prefix rest,
      index_cmd "asm.fna" "asm" "idx" = ["bowtie2-build"; "asm.fna"; prefix]
      /\ mapping_cmd "idx" ["a_R1.fq"] ["a_R2.fq"] None "out" "asm" "mg" 8
         = "bowtie2" :: "-x" :: prefix :: rest).
Proof.
  split.
  - apply (index_and_mapping_prefix_agree "asm.fna" "asm" "idx/" ["a_R1.fq"] ["a_R2.fq"]
             None "out" "mg" 8);
      reflexivity || discriminate.
  - intros H.
    apply (index_and_mapping_prefix_agree "asm.fna" "asm" "idx" ["a_R1.fq"] ["a_R2.fq"]
             None "out" "mg" 8) in H;
      discriminate || reflexivity.
Defined.

(** X18. Where [run_mapping] puts the SAM file: under the output
    directory (a slash added unless the directory ends with one) when the
    metagenome name does not start with a slash; at the path made of the
    names alone, wherever the output directory is, when it does.  The
    output directory is created in both cases. *)
Theorem mapping_sam_file_location (w : world) (folder : string) (r1 r2 : list string)
  (single_reads : option (list string)) (out assembly metagenome : string) (t : Z) :
  folder <> "" -> r1 <> [] -> length r1 = length r2 ->
  out <> "" -> assembly <> "" -> metagenome <> "" ->
  os_makedirs w out = None ->
  let run := BowtieMapping.run_mapping w (Some folder) (Some r1) (Some r2)
               single_reads (Some out) (Some assembly) (Some metagenome) (Some t) in
  let file := metagenome ++ "_to_" ++ assembly ++ "_bowtie2.sam" in
  In (MakeDirs out) (trace run)
  /\ exists front,
       launched (trace run)
       = [(front
           ++ ["-S";
               if Py.starts_with_sep metagenome then file
               else if Py.ends_with_sep out then (out ++ file)%string
                    else (out ++ "/" ++ file)%string])%list].
Proof.
  intros Hf Hr1 Hlen Hout Ha Hm Hmk run file. subst run. split.
  - rewrite (run_mapping_checked w folder r1 r2 single_reads out assembly metagenome t
               Hf Hr1 Hlen Hout Ha Hm Hmk).
    cbn [trace fst mapping_preamble app]. left. reflexivity.
  - destruct (mapping_cmd_shape folder r1 r2 single_reads out assembly metagenome t)
      as [middle Hshape].
    eexists (_ :: _ :: _ :: middle).
    rewrite (run_mapping_launched w folder r1 r2 single_reads out assembly metagenome t
               Hf Hr1 Hlen Hout Ha Hm Hmk), Hshape.
    fold file.
    assert (Hsw : Py.starts_with_sep file = Py.starts_with_sep metagenome)
      by (apply starts_with_sep_app, Hm).
    destruct (Py.starts_with_sep metagenome) eqn:Hs.
    + rewrite (os_path_join_absolute out file Hsw). reflexivity.
    + rewrite (os_path_join_relative out file Hout Hsw). reflexivity.
Qed.

(** A metagenome called [/tmp/mg]: the SAM file leaves [out]. *)
Lemma mapping_sam_file_location_witness :
  exists front,
    launched (trace (BowtieMapping.run_mapping (world_exit 0) (Some "/idx/")
                       (Some ["a_R1.fq"]) (Some ["a_R2.fq"]) (Some [])
                       (Some "out") (Some "sampleA") (Some "/tmp/mg") (Some 8)))
    = [(front ++ ["-S"; "/tmp/mg_to_sampleA_bowtie2.sam"])%list].
Proof.
  apply (mapping_sam_file_location (world_exit 0) "/idx/" ["a_R1.fq"] ["a_R2.fq"]
           (Some []) "out" "sampleA" "/tmp/mg" 8);
    reflexivity || discriminate.
Defined.

(** ** The mapping script from end to end *)

Section MappingMain.

Import BowtieMapping.

Lemma samtools_sort_raises (out assembly metagenome : string) :
  out <> "" -> assembly <> "" -> metagenome <> "" ->
  samtools_sort script_globals (Some out) (Some assembly) (Some metagenome)
  = ([], Raise (NameError "threads")).
Proof.
  intros Ho Ha Hm. unfold samtools_sort.
  rewrite (samtools_checks_pass _ _ _ _ Ho Ha Hm). reflexivity.
Qed.

(** What follows the alignment in [main], on names that are present. *)
Lemma main_after_mapping (out assembly metagenome : string) :
  out <> "" -> assembly <> "" -> metagenome <> "" ->
  (samtools_view (Some out) (Some assembly) (Some metagenome) ;;
   samtools_sort script_globals (Some out) (Some assembly) (Some metagenome) ;;
   samtools_index (Some out) (Some assembly) (Some metagenome))
  = (trace (samtools_view (Some out) (Some assembly) (Some metagenome)),
     Raise (NameError "threads")).
Proof.
  intros Ho Ha Hm.
  rewrite (samtools_sort_raises out assembly metagenome Ho Ha Hm).
  rewrite (samtools_view_only_logs out assembly metagenome Ho Ha Hm).
  reflexivity.
Qed.

Lemma main_cases (w : world) (args : namespace) :
  let run := run_mapping w (Some (bowtie2_index_folder args)) (Some (r1 args))
               (Some (r2 args)) (Some (single args)) (Some (output_dir args))
               (Some (assembly_name args)) (Some (metagenome_name args))
               (Some (threads args)) in
  (result run = Return tt ->
   main w args
   = ((trace run
       ++ trace (samtools_view (Some (output_dir args)) (Some (assembly_name args))
                   (Some (metagenome_name args))))%list,
      Raise (NameError "threads")))
  /\ (result run <> Return tt -> main w args = run).
Proof.
  intros run. unfold main. fold run.
  destruct (run_mapping_checks w (Some (bowtie2_index_folder args)) (Some (r1 args))
              (Some (r2 args)) (Some (single args)) (Some (output_dir args))
              (Some (assembly_name args)) (Some (metagenome_name args))
              (Some (threads args)))
    as [[msg Hrun] | [folder [l1 [l2 [out [assembly [metagenome [t
         [_ [_ [_ [Ho [Ha [Hm [_ [_ [_ [_ [Hout [Hasm Hmg]]]]]]]]]]]]]]]]]]]].
  - fold run in Hrun. rewrite Hrun. split; [discriminate | reflexivity].
  - injection Ho as <-. injection Ha as <-. injection Hm as <-.
    destruct run as [tr [[]|c|e]]; split; intros Hr;
      try discriminate; try reflexivity.
    + rewrite bind_return. cbv beta.
      rewrite (main_after_mapping _ _ _ Hout Hasm Hmg). reflexivity.
    + destruct (Hr eq_refl).
Qed.

End MappingMain.

(** X19. The mapping script cannot finish: when the alignment returns
    normally, [main] logs the conversion command and then ends with the
    uncaught [NameError] of the sort step, so the index step is never
    called; when the alignment ends the process, [main] ends with it.
    In no case does [main] return. *)
Theorem mapping_main_stops_at_sort (w : world) (args : BowtieMapping.namespace) :
  let out := BowtieMapping.output_dir args in
  let assembly := BowtieMapping.assembly_name args in
  let metagenome := BowtieMapping.metagenome_name args in
  let run := BowtieMapping.run_mapping w
               (Some (BowtieMapping.bowtie2_index_folder args))
               (Some (BowtieMapping.r1 args)) (Some (BowtieMapping.r2 args))
               (Some (BowtieMapping.single args)) (Some out) (Some assembly)
               (Some metagenome) (Some (BowtieMapping.threads args)) in
  let sam_file :=
    Py.os_path_join out (metagenome ++ "_to_" ++ assembly ++ "_bowtie2.sam") in
  let bam_file :=
    Py.os_path_join out (metagenome ++ "_to_" ++ assembly ++ "_bowtie2_unsorted.bam") in
  (result run = Return tt ->
   BowtieMapping.main w args
   = ((trace run
       ++ [Log INFO ("Converting SAM file " ++ sam_file ++ " to BAM format at "
                     ++ bam_file ++ ": "
                     ++ Py.join " " ["samtools"; "view"; "-b"; sam_file; "-o"; bam_file])])%list,
      Raise (NameError "threads")))
  /\ (result run <> Return tt -> BowtieMapping.main w args = run)
  /\ result (BowtieMapping.main w args) <> Return tt.
Proof.
  intros out assembly metagenome run sam_file bam_file.
  destruct (main_cases w args) as [Hret Hstop]. fold out assembly metagenome run in Hret, Hstop.
  assert (Hview : result run = Return tt ->
                  BowtieMapping.samtools_view (Some out) (Some assembly) (Some metagenome)
                  = ([Log INFO ("Converting SAM file " ++ sam_file ++ " to BAM format at "
                                ++ bam_file ++ ": "
                                ++ Py.join " " ["samtools"; "view"; "-b"; sam_file;
                                                "-o"; bam_file])],
                     Return tt)).
  { intros Hr.
    destruct (run_mapping_checks w (Some (BowtieMapping.bowtie2_index_folder args))
                (Some (BowtieMapping.r1 args)) (Some (BowtieMapping.r2 args))
                (Some (BowtieMapping.single args)) (Some out) (Some assembly)
                (Some metagenome) (Some (BowtieMapping.threads args)))
      as [[msg Hrun] | [folder [l1 [l2 [o [a [m [t
           [_ [_ [_ [Ho [Ha [Hm [_ [_ [_ [_ [Hout [Hasm Hmg]]]]]]]]]]]]]]]]]]]].
    - fold run in Hrun. rewrite Hrun in Hr. discriminate.
    - injection Ho as <-. injection Ha as <-. injection Hm as <-.
      apply (samtools_view_only_logs out assembly metagenome Hout Hasm Hmg). }
  split; [|split].
  - intros Hr. rewrite (Hret Hr), (Hview Hr). reflexivity.
  - exact Hstop.
  - destruct (result run) as [[]|c|e] eqn:Hr.
    + rewrite (Hret eq_refl). discriminate.
    + rewrite Hstop by discriminate. rewrite Hr. discriminate.
    + rewrite Hstop by discriminate. rewrite Hr. discriminate.
Qed.

(** ** Empty k-mers *)

(** X20. With no k-mer string, or the empty one, [run_metaspades] does
    not leave [-k] out: when the arguments pass the checks it logs
    [Using k-mers: ] with nothing behind, and the command it launches
    has [-k] followed by an empty word, right after the options. *)
Theorem empty_kmers_forwarded (w : world) (r1 r2 : list string)
  (single_reads merged_reads : option (list string)) (out name : string)
  (t : Z) (memory_limit_gb : option Z) (kmers : option string) :
  r1 <> [] -> length r1 = length r2 -> out <> "" -> name <> "" ->
  os_makedirs w out = None ->
  kmers = None \/ kmers = Some "" ->
  let run := Metaspades.run_metaspades w (Some r1) (Some r2) single_reads merged_reads
               (Some out) (Some name) (Some t) memory_limit_gb kmers in
  (exists later, trace run = Log INFO "Using k-mers: " :: later)
  /\ exists rest,
       launched (trace run)
       = [(["spades.py"; "--meta"; "-o"; out; "-t"; Py.str_int t]
           ++ match memory_limit_gb with Some m => ["-m"; Py.str_int m] | None => [] end
           ++ ["-k"; ""] ++ rest)%list].
Proof.
  intros Hr1 Hlen Hout Hname Hmk Hk run. subst run.
  assert (Hv : Metaspades.validate_kmers kmers = ([], Return ""))
    by (destruct Hk as [-> | ->]; reflexivity).
  rewrite (run_metaspades_checked w r1 r2 single_reads merged_reads out name t
             memory_limit_gb kmers "" Hr1 Hlen Hout Hname Hv Hmk).
  cbn [trace fst]. split.
  - eexists. reflexivity.
  - rewrite launched_app, spades_launch_launched, spades_cmd_closed.
    eexists. unfold spades_preamble. rewrite !launched_app.
    destruct memory_limit_gb; reflexivity.
Qed.

(** An assembly called without k-mers. *)
Lemma empty_kmers_forwarded_witness :
  exists rest,
    launched (trace (Metaspades.run_metaspades (world_exit 0) (Some ["a_R1.fq"])
                       (Some ["a_R2.fq"]) (Some []) (Some []) (Some "out") (Some "asm")
                       (Some 4) None None))
    = [(["spades.py"; "--meta"; "-o"; "out"; "-t"; Py.str_int 4]
        ++ [] ++ ["-k"; ""] ++ rest)%list].
Proof.
  apply (empty_kmers_forwarded (world_exit 0) ["a_R1.fq"] ["a_R2.fq"] (Some []) (Some [])
           "out" "asm" 4 None None);
    try (reflexivity || discriminate).
  left. reflexivity.
Defined.

(** ** The steps that only log *)

(** X21. On names that are all present, [samtools_view] and
    [samtools_index] only log: one record each, with the command and its
    files joined by spaces, then a normal return; [samtools_sort] does
    the same once the module has a global [threads], whose value goes
    behind [-@].  On no arguments at all does any of the three launch a
    process. *)
Theorem post_alignment_steps_only_log (out assembly metagenome : string) :
  out <> "" -> assembly <> "" -> metagenome <> "" ->
  let sam_file :=
    Py.os_path_join out (metagenome ++ "_to_" ++ assembly ++ "_bowtie2.sam") in
  let unsorted :=
    Py.os_path_join out (metagenome ++ "_to_" ++ assembly ++ "_bowtie2_unsorted.bam") in
  let sorted :=
    Py.os_path_join out (metagenome ++ "_to_" ++ assembly ++ "_bowtie2.bam") in
  BowtieMapping.samtools_view (Some out) (Some assembly) (Some metagenome)
  = ([Log INFO ("Converting SAM file " ++ sam_file ++ " to BAM format at " ++ unsorted
                ++ ": " ++ "samtools view -b " ++ sam_file ++ " -o " ++ unsorted)],
     Return tt)
  /\ BowtieMapping.samtools_index (Some out) (Some assembly) (Some metagenome)
     = ([Log INFO ("Indexing BAM file " ++ sorted ++ ": "
                   ++ "samtools index " ++ sorted)],
        Return tt)
  /\ (forall n : Z,
        BowtieMapping.samtools_sort
          (("threads", BowtieMapping.VInt n) :: BowtieMapping.script_globals)
          (Some out) (Some assembly) (Some metagenome)
        = ([Log INFO ("Sorting BAM file " ++ unsorted ++ " to " ++ sorted ++ ": "
                      ++ "samtools sort -@ " ++ Py.str_int n ++ " " ++ unsorted
                      ++ " -o " ++ sorted)],
           Return tt))
  /\ (forall globals o a m,
        launched (trace (BowtieMapping.samtools_view o a m)) = []
        /\ launched (trace (BowtieMapping.samtools_sort globals o a m)) = []
        /\ launched (trace (BowtieMapping.samtools_index o a m)) = []).
Proof.
  intros Ho Ha Hm sam_file unsorted sorted. split; [|split; [|split]].
  - rewrite (samtools_view_only_logs out assembly metagenome Ho Ha Hm). reflexivity.
  - rewrite (samtools_index_only_logs out assembly metagenome Ho Ha Hm). reflexivity.
  - intros n.
    rewrite (samtools_sort_with_threads n out assembly metagenome Ho Ha Hm). reflexivity.
  - intros globals o a m. apply samtools_steps_launch_nothing.
Qed.

(** The three steps of the run [mg] against [sampleA] in [out], with
    eight threads for the sort. *)
Lemma post_alignment_steps_only_log_witness :
  BowtieMapping.samtools_view (Some "out") (Some "sampleA") (Some "mg")
  = ([Log INFO "Converting SAM file out/mg_to_sampleA_bowtie2.sam to BAM format at out/mg_to_sampleA_bowtie2_unsorted.bam: samtools view -b out/mg_to_sampleA_bowtie2.sam -o out/mg_to_sampleA_bowtie2_unsorted.bam"],
     Return tt)
  /\ BowtieMapping.samtools_sort
       (("threads", BowtieMapping.VInt 8) :: BowtieMapping.script_globals)
       (Some "out") (Some "sampleA") (Some "mg")
     = ([Log INFO "Sorting BAM file out/mg_to_sampleA_bowtie2_unsorted.bam to out/mg_to_sampleA_bowtie2.bam: samtools sort -@ 8 out/mg_to_sampleA_bowtie2_unsorted.bam -o out/mg_to_sampleA_bowtie2.bam"],
        Return tt).
Proof.
  destruct (post_alignment_steps_only_log "out" "sampleA" "mg" ltac:(discriminate)
              ltac:(discriminate) ltac:(discriminate))
    as [Hview [_ [Hsort _]]].
  split; [exact Hview | exact (Hsort 8)].
Defined.

(** ** The outcomes on small runs *)

(** A mapping run whose alignment succeeds. *)
Lemma mapping_main_stops_at_sort_witness :
  BowtieMapping.main (world_exit 0)
    {| BowtieMapping.bowtie2_index_folder := "/idx/";
       BowtieMapping.r1 := ["a_R1.fq"]; BowtieMapping.r2 := ["a_R2.fq"];
       BowtieMapping.single := [];
       BowtieMapping.output_dir := "out"; BowtieMapping.assembly_name := "sampleA";
       BowtieMapping.metagenome_name := "mg"; BowtieMapping.threads := 8 |}
  = ([MakeDirs "out"; Log INFO "Mapping output will be written to: out";
      Log INFO "Executing Bowtie2 mapping command: bowtie2 -x /idx/sampleA_bowtie2_index -1 a_R1.fq -2 a_R2.fq -p 8 -S out/mg_to_sampleA_bowtie2.sam";
      Run ["bowtie2"; "-x"; "/idx/sampleA_bowtie2_index"; "-1"; "a_R1.fq";
           "-2"; "a_R2.fq"; "-p"; "8"; "-S"; "out/mg_to_sampleA_bowtie2.sam"];
      Log INFO "Bowtie2 execution completed successfully.";
      Log INFO "Converting SAM file out/mg_to_sampleA_bowtie2.sam to BAM format at out/mg_to_sampleA_bowtie2_unsorted.bam: samtools view -b out/mg_to_sampleA_bowtie2.sam -o out/mg_to_sampleA_bowtie2_unsorted.bam"],
     Raise (NameError "threads")).
Proof.
  apply (proj1 (mapping_main_stops_at_sort (world_exit 0)
                  {| BowtieMapping.bowtie2_index_folder := "/idx/";
                     BowtieMapping.r1 := ["a_R1.fq"]; BowtieMapping.r2 := ["a_R2.fq"];
                     BowtieMapping.single := [];
                     BowtieMapping.output_dir := "out";
                     BowtieMapping.assembly_name := "sampleA";
                     BowtieMapping.metagenome_name := "mg";
                     BowtieMapping.threads := 8 |})).
  reflexivity.
Defined.

(** An assembly, an index build and an alignment that return. *)
Lemma run_metaspades_outcomes_witness :
  exists cmd,
    launched (trace (Metaspades.run_metaspades (world_exit 0) (Some ["a_R1.fq"])
                       (Some ["a_R2.fq"]) (Some []) (Some []) (Some "out") (Some "asm")
                       (Some 4) None (Some "21,33")))
    = [cmd]
    /\ spawn (world_exit 0) cmd = Exited 0.
Proof.
  apply (run_metaspades_outcomes (world_exit 0) (Some ["a_R1.fq"]) (Some ["a_R2.fq"])
           (Some []) (Some []) (Some "out") (Some "asm") (Some 4) None (Some "21,33")).
  reflexivity.
Defined.

Lemma run_bowtie_indexing_outcomes_witness :
  exists cmd,
    launched (trace (BowtieIndex.run_bowtie_indexing (world_exit 0) (Some "asm.fna")
                       (Some "asm") (Some "out/")))
    = [cmd]
    /\ spawn (world_exit 0) cmd = Exited 0.
Proof.
  apply (run_bowtie_indexing_outcomes (world_exit 0) (Some "asm.fna") (Some "asm")
           (Some "out/")).
  reflexivity.
Defined.

Lemma run_mapping_outcomes_witness :
  exists cmd,
    launched (trace (BowtieMapping.run_mapping (world_exit 0) (Some "/idx/")
                       (Some ["a_R1.fq"]) (Some ["a_R2.fq"]) (Some [])
                       (Some "out") (Some "sampleA") (Some "mg") (Some 8)))
    = [cmd]
    /\ spawn (world_exit 0) cmd = Exited 0.
Proof.
  apply (run_mapping_outcomes (world_exit 0) (Some "/idx/") (Some ["a_R1.fq"])
           (Some ["a_R2.fq"]) (Some []) (Some "out") (Some "sampleA") (Some "mg")
           (Some 8)).
  reflexivity.
Defined.
